(** * Notification preferences and dispatch of the activities API

    A shallow embedding of the e-mail notification code of the school
    activities service:

    - [email_preferences.py]: the per-user preference record, the
      process-wide preference dictionary and the decision functions;
    - [email_service.py]: [EmailService.send_email] and the wrappers that
      compose one message per event;
    - [celery_tasks.py]: the background tasks that gate a message on the
      preferences;
    - [app.py]: the HTTP handlers that enqueue those tasks.

    Python dictionaries are finite maps ([gmap]) where only membership and
    lookup are observed, and association lists where the dictionary is a
    returned JSON object.  Module-level mutable objects are threaded
    explicitly: every function takes the state it reads and returns the
    state it leaves behind.  What lies outside the repository (the
    address check of the model library, the template engine, the message
    schema, the mail transport, the broker) is a section variable or a
    piece of explicit state. *)

From stdpp Require Import gmap strings list fin_maps pretty.

Open Scope string_scope.

(** ** Python values and outcomes *)

(** The values that occur in template contexts and in returned JSON
    objects. *)
Inductive PyVal : Type :=
  | VNone
  | VBool (b : bool)
  | VInt (z : Z)
  | VStr (s : string).

(** A raised exception.  Only instances of [Exception] are represented:
    this is what [except Exception] handles and what the model library,
    the template engine, the message schema and the transport raise. *)
Record PyExn : Type := Exception { exn_class : string; exn_msg : string }.

(** A call either returns a value or raises. *)
Inductive PyResult (A : Type) : Type :=
  | Return (a : A)
  | Raise (e : PyExn).
Arguments Return {A} a.
Arguments Raise {A} e.

(** Computations over a mutable state [S] that may raise. *)
Definition Py (S A : Type) : Type := S -> PyResult A * S.

Definition ret {S A} (a : A) : Py S A := fun s => (Return a, s).

Definition bind {S A B} (m : Py S A) (k : A -> Py S B) : Py S B :=
  fun s => match m s with
           | (Return a, s') => k a s'
           | (Raise e, s') => (Raise e, s')
           end.

(** [try: body except Exception as e: handler e]. *)
Definition try_except {S A} (body : Py S A) (handler : PyExn -> Py S A) : Py S A :=
  fun s => match body s with
           | (Return a, s') => (Return a, s')
           | (Raise e, s') => handler e s'
           end.

Declare Scope py_scope.
Delimit Scope py_scope with py.
Notation "'let*' x := m 'in' k" := (bind m (fun x => k))
  (at level 10, x pattern, m at level 100, k at level 200) : py_scope.
Notation "m ;; k" := (bind m (fun _ => k))
  (at level 100, k at level 200, right associativity) : py_scope.

(** Truth value of a list, as [if not recipients] reads it. *)
Definition list_truthy {A} (l : list A) : bool :=
  match l with [] => false | _ :: _ => true end.

(** Truth value of an [Optional[str]]: [None] and the empty string are
    false. *)
Definition opt_str_truthy (o : option string) : bool :=
  match o with
  | None => false
  | Some s => negb (String.eqb s "")
  end.

(** ** email_preferences.py *)

Module email_preferences.

Inductive EmailFrequency : Type :=
  | IMMEDIATE
  | DAILY_DIGEST
  | WEEKLY_DIGEST
  | DISABLED.

Definition EmailFrequency_value (f : EmailFrequency) : string :=
  match f with
  | IMMEDIATE => "immediate"
  | DAILY_DIGEST => "daily"
  | WEEKLY_DIGEST => "weekly"
  | DISABLED => "disabled"
  end.

#[global] Instance EmailFrequency_eq_dec : EqDecision EmailFrequency.
Proof. solve_decision. Defined.

Module NotificationCategory.
Inductive t : Type :=
  | SIGNUP_CONFIRMATION
  | UNREGISTER_CONFIRMATION
  | ACTIVITY_CHANGES
  | REMINDERS
  | WEEKLY_DIGEST
  | NEW_ACTIVITIES
  | ATTENDANCE.

Definition value (c : t) : string :=
  match c with
  | SIGNUP_CONFIRMATION => "signup_confirmation"
  | UNREGISTER_CONFIRMATION => "unregister_confirmation"
  | ACTIVITY_CHANGES => "activity_changes"
  | REMINDERS => "reminders"
  | WEEKLY_DIGEST => "weekly_digest"
  | NEW_ACTIVITIES => "new_activities"
  | ATTENDANCE => "attendance"
  end.

#[global] Instance eq_dec : EqDecision t.
Proof. solve_decision. Defined.
End NotificationCategory.

(** [class EmailPreferences(BaseModel)].  [email] and [parent_email]
    are address fields ([EmailStr]): a record holds addresses that the
    model library has checked and put in normal form. *)
Record EmailPreferences : Type := mkEmailPreferences {
  email : string;
  enabled : bool;
  frequency : EmailFrequency;
  signup_confirmation : bool;
  unregister_confirmation : bool;
  activity_changes : bool;
  reminders : bool;
  weekly_digest : bool;
  new_activities : bool;
  attendance : bool;
  parent_email : option string;
  parent_cc_enabled : bool;
  digest_only : bool
}.

(** The record with the address [email] and every other field at the
    default written in the class body. *)
Definition EmailPreferences_default (email : string) : EmailPreferences :=
  {| email := email;
     enabled := true;
     frequency := IMMEDIATE;
     signup_confirmation := true;
     unregister_confirmation := true;
     activity_changes := true;
     reminders := true;
     weekly_digest := true;
     new_activities := true;
     attendance := true;
     parent_email := None;
     parent_cc_enabled := false;
     digest_only := false |}.

(** The module-level dictionary [user_preferences]. *)
Abbreviation Store := (gmap string EmailPreferences).

Section Model.

(** The check of the [EmailStr] field type: the address in normal form
    (the library rewrites part of it, so the result may differ from the
    string given), or the [ValidationError] the library raises for a
    string that is not an address. *)
Variable email_str : string -> PyResult string.

(** [EmailPreferences(email=email)]: the constructor checks the address
    and stores its normal form. *)
Definition EmailPreferences_init (email : string) : PyResult EmailPreferences :=
  match email_str email with
  | Return address => Return (EmailPreferences_default address)
  | Raise e => Raise e
  end.

(** On a miss the record is built first; when the constructor raises,
    nothing is stored. *)
Definition get_user_preferences (email : string) : Py Store EmailPreferences :=
  fun user_preferences =>
    match user_preferences !! email with
    | Some prefs => (Return prefs, user_preferences)
    | None =>
        match EmailPreferences_init email with
        | Return prefs => (Return prefs, <[email := prefs]> user_preferences)
        | Raise e => (Raise e, user_preferences)
        end
    end.

Definition update_user_preferences (email : string) (preferences : EmailPreferences)
    (user_preferences : Store) : EmailPreferences * Store :=
  (preferences, <[email := preferences]> user_preferences).

(** The dictionary literal [category_map], in the order it is written. *)
Definition category_map (prefs : EmailPreferences)
  : list (NotificationCategory.t * bool) :=
  [ (NotificationCategory.SIGNUP_CONFIRMATION, signup_confirmation prefs);
    (NotificationCategory.UNREGISTER_CONFIRMATION, unregister_confirmation prefs);
    (NotificationCategory.ACTIVITY_CHANGES, activity_changes prefs);
    (NotificationCategory.REMINDERS, reminders prefs);
    (NotificationCategory.WEEKLY_DIGEST, weekly_digest prefs);
    (NotificationCategory.NEW_ACTIVITIES, new_activities prefs);
    (NotificationCategory.ATTENDANCE, attendance prefs) ].

(** [d.get(key, default)] on a dictionary literal without repeated keys. *)
Fixpoint dict_get {K V} `{EqDecision K} (d : list (K * V)) (key : K) (default : V) : V :=
  match d with
  | [] => default
  | (k, v) :: d' => if decide (k = key) then v else dict_get d' key default
  end.

(** The decision taken on a preference record once it has been fetched. *)
Definition should_send_with (prefs : EmailPreferences) (category : NotificationCategory.t)
  : bool :=
  if negb (enabled prefs) || bool_decide (frequency prefs = DISABLED) then false
  else if digest_only prefs
          && negb (bool_decide (category = NotificationCategory.WEEKLY_DIGEST))
  then false
  else dict_get (category_map prefs) category true.

Definition should_send_email (email : string) (category : NotificationCategory.t)
  : Py Store bool :=
  (let* prefs := get_user_preferences email in
   ret (should_send_with prefs category))%py.

Definition parent_email_of (prefs : EmailPreferences) : option string :=
  if parent_cc_enabled prefs && opt_str_truthy (parent_email prefs)
  then parent_email prefs
  else None.

Definition get_parent_email (email : string) : Py Store (option string) :=
  (let* prefs := get_user_preferences email in
   ret (parent_email_of prefs))%py.

End Model.

(** Returns the dictionary itself, not a copy. *)
Definition get_all_preferences (user_preferences : Store) : Store * Store :=
  (user_preferences, user_preferences).

Definition delete_user_preferences (email : string) (user_preferences : Store)
  : bool * Store :=
  match user_preferences !! email with
  | Some _ => (true, delete email user_preferences)
  | None => (false, user_preferences)
  end.

End email_preferences.

(** ** email_service.py *)

Module email_service.

(** [fastapi_mail.MessageSchema], with [subtype=MessageType.html]. *)
Record MessageSchema : Type := mkMessageSchema {
  subject : string;
  recipients : list string;
  body : string;
  subtype : string;
  cc : option (list string)
}.

(** What the service does to the outside world, in order: log records,
    calls of the template engine, calls of the mail transport. *)
Inductive Event : Type :=
  | EvLog (level : string) (text : string) (recipients : list string) (detail : string)
  | EvGetTemplate (template_file : string)
  | EvRender (template_file : string) (context : gmap string PyVal)
  | EvSend (message : MessageSchema).

Abbreviation Trace := (list Event).

Definition is_render (e : Event) : bool :=
  match e with EvGetTemplate _ | EvRender _ _ => true | _ => false end.

Definition is_send (e : Event) : bool :=
  match e with EvSend _ => true | _ => false end.

(** The calls of the template engine and of the transport in a trace. *)
Definition contacts (t : Trace) : Trace :=
  filter (fun e => is_render e || is_send e) t.

(** [class EmailService]: [enabled] is [is_email_enabled()] at
    construction, true when both credentials are in the environment. *)
Record EmailService : Type := mkEmailService { enabled : bool }.

Section Service.

(** [jinja_env.get_template(file)]: the engine finds and loads the
    template, or raises. *)
Variable jinja_get_template : string -> PyResult unit.

(** [template.render] of the loaded template on the context: the markup,
    or the exception the engine raises. *)
Variable jinja_render : string -> gmap string PyVal -> PyResult string.

(** The check run by the constructor [MessageSchema(...)]: the schema
    accepts the fields, or raises. *)
Variable schema_validate : MessageSchema -> PyResult unit.

(** [await self.mail.send_message(message)]. *)
Variable mail_send_message : MessageSchema -> PyResult unit.

Definition emit (e : Event) : Py Trace unit :=
  fun t => (Return tt, (t ++ [e])%list).

Definition external {A} (e : Event) (r : PyResult A) : Py Trace A :=
  fun t => (r, (t ++ [e])%list).

(** A call that leaves no event behind. *)
Definition silent {A} (r : PyResult A) : Py Trace A :=
  fun t => (r, t).

Definition send_email (self : EmailService) (recipients : list string)
    (subject template_name : string) (context : gmap string PyVal)
    (cc : option (list string)) : Py Trace bool :=
  (if negb (enabled self) then
     emit (EvLog "info" "Email service disabled. Would send to" recipients subject) ;;
     ret false
   else
     try_except
       (let file := template_name ++ ".html" in
        external (EvGetTemplate file) (jinja_get_template file) ;;
        let context := <["subject" := VStr subject]> context in
        let* html_content := external (EvRender file context) (jinja_render file context) in
        let message :=
          {| subject := subject; recipients := recipients; body := html_content;
             subtype := "html"; cc := cc |} in
        silent (schema_validate message) ;;
        external (EvSend message) (mail_send_message message) ;;
        emit (EvLog "info" "Email sent successfully to" recipients subject) ;;
        ret true)
       (fun e =>
          emit (EvLog "error" "Failed to send email to" recipients (exn_msg e)) ;;
          ret false))%py.

Definition opt_str (o : option string) : PyVal :=
  match o with None => VNone | Some s => VStr s end.

(** [[parent_email] if parent_email else None]. *)
Definition cc_of (parent_email : option string) : option (list string) :=
  match parent_email with
  | Some p => if opt_str_truthy parent_email then Some [p] else None
  | None => None
  end.

Definition send_signup_confirmation (self : EmailService)
    (student_email activity_name schedule description : string)
    (student_name parent_email : option string) : Py Trace bool :=
  let context : gmap string PyVal :=
    <["description" := VStr description]>
      (<["schedule" := VStr schedule]>
         (<["activity_name" := VStr activity_name]>
            (<["student_name" := opt_str student_name]> ∅))) in
  send_email self [student_email]
    ("Confirmed: " ++ activity_name ++ " Registration")
    "signup_confirmation" context (cc_of parent_email).

Definition send_unregister_confirmation (self : EmailService)
    (student_email activity_name schedule : string)
    (student_name parent_email : option string) : Py Trace bool :=
  let context : gmap string PyVal :=
    <["schedule" := VStr schedule]>
      (<["activity_name" := VStr activity_name]>
         (<["student_name" := opt_str student_name]> ∅)) in
  send_email self [student_email]
    ("Unregistration Confirmed: " ++ activity_name)
    "unregister_confirmation" context (cc_of parent_email).

Definition send_activity_change_notification (self : EmailService)
    (recipients : list string) (activity_name change_description : string)
    (new_schedule student_name : option string) : Py Trace bool :=
  let context : gmap string PyVal :=
    <["new_schedule" := opt_str new_schedule]>
      (<["change_description" := VStr change_description]>
         (<["activity_name" := VStr activity_name]>
            (<["student_name" := opt_str student_name]> ∅))) in
  send_email self recipients
    ("Important Update: " ++ activity_name)
    "activity_change" context None.

Definition send_reminder_email (self : EmailService)
    (student_email activity_name schedule next_session : string)
    (student_name : option string) : Py Trace bool :=
  let context : gmap string PyVal :=
    <["next_session" := VStr next_session]>
      (<["schedule" := VStr schedule]>
         (<["activity_name" := VStr activity_name]>
            (<["student_name" := opt_str student_name]> ∅))) in
  send_email self [student_email]
    ("Reminder: " ++ activity_name ++ " Coming Up!")
    "reminder" context None.

Definition send_new_activity_announcement (self : EmailService)
    (recipients : list string) (activity_name schedule description : string)
    (max_participants : Z) (portal_url : string) (student_name : option string)
  : Py Trace bool :=
  let context : gmap string PyVal :=
    <["portal_url" := VStr portal_url]>
      (<["max_participants" := VInt max_participants]>
         (<["description" := VStr description]>
            (<["schedule" := VStr schedule]>
               (<["activity_name" := VStr activity_name]>
                  (<["student_name" := opt_str student_name]> ∅))))) in
  send_email self recipients
    ("New Activity Available: " ++ activity_name)
    "new_activity" context None.

End Service.

End email_service.

(** ** celery_tasks.py *)

Module celery_tasks.
Import email_preferences email_service.

(** The state a worker process holds: the preference dictionary of
    [email_preferences] and the trace of what the e-mail service did. *)
Record World : Type := mkWorld {
  user_preferences : Store;
  trace : Trace
}.

(** A call into [email_preferences]; what it raises goes on to the
    caller. *)
Definition on_prefs {A} (f : Py Store A) : Py World A :=
  fun w => let '(r, st) := f (user_preferences w) in
           (r, {| user_preferences := st; trace := trace w |}).

(** [run_async(coro)]: runs the coroutine of the e-mail service to its
    end on a fresh event loop. *)
Definition run_async {A} (coro : Py Trace A) : Py World A :=
  fun w => let '(r, t) := coro (trace w) in
           (r, {| user_preferences := user_preferences w; trace := t |}).

(** A returned JSON object. *)
Abbreviation Dict := (list (string * PyVal)).

Definition status_of (result : bool) : PyVal :=
  VStr (if result then "sent" else "failed").

Section Tasks.

Variable email_str : string -> PyResult string.

(** The comprehension
    [[email for email in recipients if should_send_email(email, category)]]:
    the calls are made from left to right on the shared dictionary, and
    the first one that raises ends the comprehension. *)
Fixpoint filter_recipients (category : NotificationCategory.t)
    (recipients : list string) : Py Store (list string) :=
  match recipients with
  | [] => ret []
  | email :: rest =>
      (let* keep := should_send_email email_str email category in
       let* kept := filter_recipients category rest in
       ret (if keep then email :: kept else kept))%py
  end.

Variable jinja_get_template : string -> PyResult unit.
Variable jinja_render : string -> gmap string PyVal -> PyResult string.
Variable schema_validate : MessageSchema -> PyResult unit.
Variable mail_send_message : MessageSchema -> PyResult unit.

(** The module-level instance [email_service = EmailService()]. *)
Variable the_service : EmailService.

Definition send_signup_confirmation_task
    (student_email activity_name schedule description : string)
    (student_name : option string) : Py World Dict :=
  (let* allowed := on_prefs (should_send_email email_str student_email
                               NotificationCategory.SIGNUP_CONFIRMATION) in
   if negb allowed then
     ret [("status", VStr "skipped"); ("reason", VStr "user preferences")]
   else
     let* parent_email := on_prefs (get_parent_email email_str student_email) in
     let* result := run_async
       (send_signup_confirmation jinja_get_template jinja_render
          schema_validate mail_send_message
          the_service student_email activity_name schedule description
          student_name parent_email) in
     ret [("status", status_of result)])%py.

Definition send_unregister_confirmation_task
    (student_email activity_name schedule : string)
    (student_name : option string) : Py World Dict :=
  (let* allowed := on_prefs (should_send_email email_str student_email
                               NotificationCategory.UNREGISTER_CONFIRMATION) in
   if negb allowed then
     ret [("status", VStr "skipped"); ("reason", VStr "user preferences")]
   else
     let* parent_email := on_prefs (get_parent_email email_str student_email) in
     let* result := run_async
       (send_unregister_confirmation jinja_get_template jinja_render
          schema_validate mail_send_message
          the_service student_email activity_name schedule
          student_name parent_email) in
     ret [("status", status_of result)])%py.

Definition send_activity_change_task
    (recipients : list string) (activity_name change_description : string)
    (new_schedule : option string) : Py World Dict :=
  (let* filtered_recipients :=
     on_prefs (filter_recipients NotificationCategory.ACTIVITY_CHANGES recipients) in
   if negb (list_truthy filtered_recipients) then
     ret [("status", VStr "skipped");
          ("reason", VStr "no recipients with enabled preferences")]
   else
     let* result := run_async
       (send_activity_change_notification jinja_get_template jinja_render schema_validate
          mail_send_message the_service filtered_recipients activity_name
          change_description new_schedule None) in
     ret [("status", status_of result);
          ("recipients", VInt (Z.of_nat (length filtered_recipients)))])%py.

Definition send_reminder_task
    (student_email activity_name schedule next_session : string)
    (student_name : option string) : Py World Dict :=
  (let* allowed := on_prefs (should_send_email email_str student_email
                               NotificationCategory.REMINDERS) in
   if negb allowed then
     ret [("status", VStr "skipped"); ("reason", VStr "user preferences")]
   else
     let* result := run_async
       (send_reminder_email jinja_get_template jinja_render
          schema_validate mail_send_message
          the_service student_email activity_name schedule next_session
          student_name) in
     ret [("status", status_of result)])%py.

Definition send_new_activity_announcement_task
    (recipients : list string) (activity_name schedule description : string)
    (max_participants : Z) (portal_url : string) : Py World Dict :=
  (let* filtered_recipients :=
     on_prefs (filter_recipients NotificationCategory.NEW_ACTIVITIES recipients) in
   if negb (list_truthy filtered_recipients) then
     ret [("status", VStr "skipped");
          ("reason", VStr "no recipients with enabled preferences")]
   else
     let* result := run_async
       (send_new_activity_announcement jinja_get_template jinja_render schema_validate
          mail_send_message the_service filtered_recipients activity_name
          schedule description max_participants portal_url None) in
     ret [("status", status_of result);
          ("recipients", VInt (Z.of_nat (length filtered_recipients)))])%py.

(** The loop of [send_batch_emails_task]: one [send_email] per recipient,
    the outcomes collected in order. *)
Fixpoint batch_results (recipients : list string) (subject template_name : string)
    (context : gmap string PyVal) : Py World (list (string * bool)) :=
  match recipients with
  | [] => ret []
  | recipient :: rest =>
      (let* result := run_async
         (send_email jinja_get_template jinja_render
          schema_validate mail_send_message
            the_service [recipient] subject template_name context None) in
       let* results := batch_results rest subject template_name context in
       ret ((recipient, result) :: results))%py
  end.

Definition send_batch_emails_task (recipients : list string)
    (subject template_name : string) (context : gmap string PyVal)
  : Py World Dict :=
  (let* results := batch_results recipients subject template_name context in
   let sent_count := length (filter (fun r => Is_true (snd r)) results) in
   ret [("status", VStr "completed");
        ("total", VInt (Z.of_nat (length recipients)));
        ("sent", VInt (Z.of_nat sent_count));
        ("failed", VInt (Z.of_nat (length recipients) - Z.of_nat sent_count))])%py.

End Tasks.

End celery_tasks.

(** ** app.py *)

Module app.
Import email_preferences email_service celery_tasks.

(** One entry of the in-memory activity database. *)
Record Activity : Type := mkActivity {
  description : string;
  schedule : string;
  max_participants : Z;
  participants : list string
}.

(** A task invocation as [task.delay(...)] serialises it for the broker. *)
Inductive TaskCall : Type :=
  | SignupConfirmation (student_email activity_name schedule description : string)
  | UnregisterConfirmation (student_email activity_name schedule : string)
  | NewActivityAnnouncement (recipients : list string)
      (activity_name schedule description : string) (max_participants : Z)
  | BatchEmails (recipients : list string) (subject template_name : string)
      (context : gmap string PyVal).

(** The asynchronous channel: the broker queue behind [delay].  When the
    broker cannot be reached, [delay] raises [outage]. *)
Record Broker : Type := mkBroker {
  outage : option PyExn;
  queue : list TaskCall
}.

(** The state of the web process. *)
Record App : Type := mkApp {
  activities : gmap string Activity;
  broker : Broker;
  warnings : list string
}.

(** [task.delay(...)]: appends the call to the queue, or raises. *)
Definition delay (call : TaskCall) : Py App unit :=
  fun a =>
    match outage (broker a) with
    | Some e => (Raise e, a)
    | None =>
        (Return tt,
         {| activities := activities a;
            broker := {| outage := None; queue := (queue (broker a) ++ [call])%list |};
            warnings := warnings a |})
    end.

(** [logger.warning(text)]. *)
Definition warning (text : string) : Py App unit :=
  fun a => (Return tt,
            {| activities := activities a; broker := broker a;
               warnings := (warnings a ++ [text])%list |}).

Definition set_activity (name : string) (activity : Activity) : Py App unit :=
  fun a => (Return tt,
            {| activities := <[name := activity]> (activities a);
               broker := broker a; warnings := warnings a |}).

(** What a handler gives back to the HTTP layer. *)
Inductive HTTPResult : Type :=
  | HTTPException (status_code : nat) (detail : string)
  | Response (body : Dict).

(** A handler body has caught every exception of its own. *)
Definition handler (m : Py App HTTPResult) : App -> HTTPResult * App :=
  fun a => match m a with
           | (Return r, a') => (r, a')
           | (Raise e, a') => (HTTPException 500 (exn_msg e), a')
           end.

Definition signup_for_activity (activity_name email : string)
  : App -> HTTPResult * App :=
  fun a =>
    match activities a !! activity_name with
    | None => (HTTPException 404 "Activity not found", a)
    | Some activity =>
        if bool_decide (email ∈ participants activity) then
          (HTTPException 400 "Student is already signed up", a)
        else
          handler
            (set_activity activity_name
               {| description := description activity;
                  schedule := schedule activity;
                  max_participants := max_participants activity;
                  participants := (participants activity ++ [email])%list |} ;;
             try_except
               (delay (SignupConfirmation email activity_name
                         (schedule activity) (description activity)))
               (fun e => warning ("Failed to queue confirmation email: " ++ exn_msg e)) ;;
             ret (Response
                    [("message",
                      VStr ("Signed up " ++ email ++ " for " ++ activity_name))]))%py
            a
    end.

(** [list.remove(x)]: drops the first occurrence. *)
Fixpoint list_remove (x : string) (l : list string) : list string :=
  match l with
  | [] => []
  | y :: l' => if decide (y = x) then l' else y :: list_remove x l'
  end.

Definition unregister_from_activity (activity_name email : string)
  : App -> HTTPResult * App :=
  fun a =>
    match activities a !! activity_name with
    | None => (HTTPException 404 "Activity not found", a)
    | Some activity =>
        if negb (bool_decide (email ∈ participants activity)) then
          (HTTPException 400 "Student is not signed up for this activity", a)
        else
          handler
            (set_activity activity_name
               {| description := description activity;
                  schedule := schedule activity;
                  max_participants := max_participants activity;
                  participants := list_remove email (participants activity) |} ;;
             try_except
               (delay (UnregisterConfirmation email activity_name (schedule activity)))
               (fun e => warning ("Failed to queue confirmation email: " ++ exn_msg e)) ;;
             ret (Response
                    [("message",
                      VStr ("Unregistered " ++ email ++ " from " ++ activity_name))]))%py
            a
    end.

Definition send_batch_announcement (recipients : list string)
    (subject template_name : string) (context : gmap string PyVal)
  : App -> HTTPResult * App :=
  fun a =>
    if negb (list_truthy recipients) then
      (HTTPException 400 "No recipients specified", a)
    else
      handler
        (try_except
           (delay (BatchEmails recipients subject template_name context) ;;
            ret (Response
                   [("message",
                     VStr ("Batch emails queued for " ++ pretty (length recipients)
                           ++ " recipients"));
                    ("recipients_count", VInt (Z.of_nat (length recipients)))]))
           (fun e =>
              warning ("Failed to queue batch emails: " ++ exn_msg e) ;;
              ret (Response
                     [("message",
                       VStr "Could not queue batch emails (task queue unavailable)");
                      ("recipients_count", VInt (Z.of_nat (length recipients)));
                      ("warning", VStr "Email service may not be available")])))%py
        a.

Section Worker.

Variable email_str : string -> PyResult string.
Variable jinja_get_template : string -> PyResult unit.
Variable jinja_render : string -> gmap string PyVal -> PyResult string.
Variable schema_validate : MessageSchema -> PyResult unit.
Variable mail_send_message : MessageSchema -> PyResult unit.
Variable the_service : EmailService.

(** The worker side of the channel: the task named by a queued call is
    run with the call's arguments, the omitted ones at their defaults. *)
Definition run_task (call : TaskCall) : Py World Dict :=
  match call with
  | SignupConfirmation student_email activity_name schedule description =>
      send_signup_confirmation_task email_str jinja_get_template jinja_render
          schema_validate mail_send_message
        the_service
        student_email activity_name schedule description None
  | UnregisterConfirmation student_email activity_name schedule =>
      send_unregister_confirmation_task email_str jinja_get_template jinja_render
          schema_validate mail_send_message
        the_service
        student_email activity_name schedule None
  | NewActivityAnnouncement recipients activity_name schedule description
      max_participants =>
      send_new_activity_announcement_task email_str jinja_get_template jinja_render
          schema_validate mail_send_message
        the_service
        recipients activity_name schedule description max_participants
        "http://localhost:8000"
  | BatchEmails recipients subject template_name context =>
      send_batch_emails_task jinja_get_template jinja_render
          schema_validate mail_send_message
        the_service
        recipients subject template_name context
  end.

End Worker.

End app.

(** ** app.py, the remaining handlers *)

Module app_endpoints.
Import email_preferences email_service celery_tasks app.

(** What the preference handlers give back: an [HTTPException], or the
    body they return. *)
Inductive PrefReply : Type :=
  | PrefError (status_code : nat) (detail : string)
  | PrefRecord (preferences : EmailPreferences)
  | PrefUpdated (message : string) (preferences : EmailPreferences)
  | PrefMessage (message : string)
  | PrefAll (all_preferences : Store).

Section GetPreferences.

Variable email_str : string -> PyResult string.

(** The handler has no [try]: what [get_user_preferences] raises leaves
    the handler. *)
Definition get_email_preferences (email : string) : Py Store PrefReply :=
  (let* preferences := get_user_preferences email_str email in
   ret (PrefRecord preferences))%py.

End GetPreferences.

Definition set_email_preferences (email : string) (preferences : EmailPreferences)
    (user_preferences : Store) : PrefReply * Store :=
  if negb (bool_decide (email = email_preferences.email preferences)) then
    (PrefError 400 "Email in path must match email in preferences", user_preferences)
  else
    let '(updated_prefs, user_preferences) :=
      update_user_preferences email preferences user_preferences in
    (PrefUpdated "Preferences updated successfully" updated_prefs, user_preferences).

Definition remove_email_preferences (email : string) (user_preferences : Store)
  : PrefReply * Store :=
  let '(deleted, user_preferences) := delete_user_preferences email user_preferences in
  if deleted then (PrefMessage "Preferences deleted successfully", user_preferences)
  else (PrefError 404 "Preferences not found", user_preferences).

Definition list_all_preferences (user_preferences : Store) : PrefReply * Store :=
  let '(all_preferences, user_preferences) := get_all_preferences user_preferences in
  (PrefAll all_preferences, user_preferences).

(** The web process as [announce_new_activity] sees it: the activity
    database and the broker, and the preference dictionary of this
    process. *)
Record Web : Type := mkWeb {
  web_app : App;
  web_preferences : Store
}.

(** A step that only concerns the activity database, the broker or the
    log. *)
Definition on_app {A} (m : Py App A) : Py Web A :=
  fun w => let '(r, a) := m (web_app w) in
           (r, {| web_app := a; web_preferences := web_preferences w |}).

(** Truth value of an [Optional[List[str]]]. *)
Definition opt_list_truthy {A} (o : option (list A)) : bool :=
  match o with
  | None => false
  | Some l => list_truthy l
  end.

Section Announce.

(** [dict.items()]: the entries of the dictionary in insertion order.  The
    finite map does not record that order, so the enumeration is given
    from outside. *)
Variable items : Store -> list (string * EmailPreferences).

(** The comprehension
    [[email for email, prefs in all_prefs.items()
      if prefs.new_activities and prefs.enabled]]. *)
Definition scan_recipients (all_prefs : Store) : list string :=
  List.map fst
    (List.filter (fun entry => new_activities (snd entry)
                               && email_preferences.enabled (snd entry))
       (items all_prefs)).

Definition announce_new_activity (activity_name : string)
    (recipients : option (list string)) : Web -> HTTPResult * Web :=
  fun w =>
    match activities (web_app w) !! activity_name with
    | None => (HTTPException 404 "Activity not found", w)
    | Some activity =>
        let recipients :=
          if negb (opt_list_truthy recipients) then
            scan_recipients (get_all_preferences (web_preferences w)).1
          else default [] recipients in
        if negb (list_truthy recipients) then
          (Response [("message", VStr "No recipients to send to")], w)
        else
          match
            on_app
              (try_except
                 (delay (NewActivityAnnouncement recipients activity_name
                           (schedule activity) (description activity)
                           (max_participants activity)) ;;
                  ret (Response
                         [("message",
                           VStr ("Announcement emails queued for "
                                 ++ pretty (length recipients) ++ " recipients"));
                          ("activity", VStr activity_name);
                          ("recipients_count", VInt (Z.of_nat (length recipients)))]))
                 (fun e =>
                    warning ("Failed to queue announcement emails: " ++ exn_msg e) ;;
                    ret (Response
                           [("message",
                             VStr "Could not queue announcement emails (task queue unavailable)");
                            ("activity", VStr activity_name);
                            ("recipients_count", VInt (Z.of_nat (length recipients)));
                            ("warning", VStr "Email service may not be available")])))%py
              w
          with
          | (Return r, w') => (r, w')
          | (Raise e, w') => (HTTPException 500 (exn_msg e), w')
          end
    end.

End Announce.

End app_endpoints.

(** ** email_config.py and the status handler *)

Module email_config.

(** [os.getenv(name)] on the environment of the process. *)
Definition getenv (environ : gmap string string) (name : string) : option string :=
  environ !! name.

(** [bool(username and password)]. *)
Definition is_email_enabled (environ : gmap string string) : bool :=
  let username := getenv environ "MAIL_USERNAME" in
  let password := getenv environ "MAIL_PASSWORD" in
  opt_str_truthy (if opt_str_truthy username then password else username).

(** [get_email_service_status] of [app.py]. *)
Definition get_email_service_status (environ : gmap string string)
  : list (string * PyVal) :=
  let enabled := is_email_enabled environ in
  [("enabled", VBool enabled);
   ("message",
    VStr (if enabled then "Email service is configured"
          else "Email service is not configured. Set MAIL_USERNAME and MAIL_PASSWORD environment variables."))].

End email_config.

(** * Derived notions and sample data *)

Import email_preferences celery_tasks app.

(** The record of the repository's own test: weekly frequency, reminders
    off, parent copy on. *)
Definition student_prefs : EmailPreferences :=
  {| email := "student@mergington.edu"; enabled := true; frequency := WEEKLY_DIGEST;
     signup_confirmation := true; unregister_confirmation := true;
     activity_changes := true; reminders := false; weekly_digest := true;
     new_activities := true; attendance := true;
     parent_email := Some "parent@example.com"; parent_cc_enabled := true;
     digest_only := false |}.

Definition digest_prefs : EmailPreferences :=
  {| email := "digest@mergington.edu"; enabled := true; frequency := IMMEDIATE;
     signup_confirmation := true; unregister_confirmation := true;
     activity_changes := true; reminders := true; weekly_digest := true;
     new_activities := true; attendance := true;
     parent_email := None; parent_cc_enabled := false;
     digest_only := true |}.

(** A user who switched everything off with the global flag. *)
Definition muted_prefs : EmailPreferences :=
  {| email := "muted@mergington.edu"; enabled := false; frequency := IMMEDIATE;
     signup_confirmation := true; unregister_confirmation := true;
     activity_changes := true; reminders := true; weekly_digest := true;
     new_activities := true; attendance := true;
     parent_email := None; parent_cc_enabled := false;
     digest_only := false |}.

(** A user who opted out of signup confirmations only. *)
Definition no_signup_prefs : EmailPreferences :=
  {| email := "a@x.edu"; enabled := true; frequency := IMMEDIATE;
     signup_confirmation := false; unregister_confirmation := true;
     activity_changes := true; reminders := true; weekly_digest := true;
     new_activities := true; attendance := true;
     parent_email := None; parent_cc_enabled := false;
     digest_only := false |}.

Definition test_store : Store :=
  <["muted@mergington.edu" := muted_prefs]>
    (<["digest@mergington.edu" := digest_prefs]>
       (<["student@mergington.edu" := student_prefs]> ∅)).

(** The decision for an identity, read off a store without changing it:
    the record a read returns decides (the stored one, or the defaults);
    when the read raises there is no decision, and the answer is false. *)
Definition wants (email_str : string -> PyResult string) (st : Store)
    (category : NotificationCategory.t) (email : string) : bool :=
  match (get_user_preferences email_str email st).1 with
  | Return prefs => should_send_with prefs category
  | Raise _ => false
  end.

(** A read of the identity returns: it has a record, or the address check
    accepts it. *)
Definition readable (email_str : string -> PyResult string) (st : Store)
    (email : string) : Prop :=
  is_Some (st !! email) \/ exists address, email_str email = Return address.

(** The context handed to the engine by [send_email]. *)
Definition rendered_context (subject : string) (context : gmap string PyVal)
  : gmap string PyVal :=
  <["subject" := VStr subject]> context.

(** The message handed to the transport by [send_email]. *)
Definition composed_message (recipients : list string) (subject : string)
    (cc : option (list string)) (html_content : string) : email_service.MessageSchema :=
  {| email_service.subject := subject; email_service.recipients := recipients;
     email_service.body := html_content; email_service.subtype := "html";
     email_service.cc := cc |}.

(** Concrete collaborators for the examples: an engine that finds and
    renders every template, one that has no template, one whose rendering
    fails, a transport that delivers and one that cannot connect. *)
Definition template_found (file : string) : PyResult unit := Return tt.

Definition template_missing (file : string) : PyResult unit :=
  Raise (Exception "TemplateNotFound" file).

Definition render_ok (file : string) (context : gmap string PyVal) : PyResult string :=
  Return ("<html>" ++ file ++ "</html>").

Definition render_undefined (file : string) (context : gmap string PyVal)
  : PyResult string :=
  Raise (Exception "UndefinedError" "'activity_name' is undefined").

Definition transport_ok (message : email_service.MessageSchema) : PyResult unit :=
  Return tt.

(** A schema that accepts every message, and one that wants a list in
    the copy field and refuses a message built with [cc=None]. *)
Definition schema_ok (message : email_service.MessageSchema) : PyResult unit :=
  Return tt.

Definition schema_wants_cc_list (message : email_service.MessageSchema) : PyResult unit :=
  match email_service.cc message with
  | Some _ => Return tt
  | None => Raise (Exception "ValidationError" "cc: Input should be a valid list")
  end.

(** A stand-in for the address check, for the examples: a string without
    "@", or with nothing before or after it, is refused; otherwise the
    part after the first "@" is put in lower case. *)
Definition at_sign : Ascii.ascii := Ascii.ascii_of_nat 64.

Fixpoint split_at_sign (s : string) : option (string * string) :=
  match s with
  | EmptyString => None
  | String c rest =>
      if Ascii.eqb c at_sign then Some (EmptyString, rest)
      else match split_at_sign rest with
           | Some (before, after) => Some (String c before, after)
           | None => None
           end
  end.

Definition lower_char (c : Ascii.ascii) : Ascii.ascii :=
  let n := Ascii.nat_of_ascii c in
  if (65 <=? n)%nat && (n <=? 90)%nat then Ascii.ascii_of_nat (n + 32) else c.

Fixpoint lower (s : string) : string :=
  match s with
  | EmptyString => EmptyString
  | String c rest => String (lower_char c) (lower rest)
  end.

Definition sample_email_str (s : string) : PyResult string :=
  match split_at_sign s with
  | Some (before, after) =>
      if String.eqb before "" || String.eqb after "" then
        Raise (Exception "ValidationError" "value is not a valid email address")
      else Return (before ++ "@" ++ lower after)
  | None => Raise (Exception "ValidationError" "value is not a valid email address")
  end.

Definition transport_down (message : email_service.MessageSchema) : PyResult unit :=
  Raise (Exception "ConnectionErrors" "could not connect to the mail server").

Definition service_off : email_service.EmailService :=
  {| email_service.enabled := false |}.

Definition service_on : email_service.EmailService :=
  {| email_service.enabled := true |}.

(** The last entry of the activity database: nobody is enrolled yet. *)
Definition github_skills : Activity :=
  {| description :=
       "Learn practical coding and collaboration skills with GitHub - part of our GitHub Certifications program";
     schedule := "Wednesdays, 3:30 PM - 5:00 PM";
     max_participants := 25;
     participants := [] |}.

(** The activity database as the module creates it. *)
Definition initial_activities : gmap string Activity :=
  list_to_map
    [ ("Chess Club",
       {| description := "Learn strategies and compete in chess tournaments";
          schedule := "Fridays, 3:30 PM - 5:00 PM";
          max_participants := 12;
          participants := ["michael@mergington.edu"; "daniel@mergington.edu"] |});
      ("Programming Class",
       {| description := "Learn programming fundamentals and build software projects";
          schedule := "Tuesdays and Thursdays, 3:30 PM - 4:30 PM";
          max_participants := 20;
          participants := ["emma@mergington.edu"; "sophia@mergington.edu"] |});
      ("Gym Class",
       {| description := "Physical education and sports activities";
          schedule := "Mondays, Wednesdays, Fridays, 2:00 PM - 3:00 PM";
          max_participants := 30;
          participants := ["john@mergington.edu"; "olivia@mergington.edu"] |});
      ("Soccer Team",
       {| description := "Join the school soccer team and compete in matches";
          schedule := "Tuesdays and Thursdays, 4:00 PM - 5:30 PM";
          max_participants := 22;
          participants := ["liam@mergington.edu"; "noah@mergington.edu"] |});
      ("Basketball Team",
       {| description := "Practice and play basketball with the school team";
          schedule := "Wednesdays and Fridays, 3:30 PM - 5:00 PM";
          max_participants := 15;
          participants := ["ava@mergington.edu"; "mia@mergington.edu"] |});
      ("Art Club",
       {| description := "Explore your creativity through painting and drawing";
          schedule := "Thursdays, 3:30 PM - 5:00 PM";
          max_participants := 15;
          participants := ["amelia@mergington.edu"; "harper@mergington.edu"] |});
      ("Drama Club",
       {| description := "Act, direct, and produce plays and performances";
          schedule := "Mondays and Wednesdays, 4:00 PM - 5:30 PM";
          max_participants := 20;
          participants := ["ella@mergington.edu"; "scarlett@mergington.edu"] |});
      ("Math Club",
       {| description := "Solve challenging problems and participate in math competitions";
          schedule := "Tuesdays, 3:30 PM - 4:30 PM";
          max_participants := 10;
          participants := ["james@mergington.edu"; "benjamin@mergington.edu"] |});
      ("Debate Team",
       {| description := "Develop public speaking and argumentation skills";
          schedule := "Fridays, 4:00 PM - 5:30 PM";
          max_participants := 12;
          participants := ["charlotte@mergington.edu"; "henry@mergington.edu"] |});
      ("GitHub Skills", github_skills) ].

(** A web process that has just started, with a reachable broker. *)
Definition fresh_app : App :=
  {| activities := initial_activities;
     broker := {| outage := None; queue := [] |};
     warnings := [] |}.

(** The same process with the broker down. *)
Definition offline_app : App :=
  {| activities := initial_activities;
     broker := {| outage := Some (Exception "OperationalError" "Connection refused");
                  queue := [] |};
     warnings := [] |}.

(** The store of a worker in which "a@x.edu" opted out of signup
    confirmations. *)
Definition opted_out_store : Store := <["a@x.edu" := no_signup_prefs]> ∅.

(** The field of a record that carries the opt-in of a category. *)
Definition category_flag (prefs : EmailPreferences) (category : NotificationCategory.t)
  : bool :=
  match category with
  | NotificationCategory.SIGNUP_CONFIRMATION => signup_confirmation prefs
  | NotificationCategory.UNREGISTER_CONFIRMATION => unregister_confirmation prefs
  | NotificationCategory.ACTIVITY_CHANGES => activity_changes prefs
  | NotificationCategory.REMINDERS => reminders prefs
  | NotificationCategory.WEEKLY_DIGEST => weekly_digest prefs
  | NotificationCategory.NEW_ACTIVITIES => new_activities prefs
  | NotificationCategory.ATTENDANCE => attendance prefs
  end.

(** A record with its frequency replaced. *)
Definition with_frequency (prefs : EmailPreferences) (f : EmailFrequency)
  : EmailPreferences :=
  {| email := email prefs; enabled := enabled prefs; frequency := f;
     signup_confirmation := signup_confirmation prefs;
     unregister_confirmation := unregister_confirmation prefs;
     activity_changes := activity_changes prefs; reminders := reminders prefs;
     weekly_digest := weekly_digest prefs; new_activities := new_activities prefs;
     attendance := attendance prefs; parent_email := parent_email prefs;
     parent_cc_enabled := parent_cc_enabled prefs; digest_only := digest_only prefs |}.

(** Every record carries the normal form of the string it is stored
    under. *)
Definition keyed_by_address (email_str : string -> PyResult string) (st : Store) : Prop :=
  map_Forall (fun key prefs => email_str key = Return (email prefs)) st.

(** The messages handed to the mail transport in a trace, oldest first. *)
Definition handed (t : email_service.Trace) : list email_service.MessageSchema :=
  omap (fun e => match e with email_service.EvSend m => Some m | _ => None end) t.

(** The copy list of a message whose parent address is [parent]. *)
Definition cc_list (parent : option string) : option (list string) :=
  match parent with Some p => Some [p] | None => None end.

(** A record that names another address than the key it is written
    under. *)
Definition stray_prefs : EmailPreferences := EmailPreferences_default "other@x.edu".

(** A store that holds a record under a string that is not an address. *)
Definition odd_store : Store := <["nobody" := stray_prefs]> ∅.

(** A user with digest-only mode on and the weekly frequency. *)
Definition weekly_only_prefs : EmailPreferences :=
  with_frequency digest_prefs WEEKLY_DIGEST.

(** A user who is enabled and wants new activities, but whose frequency
    is [DISABLED]. *)
Definition paused_prefs : EmailPreferences :=
  {| email := "paused@mergington.edu"; enabled := true; frequency := DISABLED;
     signup_confirmation := true; unregister_confirmation := true;
     activity_changes := true; reminders := true; weekly_digest := true;
     new_activities := true; attendance := true;
     parent_email := None; parent_cc_enabled := false;
     digest_only := false |}.

Definition web_store : Store := <["paused@mergington.edu" := paused_prefs]> test_store.

(** An enumeration of a dictionary: the entries in the order of the
    finite map. *)
Definition items_sorted (st : Store) : list (string * EmailPreferences) :=
  map_to_list st.

Definition fresh_web : app_endpoints.Web :=
  {| app_endpoints.web_app := fresh_app; app_endpoints.web_preferences := web_store |}.

(** An environment with both credentials, one without password, one with
    an empty password. *)
Definition env_full : gmap string string :=
  <["MAIL_PASSWORD" := "secret"]> (<["MAIL_USERNAME" := "noreply@mergington.edu"]> ∅).

Definition env_no_password : gmap string string :=
  <["MAIL_USERNAME" := "noreply@mergington.edu"]> ∅.

Definition env_empty_password : gmap string string :=
  <["MAIL_PASSWORD" := ""]> (<["MAIL_USERNAME" := "noreply@mergington.edu"]> ∅).

(** No student is enrolled twice in any activity. *)
Definition rosters_nodup (acts : gmap string Activity) : Prop :=
  map_Forall (fun _ activity => NoDup (participants activity)) acts.

(** The enrolment list of an activity, empty when there is no such
    activity. *)
Definition roster (a : App) (activity_name : string) : list string :=
  match activities a !! activity_name with
  | Some activity => participants activity
  | None => []
  end.

(** * Properties *)

(** ** The preference store *)

Section StoreFacts.

Variable email_str : string -> PyResult string.

Implicit Types (email : string) (st : Store) (prefs : EmailPreferences).

Lemma get_user_preferences_hit email st prefs :
  st !! email = Some prefs ->
  get_user_preferences email_str email st = (Return prefs, st).
Proof. intros H. unfold get_user_preferences. by rewrite H. Qed.

Lemma get_user_preferences_miss email st (address : string) :
  st !! email = None ->
  email_str email = Return address ->
  get_user_preferences email_str email st
  = (Return (EmailPreferences_default address),
     <[email := EmailPreferences_default address]> st).
Proof.
  intros H Ha. unfold get_user_preferences, EmailPreferences_init.
  by rewrite H, Ha.
Qed.

Lemma get_user_preferences_refused email st (e : PyExn) :
  st !! email = None ->
  email_str email = Raise e ->
  get_user_preferences email_str email st = (Raise e, st).
Proof.
  intros H He. unfold get_user_preferences, EmailPreferences_init.
  by rewrite H, He.
Qed.

(** A read that returns leaves the record it returns under the identity
    and nothing else changed. *)
Lemma get_user_preferences_returns email st prefs (st' : Store) :
  get_user_preferences email_str email st = (Return prefs, st') ->
  st' = <[email := prefs]> st
  /\ st' !! email = Some prefs
  /\ (is_Some (st !! email) -> st' = st).
Proof.
  unfold get_user_preferences, EmailPreferences_init.
  destruct (st !! email) as [stored|] eqn:E.
  - intros [= <- <-]. split; [by rewrite insert_id|]. by split.
  - destruct (email_str email) as [address|e]; [|done].
    intros [= <- <-]. split; [done|]. split; [apply lookup_insert_eq|].
    by intros [? ?].
Qed.

(** A read that raises found no record, was refused by the address
    check, and stored nothing. *)
Lemma get_user_preferences_raises email st (e : PyExn) (st' : Store) :
  get_user_preferences email_str email st = (Raise e, st') ->
  st' = st /\ st !! email = None /\ email_str email = Raise e.
Proof.
  unfold get_user_preferences, EmailPreferences_init.
  destruct (st !! email) as [stored|] eqn:E; [done|].
  destruct (email_str email) as [address|e0]; [done|].
  by intros [= <- <-].
Qed.

Lemma get_user_preferences_readable email st :
  readable email_str st email
  <-> exists prefs st', get_user_preferences email_str email st = (Return prefs, st').
Proof.
  split.
  - intros [[prefs Hin]|[address Ha]].
    + eexists _, _. by apply get_user_preferences_hit.
    + destruct (st !! email) as [prefs|] eqn:E.
      * eexists _, _. by apply get_user_preferences_hit.
      * eexists _, _. by apply get_user_preferences_miss.
  - intros (prefs & st' & H). unfold readable.
    unfold get_user_preferences, EmailPreferences_init in H.
    destruct (st !! email) as [stored|] eqn:E; [left; eauto|].
    destruct (email_str email) as [address|e]; [right; eauto|done].
Qed.

(** A read never touches another identity's record, whether it returns
    or raises. *)
Lemma get_user_preferences_frame email other st :
  other <> email ->
  (get_user_preferences email_str email st).2 !! other = st !! other.
Proof.
  intros Hne. unfold get_user_preferences, EmailPreferences_init.
  destruct (st !! email); simpl; [done|].
  destruct (email_str email); simpl; [|done].
  by rewrite lookup_insert_ne.
Qed.

(** After a read that returned, a second read is a pure lookup. *)
Lemma get_user_preferences_again email st prefs (st' : Store) :
  get_user_preferences email_str email st = (Return prefs, st') ->
  get_user_preferences email_str email st' = (Return prefs, st').
Proof.
  intros H. apply get_user_preferences_returns in H as (_ & H & _).
  by apply get_user_preferences_hit.
Qed.

Lemma should_send_email_unfold email category st :
  should_send_email email_str email category st
  = match get_user_preferences email_str email st with
    | (Return prefs, st') => (Return (should_send_with prefs category), st')
    | (Raise e, st') => (Raise e, st')
    end.
Proof. reflexivity. Qed.

Lemma get_parent_email_unfold email st :
  get_parent_email email_str email st
  = match get_user_preferences email_str email st with
    | (Return prefs, st') => (Return (parent_email_of prefs), st')
    | (Raise e, st') => (Raise e, st')
    end.
Proof. reflexivity. Qed.

Lemma should_send_email_returns email category st prefs (st' : Store) :
  get_user_preferences email_str email st = (Return prefs, st') ->
  should_send_email email_str email category st
  = (Return (should_send_with prefs category), st').
Proof. intros H. by rewrite should_send_email_unfold, H. Qed.

Lemma get_parent_email_returns email st prefs (st' : Store) :
  get_user_preferences email_str email st = (Return prefs, st') ->
  get_parent_email email_str email st = (Return (parent_email_of prefs), st').
Proof. intros H. by rewrite get_parent_email_unfold, H. Qed.

(** On the seven members of the enumeration the lookup in
    [category_map] is the field of that name; the default of [get] is
    never reached. *)
Lemma category_map_get prefs category :
  dict_get (category_map prefs) category true
  = match category with
    | NotificationCategory.SIGNUP_CONFIRMATION => signup_confirmation prefs
    | NotificationCategory.UNREGISTER_CONFIRMATION => unregister_confirmation prefs
    | NotificationCategory.ACTIVITY_CHANGES => activity_changes prefs
    | NotificationCategory.REMINDERS => reminders prefs
    | NotificationCategory.WEEKLY_DIGEST => weekly_digest prefs
    | NotificationCategory.NEW_ACTIVITIES => new_activities prefs
    | NotificationCategory.ATTENDANCE => attendance prefs
    end.
Proof. by destruct category. Qed.

Lemma should_send_with_disabled prefs category :
  enabled prefs = false \/ frequency prefs = DISABLED ->
  should_send_with prefs category = false.
Proof.
  intros [H|H]; unfold should_send_with; rewrite H; [done|].
  rewrite bool_decide_eq_true_2; [|done]. by rewrite orb_true_r.
Qed.

Lemma should_send_with_active prefs category :
  enabled prefs = true -> frequency prefs <> DISABLED ->
  should_send_with prefs category
  = if digest_only prefs
       && negb (bool_decide (category = NotificationCategory.WEEKLY_DIGEST))
    then false
    else dict_get (category_map prefs) category true.
Proof.
  intros He Hf. unfold should_send_with. rewrite He.
  by rewrite bool_decide_eq_false_2.
Qed.

(** A category switched off is never sent, whatever the other fields. *)
Lemma should_send_with_flag_off prefs category :
  dict_get (category_map prefs) category true = false ->
  should_send_with prefs category = false.
Proof.
  intros H. unfold should_send_with. rewrite H.
  by repeat case_match.
Qed.

Lemma should_send_with_default (address : string) category :
  should_send_with (EmailPreferences_default address) category = true.
Proof. by destruct category. Qed.

Lemma opt_str_truthy_Some (s : string) :
  opt_str_truthy (Some s) = true <-> s <> "".
Proof.
  simpl. rewrite negb_true_iff. split.
  - intros H ->. by rewrite String.eqb_refl in H.
  - intros H. by apply String.eqb_neq.
Qed.

Lemma parent_email_of_Some prefs (parent : string) :
  parent_email_of prefs = Some parent
  <-> parent_cc_enabled prefs = true /\ parent_email prefs = Some parent /\ parent <> "".
Proof.
  unfold parent_email_of.
  destruct (parent_cc_enabled prefs); simpl.
  - destruct (parent_email prefs) as [s|] eqn:E.
    + destruct (opt_str_truthy (Some s)) eqn:T.
      * apply opt_str_truthy_Some in T. split.
        -- intros [= ->]. done.
        -- intros (_ & H & _). done.
      * split; [done|]. intros (_ & [= ->] & Hne).
        apply opt_str_truthy_Some in Hne. congruence.
    + simpl. split; [done|]. intros (_ & H & _). done.
  - split; [done|]. intros (H & _). done.
Qed.

Lemma parent_email_of_None prefs :
  parent_email_of prefs = None
  <-> parent_cc_enabled prefs = false \/ parent_email prefs = None
      \/ parent_email prefs = Some "".
Proof.
  unfold parent_email_of.
  destruct (parent_cc_enabled prefs); simpl; [|by split; [left|]].
  destruct (parent_email prefs) as [s|] eqn:E; [|by split; [right; left|]].
  destruct (opt_str_truthy (Some s)) eqn:T.
  - apply opt_str_truthy_Some in T. split; [done|].
    intros [H|[H|[= ->]]]; done.
  - split; [|done]. intros _. right; right. f_equal.
    simpl in T. apply negb_false_iff in T. by apply String.eqb_eq.
Qed.

End StoreFacts.

(** The stand-in check on the strings of the examples. *)
Example sample_email_str_normalises :
  sample_email_str "New@MERGINGTON.EDU" = Return "New@mergington.edu"
  /\ sample_email_str "student@mergington.edu" = Return "student@mergington.edu".
Proof. split; reflexivity. Qed.

Example sample_email_str_refuses :
  sample_email_str "nobody"
  = Raise (Exception "ValidationError" "value is not a valid email address").
Proof. reflexivity. Qed.

Example test_signup_should_send :
  (should_send_email sample_email_str "student@mergington.edu"
     NotificationCategory.SIGNUP_CONFIRMATION test_store).1 = Return true.
Proof. reflexivity. Qed.

Example test_reminder_should_not_send :
  (should_send_email sample_email_str "student@mergington.edu"
     NotificationCategory.REMINDERS test_store).1 = Return false.
Proof. reflexivity. Qed.

Example test_parent_email :
  (get_parent_email sample_email_str "student@mergington.edu" test_store).1
  = Return (Some "parent@example.com").
Proof. reflexivity. Qed.

Example test_digest_only_immediate :
  (should_send_email sample_email_str "digest@mergington.edu"
     NotificationCategory.SIGNUP_CONFIRMATION test_store).1 = Return false.
Proof. reflexivity. Qed.

Example test_digest_only_digest :
  (should_send_email sample_email_str "digest@mergington.edu"
     NotificationCategory.WEEKLY_DIGEST test_store).1 = Return true.
Proof. reflexivity. Qed.

(** ** Claims on the preference store *)

Section StoreClaims.

Variable email_str : string -> PyResult string.

(** C2, as the code has it.  For every identity that is not in the
    preference store and that the address check accepts, the first read
    returns a record in which every per-category flag is true, the global
    switch is on, the frequency is immediate, digest-only mode and the
    parent copy are off and no parent address is set; the record carries
    the address in normal form and is stored under the identity as it was
    given.  For a string that the check refuses, the read raises what the
    check raised and stores nothing. *)
Theorem get_user_preferences_first_read (email : string) (st : Store) :
  st !! email = None ->
  (forall address, email_str email = Return address ->
     let defaults :=
       {| email := address; enabled := true; frequency := IMMEDIATE;
          signup_confirmation := true; unregister_confirmation := true;
          activity_changes := true; reminders := true; weekly_digest := true;
          new_activities := true; attendance := true;
          parent_email := None; parent_cc_enabled := false;
          digest_only := false |} in
     (get_user_preferences email_str email st).1 = Return defaults
     /\ (get_user_preferences email_str email st).2 = <[email := defaults]> st
     /\ (get_user_preferences email_str email st).2 !! email = Some defaults)
  /\ (forall e, email_str email = Raise e ->
        get_user_preferences email_str email st = (Raise e, st)).
Proof.
  intros Hmiss. split.
  - intros address Ha defaults.
    rewrite (get_user_preferences_miss _ _ _ _ Hmiss Ha). simpl.
    repeat split. apply lookup_insert_eq.
  - intros e He. by apply get_user_preferences_refused.
Qed.

(** C3. For every identity and every category, [should_send_email] answers
    false when the identity's record has the global switch off, and answers
    false when its frequency is [DISABLED], whatever the category and the
    per-category flags are. *)
Theorem should_send_email_globally_off
    (email : string) (category : NotificationCategory.t) (st : Store)
    (prefs : EmailPreferences) :
  st !! email = Some prefs ->
  enabled prefs = false \/ frequency prefs = DISABLED ->
  (should_send_email email_str email category st).1 = Return false.
Proof.
  intros Hin Hoff.
  rewrite (should_send_email_returns _ _ _ _ _ _ (get_user_preferences_hit _ _ _ _ Hin)).
  simpl. f_equal. by apply should_send_with_disabled.
Qed.

(** C4. For every identity whose record has digest-only mode on, the global
    switch on and a frequency other than [DISABLED], [should_send_email]
    answers false for every category other than the weekly digest, and for
    the weekly digest it answers the record's [weekly_digest] flag. *)
Theorem should_send_email_digest_only
    (email : string) (st : Store) (prefs : EmailPreferences) :
  st !! email = Some prefs ->
  digest_only prefs = true ->
  enabled prefs = true ->
  frequency prefs <> DISABLED ->
  (forall category, category <> NotificationCategory.WEEKLY_DIGEST ->
     (should_send_email email_str email category st).1 = Return false)
  /\ (should_send_email email_str email NotificationCategory.WEEKLY_DIGEST st).1
     = Return (weekly_digest prefs).
Proof.
  intros Hin Hdig Hen Hfreq.
  pose proof (get_user_preferences_hit email_str _ _ _ Hin) as Hget. split.
  - intros category Hcat.
    rewrite (should_send_email_returns _ _ _ _ _ _ Hget). simpl. f_equal.
    rewrite (should_send_with_active _ _ Hen Hfreq), Hdig.
    by rewrite bool_decide_eq_false_2.
  - rewrite (should_send_email_returns _ _ _ _ _ _ Hget). simpl. f_equal.
    rewrite (should_send_with_active _ _ Hen Hfreq), Hdig.
    rewrite bool_decide_eq_true_2 by done. simpl.
    reflexivity.
Qed.

(** C6. For every identity, [get_parent_email] returns the parent address
    exactly when the identity's record (the one the read returns) has the
    parent copy switched on and a parent address set (present and not
    empty: the code tests the truth value of the field); in every other
    case it returns [None]. *)
Theorem get_parent_email_iff
    (email : string) (st st' : Store) (prefs : EmailPreferences) :
  get_user_preferences email_str email st = (Return prefs, st') ->
  (forall parent : string,
     (get_parent_email email_str email st).1 = Return (Some parent)
     <-> parent_cc_enabled prefs = true
         /\ parent_email prefs = Some parent /\ parent <> "")
  /\ ((get_parent_email email_str email st).1 = Return None
      <-> parent_cc_enabled prefs = false
          \/ parent_email prefs = None \/ parent_email prefs = Some "").
Proof.
  intros Hget. rewrite (get_parent_email_returns _ _ _ _ _ Hget). simpl. split.
  - intros parent. rewrite <- parent_email_of_Some. split; [by intros [= ->]|by intros ->].
  - rewrite <- parent_email_of_None. split; [by intros [= ->]|by intros ->].
Qed.

(** C9, as the code has it.  For every identity,
    [delete_user_preferences] returns true exactly when a record was stored
    under the identity, removes that record and nothing else, and returns
    false on a store it leaves as it was.  The next read of the identity
    returns and stores the all-defaults record, carrying the address in
    normal form, when the address check accepts the identity; when the
    check refuses it, the next read raises and stores nothing. *)
Theorem delete_user_preferences_round_trip (email : string) (st : Store) :
  ((delete_user_preferences email st).1 = true <-> is_Some (st !! email))
  /\ ((delete_user_preferences email st).1 = false <-> st !! email = None)
  /\ (delete_user_preferences email st).2 = delete email st
  /\ (delete_user_preferences email st).2 !! email = None
  /\ (st !! email = None -> (delete_user_preferences email st).2 = st)
  /\ (forall address, email_str email = Return address ->
        get_user_preferences email_str email (delete_user_preferences email st).2
        = (Return (EmailPreferences_default address),
           <[email := EmailPreferences_default address]> st))
  /\ (forall e, email_str email = Raise e ->
        get_user_preferences email_str email (delete_user_preferences email st).2
        = (Raise e, delete email st)).
Proof.
  unfold delete_user_preferences.
  destruct (st !! email) as [prefs|] eqn:E; simpl.
  - split; [by split; [eauto|]|].
    split; [by split|].
    split; [done|].
    split; [apply lookup_delete_eq|].
    split; [done|]. split.
    + intros address Ha.
      rewrite (get_user_preferences_miss _ _ _ address) by (done || apply lookup_delete_eq).
      by rewrite insert_delete_eq.
    + intros e He. apply get_user_preferences_refused; [apply lookup_delete_eq|done].
  - split; [split; [done|by intros [? ?]]|].
    split; [done|].
    split; [by rewrite delete_id|].
    split; [done|].
    split; [done|]. split.
    + intros address Ha. by apply get_user_preferences_miss.
    + intros e He. rewrite delete_id by done. by apply get_user_preferences_refused.
Qed.

(** C10, as the code has it.  Applied to an identity that is not in the
    store and that the address check accepts, each of the three reads
    ([get_user_preferences], [should_send_email], [get_parent_email])
    leaves behind the store extended with the default record of the
    normalised address under that identity, so the store changes and the
    dictionary returned by [get_all_preferences] has the identity among its
    keys; applied to a missing identity that the check refuses, each read
    raises and leaves the store as it was; applied to an identity that is
    in the store, each read leaves the store as it was. *)
Theorem reads_insert_defaults
    (email : string) (category : NotificationCategory.t) (st : Store) :
  (st !! email = None ->
     (forall address, email_str email = Return address ->
        let st' := <[email := EmailPreferences_default address]> st in
        (get_user_preferences email_str email st).2 = st'
        /\ (should_send_email email_str email category st).2 = st'
        /\ (get_parent_email email_str email st).2 = st'
        /\ st' <> st
        /\ (email ∈ dom (get_all_preferences st').1)
        /\ (email ∉ dom (get_all_preferences st).1)
        /\ (get_all_preferences st').2 = st')
     /\ (forall e, email_str email = Raise e ->
           get_user_preferences email_str email st = (Raise e, st)
           /\ should_send_email email_str email category st = (Raise e, st)
           /\ get_parent_email email_str email st = (Raise e, st)))
  /\ (is_Some (st !! email) ->
        (get_user_preferences email_str email st).2 = st
        /\ (should_send_email email_str email category st).2 = st
        /\ (get_parent_email email_str email st).2 = st).
Proof.
  rewrite should_send_email_unfold, get_parent_email_unfold. split.
  - intros Hmiss. split.
    + intros address Ha st'.
      rewrite (get_user_preferences_miss _ _ _ _ Hmiss Ha). simpl.
      repeat split.
      * intros Heq. assert (st' !! email = st !! email) as H by by rewrite Heq.
        unfold st' in H. rewrite lookup_insert_eq, Hmiss in H. done.
      * apply elem_of_dom. unfold st'. rewrite lookup_insert_eq. eauto.
      * rewrite elem_of_dom, Hmiss. by intros [? ?].
    + intros e He. by rewrite (get_user_preferences_refused _ _ _ _ Hmiss He).
  - intros [prefs Hin]. by rewrite (get_user_preferences_hit _ _ _ _ Hin).
Qed.

End StoreClaims.

Lemma get_user_preferences_first_read_witness :
  (get_user_preferences sample_email_str "New@MERGINGTON.EDU" test_store).1
  = Return
      {| email := "New@mergington.edu"; enabled := true; frequency := IMMEDIATE;
         signup_confirmation := true; unregister_confirmation := true;
         activity_changes := true; reminders := true; weekly_digest := true;
         new_activities := true; attendance := true;
         parent_email := None; parent_cc_enabled := false;
         digest_only := false |}
  /\ (get_user_preferences sample_email_str "New@MERGINGTON.EDU" test_store).2
       !! "New@MERGINGTON.EDU"
     = Some (EmailPreferences_default "New@mergington.edu").
Proof.
  pose proof (proj1 (get_user_preferences_first_read sample_email_str
                       "New@MERGINGTON.EDU" test_store eq_refl)
                "New@mergington.edu" eq_refl) as H.
  cbv zeta in H. destruct H as (H1 & _ & H3). split; [exact H1|exact H3].
Defined.

(** C2 as it is worded does not hold: "nobody" has no record, yet the
    first read of it returns no record and stores none; it raises the
    error of the address check and leaves the store as it was. *)
Lemma first_read_of_non_address_raises :
  test_store !! "nobody" = None
  /\ get_user_preferences sample_email_str "nobody" test_store
     = (Raise (Exception "ValidationError" "value is not a valid email address"),
        test_store)
  /\ (get_user_preferences sample_email_str "nobody" test_store).2 !! "nobody" = None.
Proof. repeat split. Qed.

Lemma should_send_email_globally_off_witness :
  (should_send_email sample_email_str "muted@mergington.edu"
     NotificationCategory.WEEKLY_DIGEST test_store).1 = Return false.
Proof.
  apply (should_send_email_globally_off _ _ _ _ muted_prefs).
  - reflexivity.
  - left. reflexivity.
Defined.

Lemma should_send_email_digest_only_witness :
  (forall category, category <> NotificationCategory.WEEKLY_DIGEST ->
     (should_send_email sample_email_str "digest@mergington.edu" category test_store).1
     = Return false)
  /\ (should_send_email sample_email_str "digest@mergington.edu"
        NotificationCategory.WEEKLY_DIGEST test_store).1 = Return true.
Proof.
  apply (should_send_email_digest_only sample_email_str
           "digest@mergington.edu" test_store digest_prefs).
  - reflexivity.
  - reflexivity.
  - reflexivity.
  - simpl. discriminate.
Defined.

Lemma get_parent_email_iff_witness :
  (get_parent_email sample_email_str "student@mergington.edu" test_store).1
  = Return (Some "parent@example.com")
  /\ (get_parent_email sample_email_str "digest@mergington.edu" test_store).1
     = Return None.
Proof.
  split.
  - apply (proj1 (get_parent_email_iff sample_email_str "student@mergington.edu"
                    test_store test_store student_prefs eq_refl)).
    repeat split. discriminate.
  - apply (proj2 (get_parent_email_iff sample_email_str "digest@mergington.edu"
                    test_store test_store digest_prefs eq_refl)).
    left. reflexivity.
Defined.

Lemma delete_user_preferences_round_trip_witness :
  (delete_user_preferences "student@mergington.edu" test_store).1 = true
  /\ (delete_user_preferences "new@mergington.edu" test_store).1 = false
  /\ (get_user_preferences sample_email_str "student@mergington.edu"
        (delete_user_preferences "student@mergington.edu" test_store).2).1
     = Return (EmailPreferences_default "student@mergington.edu").
Proof.
  split; [|split].
  - apply (proj1 (delete_user_preferences_round_trip sample_email_str
                    "student@mergington.edu" test_store)).
    exists student_prefs. reflexivity.
  - apply (proj1 (proj2 (delete_user_preferences_round_trip sample_email_str
                           "new@mergington.edu" test_store))).
    reflexivity.
  - pose proof (delete_user_preferences_round_trip sample_email_str
                  "student@mergington.edu" test_store)
      as (_ & _ & _ & _ & _ & H & _).
    rewrite (H "student@mergington.edu" eq_refl). reflexivity.
Defined.

(** C9 as it is worded does not hold.  Nothing is stored under "nobody":
    the delete returns false and the next read of "nobody" does not return
    the defaults, it raises and stores nothing.  The same happens after a
    delete that returns true, of a record written under "nobody". *)
Lemma read_after_delete_raises :
  delete_user_preferences "nobody" test_store = (false, test_store)
  /\ get_user_preferences sample_email_str "nobody"
       (delete_user_preferences "nobody" test_store).2
     = (Raise (Exception "ValidationError" "value is not a valid email address"),
        test_store)
  /\ (update_user_preferences "nobody" stray_prefs ∅).2 = odd_store
  /\ delete_user_preferences "nobody" odd_store = (true, ∅)
  /\ get_user_preferences sample_email_str "nobody"
       (delete_user_preferences "nobody" odd_store).2
     = (Raise (Exception "ValidationError" "value is not a valid email address"), ∅).
Proof. repeat split. Qed.

Lemma reads_insert_defaults_witness :
  ((should_send_email sample_email_str "New@MERGINGTON.EDU"
      NotificationCategory.REMINDERS test_store).2
   = <["New@MERGINGTON.EDU" := EmailPreferences_default "New@mergington.edu"]> test_store)
  /\ (get_parent_email sample_email_str "student@mergington.edu" test_store).2
     = test_store.
Proof.
  split.
  - pose proof (proj1 (proj1 (reads_insert_defaults sample_email_str "New@MERGINGTON.EDU"
                                NotificationCategory.REMINDERS test_store) eq_refl)
                  "New@mergington.edu" eq_refl) as H.
    cbv zeta in H. exact (proj1 (proj2 H)).
  - apply (proj2 (reads_insert_defaults sample_email_str "student@mergington.edu"
                    NotificationCategory.REMINDERS test_store)).
    exists student_prefs. reflexivity.
Defined.

(** C10 as it is worded does not hold: "nobody" is not in the store, and
    none of the three reads inserts a record for it; each raises and leaves
    the store, and the key set that [get_all_preferences] shows, as it
    was. *)
Lemma reads_of_non_address_insert_nothing :
  test_store !! "nobody" = None
  /\ get_user_preferences sample_email_str "nobody" test_store
     = (Raise (Exception "ValidationError" "value is not a valid email address"),
        test_store)
  /\ should_send_email sample_email_str "nobody" NotificationCategory.REMINDERS test_store
     = (Raise (Exception "ValidationError" "value is not a valid email address"),
        test_store)
  /\ get_parent_email sample_email_str "nobody" test_store
     = (Raise (Exception "ValidationError" "value is not a valid email address"),
        test_store)
  /\ (get_all_preferences
        (should_send_email sample_email_str "nobody" NotificationCategory.REMINDERS
           test_store).2).1 !! "nobody" = None.
Proof. repeat split. Qed.

(** ** Filtering the recipients of a broadcast *)

Section FilterFacts.

Variable email_str : string -> PyResult string.

(** The outcome of a read depends only on what is stored under the
    identity. *)
Lemma get_user_preferences_lookup (email : string) (st1 st2 : Store) :
  st1 !! email = st2 !! email ->
  (get_user_preferences email_str email st1).1
  = (get_user_preferences email_str email st2).1.
Proof.
  intros H. unfold get_user_preferences. rewrite H.
  destruct (st2 !! email); [done|].
  by destruct (EmailPreferences_init email_str email).
Qed.

Lemma wants_lookup (email : string) (st1 st2 : Store) category :
  st1 !! email = st2 !! email ->
  wants email_str st1 category email = wants email_str st2 category email.
Proof.
  intros H. unfold wants. by rewrite (get_user_preferences_lookup _ _ _ H).
Qed.

Lemma wants_returns (email : string) (st st' : Store) prefs category :
  get_user_preferences email_str email st = (Return prefs, st') ->
  wants email_str st category email = should_send_with prefs category.
Proof. intros H. unfold wants. by rewrite H. Qed.

(** A read of one identity that returned does not change the decision
    for any identity. *)
Lemma wants_stable (email : string) (st st' : Store) prefs category (other : string) :
  get_user_preferences email_str email st = (Return prefs, st') ->
  wants email_str st' category other = wants email_str st category other.
Proof.
  intros H. destruct (decide (other = email)) as [->|Hne].
  - rewrite (wants_returns _ _ _ _ _ H).
    by rewrite (wants_returns _ _ _ _ _ (get_user_preferences_again _ _ _ _ _ H)).
  - apply wants_lookup.
    pose proof (get_user_preferences_frame email_str email other st Hne) as Hf.
    by rewrite H in Hf.
Qed.

Lemma readable_stable (email : string) (st st' : Store) prefs (other : string) :
  get_user_preferences email_str email st = (Return prefs, st') ->
  readable email_str st other -> readable email_str st' other.
Proof.
  intros H [[p Hin]|Hv]; [|by right].
  left. apply get_user_preferences_returns in H as [-> _].
  destruct (decide (other = email)) as [->|Hne].
  - rewrite lookup_insert_eq. eauto.
  - rewrite lookup_insert_ne by done. eauto.
Qed.

(** One turn of the comprehension. *)
Lemma filter_recipients_cons category (email : string) (rest : list string) (st : Store) :
  filter_recipients email_str category (email :: rest) st
  = match get_user_preferences email_str email st with
    | (Return prefs, st1) =>
        match filter_recipients email_str category rest st1 with
        | (Return kept, st2) =>
            (Return (if should_send_with prefs category then email :: kept else kept),
             st2)
        | (Raise e, st2) => (Raise e, st2)
        end
    | (Raise e, st1) => (Raise e, st1)
    end.
Proof.
  cbn [filter_recipients]. unfold bind at 1. rewrite should_send_email_unfold.
  destruct (get_user_preferences email_str email st) as [[prefs|e] st1]; [|done].
  unfold bind.
  by destruct (filter_recipients email_str category rest st1) as [[kept|e] st2].
Qed.

Lemma list_filter_sublist {A} (f : A -> bool) (l : list A) :
  List.filter f l `sublist_of` l.
Proof.
  induction l as [|x l IH]; simpl; [constructor|].
  destruct (f x); by constructor.
Qed.

(** When the comprehension returns, it has kept exactly the identities
    whose decision on the store it started from is true: the records
    created on the way are defaults and change no decision. *)
Lemma filter_recipients_filter category (recipients kept : list string) (st st' : Store) :
  filter_recipients email_str category recipients st = (Return kept, st') ->
  kept = List.filter (wants email_str st category) recipients.
Proof.
  revert st kept st'. induction recipients as [|email rest IH]; intros st kept st'.
  - by intros [= <- <-].
  - rewrite filter_recipients_cons.
    destruct (get_user_preferences email_str email st) as [[prefs|e] st1] eqn:Hget;
      [|done].
    destruct (filter_recipients email_str category rest st1) as [[kept1|e] st2] eqn:Hrest;
      [|done].
    intros [= <- <-]. simpl.
    rewrite (wants_returns _ _ _ _ _ Hget).
    rewrite (IH _ _ _ Hrest).
    rewrite (List.filter_ext _ (wants email_str st category))
      by (intros; by eapply wants_stable).
    reflexivity.
Qed.

Lemma filter_recipients_sublist category (recipients kept : list string) (st st' : Store) :
  filter_recipients email_str category recipients st = (Return kept, st') ->
  kept `sublist_of` recipients.
Proof.
  intros H. rewrite (filter_recipients_filter _ _ _ _ _ H). apply list_filter_sublist.
Qed.

(** The comprehension returns when every read it makes returns. *)
Lemma filter_recipients_total category (recipients : list string) (st : Store) :
  (forall r, r ∈ recipients -> readable email_str st r) ->
  exists kept st', filter_recipients email_str category recipients st = (Return kept, st').
Proof.
  revert st. induction recipients as [|email rest IH]; intros st Hall.
  - by exists [], st.
  - rewrite filter_recipients_cons.
    destruct (proj1 (get_user_preferences_readable email_str email st)
                (Hall email (list_elem_of_here _ _))) as (prefs & st1 & Hget).
    rewrite Hget.
    destruct (IH st1) as (kept & st2 & ->); [|by eexists _, _].
    intros r Hr. eapply readable_stable; [done|].
    by apply Hall, list_elem_of_further.
Qed.

(** Every identity that is kept was in the input, and was kept because
    its preferences allow the category. *)
Lemma filter_recipients_elem category (recipients kept : list string) (st st' : Store)
    (email : string) :
  filter_recipients email_str category recipients st = (Return kept, st') ->
  email ∈ kept <-> email ∈ recipients /\ wants email_str st category email = true.
Proof.
  intros H. rewrite (filter_recipients_filter _ _ _ _ _ H), !list_elem_of_In.
  apply List.filter_In.
Qed.

(** C5. For every list of identities and every category, the filtering
    applied before a broadcast, when it returns, returns a subsequence of
    the input (the kept identities in the order, and with the repetitions,
    of the input), namely the identities whose preferences allow the
    category; on the empty list it returns the empty list; and it returns
    whenever every identity of the list has a record or passes the address
    check. *)
Theorem filter_recipients_subsequence
    (category : NotificationCategory.t) (recipients : list string) (st : Store) :
  (forall kept st',
     filter_recipients email_str category recipients st = (Return kept, st') ->
     kept `sublist_of` recipients
     /\ kept = List.filter (wants email_str st category) recipients)
  /\ filter_recipients email_str category [] st = (Return [], st)
  /\ ((forall r, r ∈ recipients -> readable email_str st r) ->
      exists kept st',
        filter_recipients email_str category recipients st = (Return kept, st')).
Proof.
  split; [|split; [done|apply filter_recipients_total]].
  intros kept st' H. split.
  - by eapply filter_recipients_sublist.
  - by eapply filter_recipients_filter.
Qed.

End FilterFacts.

Example filter_recipients_scenario :
  (filter_recipients sample_email_str NotificationCategory.ACTIVITY_CHANGES
     ["c@x.edu"; "muted@mergington.edu"; "student@mergington.edu"; "c@x.edu"]
     test_store).1
  = Return ["c@x.edu"; "student@mergington.edu"; "c@x.edu"].
Proof. reflexivity. Qed.

(** A recipient that is not an address and has no record ends the
    comprehension; the default record made for the recipient before it
    stays in the store. *)
Example filter_recipients_refused :
  filter_recipients sample_email_str NotificationCategory.ACTIVITY_CHANGES
    ["c@x.edu"; "nobody"; "d@x.edu"] ∅
  = (Raise (Exception "ValidationError" "value is not a valid email address"),
     {["c@x.edu" := EmailPreferences_default "c@x.edu"]}).
Proof. reflexivity. Qed.

(** ** The e-mail service *)

Section ServiceFacts.

Variable jinja_get_template : string -> PyResult unit.
Variable jinja_render : string -> gmap string PyVal -> PyResult string.
Variable schema_validate : email_service.MessageSchema -> PyResult unit.
Variable mail_send_message : email_service.MessageSchema -> PyResult unit.

Import email_service.

Implicit Types (self : EmailService) (recipients : list string)
  (subject template_name : string) (context : gmap string PyVal)
  (cc : option (list string)) (t : Trace).

Lemma send_email_disabled self recipients subject template_name context cc t :
  enabled self = false ->
  send_email jinja_get_template jinja_render schema_validate mail_send_message
    self recipients subject template_name context cc t
  = (Return false,
     (t ++ [EvLog "info" "Email service disabled. Would send to" recipients subject])%list).
Proof. intros H. unfold send_email. rewrite H. reflexivity. Qed.

(** With the service enabled, the steps run in order and the first one
    that raises ends the attempt in the handler. *)
Lemma send_email_enabled self recipients subject template_name context cc t :
  enabled self = true ->
  send_email jinja_get_template jinja_render schema_validate mail_send_message
    self recipients subject template_name context cc t
  = let file := template_name ++ ".html" in
    let ctx := rendered_context subject context in
    let failed (e : PyExn) := EvLog "error" "Failed to send email to" recipients (exn_msg e) in
    match jinja_get_template file with
    | Raise e => (Return false, (t ++ [EvGetTemplate file; failed e])%list)
    | Return _ =>
        match jinja_render file ctx with
        | Raise e =>
            (Return false, (t ++ [EvGetTemplate file; EvRender file ctx; failed e])%list)
        | Return html_content =>
            let message := composed_message recipients subject cc html_content in
            match schema_validate message with
            | Raise e =>
                (Return false,
                 (t ++ [EvGetTemplate file; EvRender file ctx; failed e])%list)
            | Return _ =>
                match mail_send_message message with
                | Raise e =>
                    (Return false,
                     (t ++ [EvGetTemplate file; EvRender file ctx; EvSend message;
                            failed e])%list)
                | Return _ =>
                    (Return true,
                     (t ++ [EvGetTemplate file; EvRender file ctx; EvSend message;
                            EvLog "info" "Email sent successfully to" recipients
                              subject])%list)
                end
            end
        end
    end.
Proof.
  intros H. unfold send_email. rewrite H. simpl.
  unfold try_except, bind, external, silent, emit, ret, rendered_context,
    composed_message.
  destruct (jinja_get_template _) as [[]|e]; simpl.
  - destruct (jinja_render _ _) as [html_content|e]; simpl.
    + destruct (schema_validate _) as [[]|e]; simpl.
      * destruct (mail_send_message _) as [[]|e]; simpl;
          by rewrite <- !(assoc_L (++)).
      * by rewrite <- !(assoc_L (++)).
    + by rewrite <- !(assoc_L (++)).
  - by rewrite <- !(assoc_L (++)).
Qed.

Lemma contacts_app t (events : Trace) :
  contacts (t ++ events)%list = (contacts t ++ contacts events)%list.
Proof. unfold contacts. apply filter_app. Qed.

(** C8. While the transport is not configured ([enabled] false),
    [send_email] returns [False] for every request, having logged one
    informational record and called neither the template engine nor the
    transport, and it does not raise.  For every request and every
    behaviour of the engine, of the schema and of the transport,
    [send_email] returns a boolean and never raises: an exception raised
    while the template is loaded, while it is rendered, while the message
    is built or while it is sent yields [False], and [True] is returned only
    when all the steps succeeded. *)
Theorem send_email_never_raises
    self recipients subject template_name context cc t :
  let run := send_email jinja_get_template jinja_render schema_validate
               mail_send_message
               self recipients subject template_name context cc t in
  let file := template_name ++ ".html" in
  let ctx := rendered_context subject context in
  (enabled self = false ->
     run.1 = Return false
     /\ run.2 = (t ++ [EvLog "info" "Email service disabled. Would send to"
                        recipients subject])%list
     /\ contacts run.2 = contacts t)
  /\ (exists sent : bool, run.1 = Return sent)
  /\ (forall e,
        jinja_get_template file = Raise e \/ jinja_render file ctx = Raise e ->
        run.1 = Return false)
  /\ (forall html_content e,
        jinja_render file ctx = Return html_content ->
        mail_send_message (composed_message recipients subject cc html_content) = Raise e ->
        run.1 = Return false)
  /\ (forall html_content e,
        jinja_render file ctx = Return html_content ->
        schema_validate (composed_message recipients subject cc html_content) = Raise e ->
        run.1 = Return false)
  /\ (run.1 = Return true ->
        enabled self = true
        /\ jinja_get_template file = Return tt
        /\ exists html_content,
             jinja_render file ctx = Return html_content
             /\ schema_validate (composed_message recipients subject cc html_content)
                = Return tt
             /\ mail_send_message (composed_message recipients subject cc html_content)
                = Return tt).
Proof.
  intros run file ctx. subst run.
  destruct (enabled self) eqn:En.
  - rewrite (send_email_enabled _ _ _ _ _ _ _ En). fold file ctx. simpl.
    split; [done|].
    destruct (jinja_get_template file) as [[]|e0] eqn:G; simpl.
    + destruct (jinja_render file ctx) as [html_content|e1] eqn:R; simpl.
      * destruct (schema_validate _) as [[]|e2] eqn:V; simpl.
        -- destruct (mail_send_message _) as [[]|e3] eqn:M; simpl.
           ++ split; [by exists true|].
              split; [by intros e [H|H]|].
              split; [intros h e [= <-] H; congruence|].
              split; [intros h e [= <-] H; congruence|].
              intros _. split; [done|]. split; [done|]. by exists html_content.
           ++ split; [by exists false|]. by repeat split.
        -- split; [by exists false|]. by repeat split.
      * split; [by exists false|]. by repeat split.
    + split; [by exists false|]. by repeat split.
  - rewrite (send_email_disabled _ _ _ _ _ _ _ En). simpl.
    split.
    { intros _. split; [done|]. split; [done|].
      rewrite contacts_app. apply (right_id_L [] (++)). }
    split; [by exists false|]. by repeat split.
Qed.

End ServiceFacts.

Example send_email_delivers :
  email_service.send_email template_found render_ok schema_wants_cc_list transport_ok
    service_on ["a@x.edu"] "Hello" "reminder" ∅ (Some ["p@x.edu"]) []
  = (Return true,
     [email_service.EvGetTemplate "reminder.html";
      email_service.EvRender "reminder.html" {["subject" := VStr "Hello"]};
      email_service.EvSend
        {| email_service.subject := "Hello"; email_service.recipients := ["a@x.edu"];
           email_service.body := "<html>reminder.html</html>";
           email_service.subtype := "html"; email_service.cc := Some ["p@x.edu"] |};
      email_service.EvLog "info" "Email sent successfully to" ["a@x.edu"] "Hello"]).
Proof. reflexivity. Qed.

(** With a schema that refuses [cc=None], a send without copy fails
    before the transport is reached. *)
Example send_email_schema_refuses :
  email_service.send_email template_found render_ok schema_wants_cc_list transport_ok
    service_on ["a@x.edu"] "Hello" "reminder" ∅ None []
  = (Return false,
     [email_service.EvGetTemplate "reminder.html";
      email_service.EvRender "reminder.html" {["subject" := VStr "Hello"]};
      email_service.EvLog "error" "Failed to send email to" ["a@x.edu"]
        "cc: Input should be a valid list"]).
Proof. reflexivity. Qed.

Example send_email_render_fails :
  email_service.send_email template_found render_undefined schema_ok transport_ok
    service_on ["a@x.edu"] "Hello" "reminder" ∅ None []
  = (Return false,
     [email_service.EvGetTemplate "reminder.html";
      email_service.EvRender "reminder.html" {["subject" := VStr "Hello"]};
      email_service.EvLog "error" "Failed to send email to" ["a@x.edu"]
        "'activity_name' is undefined"]).
Proof. reflexivity. Qed.

Example send_email_transport_down :
  (email_service.send_email template_found render_ok schema_ok transport_down service_on
     ["a@x.edu"] "Hello" "reminder" ∅ (Some ["p@x.edu"]) []).1
  = Return false.
Proof. reflexivity. Qed.

Lemma send_email_never_raises_witness :
  (email_service.send_email template_found render_ok schema_ok transport_ok service_off
     ["a@x.edu"] "Hello" "reminder" ∅ None []).1 = Return false
  /\ (email_service.send_email template_missing render_ok schema_ok transport_ok
        service_on ["a@x.edu"] "Hello" "reminder" ∅ None []).1 = Return false.
Proof.
  split.
  - apply (proj1 (send_email_never_raises template_found render_ok schema_ok transport_ok
                    service_off ["a@x.edu"] "Hello" "reminder" ∅ None [])).
    reflexivity.
  - pose proof (send_email_never_raises template_missing render_ok schema_ok transport_ok
                  service_on ["a@x.edu"] "Hello" "reminder" ∅ None [])
      as (_ & _ & H & _).
    apply (H (Exception "TemplateNotFound" "reminder.html")).
    left. reflexivity.
Defined.

(** ** The HTTP handlers and the channel *)

Lemma send_batch_announcement_queued
    (recipients : list string) (subject template_name : string)
    (context : gmap string PyVal) (a : App) :
  recipients <> [] ->
  outage (broker a) = None ->
  queue (broker (send_batch_announcement recipients subject template_name context a).2)
  = (queue (broker a) ++ [BatchEmails recipients subject template_name context])%list.
Proof.
  intros Hne Hup. unfold send_batch_announcement.
  destruct recipients as [|r rest]; [done|]. simpl.
  unfold handler, try_except, bind, delay. rewrite Hup. reflexivity.
Qed.

Example batch_announcement_offline :
  send_batch_announcement ["a@x.edu"; "b@x.edu"] "News" "new_activity" ∅ offline_app
  = (Response
       [("message", VStr "Could not queue batch emails (task queue unavailable)");
        ("recipients_count", VInt 2);
        ("warning", VStr "Email service may not be available")],
     {| activities := initial_activities;
        broker := broker offline_app;
        warnings := ["Failed to queue batch emails: Connection refused"] |}).
Proof. reflexivity. Qed.

(** C7. A batch send with an empty recipient list is rejected at once with
    status 400 and the reason "No recipients specified", whatever the other
    arguments and the state of the broker are; the state of the process,
    and with it the queue of the channel, is left as it was. *)
Theorem send_batch_announcement_empty
    (subject template_name : string) (context : gmap string PyVal) (a : App) :
  send_batch_announcement [] subject template_name context a
  = (HTTPException 400 "No recipients specified", a)
  /\ queue (broker (send_batch_announcement [] subject template_name context a).2)
     = queue (broker a).
Proof. split; reflexivity. Qed.

(** A signup that passes the two checks of the handler adds the student
    to the roster and, the broker being reachable, puts one confirmation
    task on the queue.  The handler does not read the preferences. *)
Lemma signup_for_activity_enqueues
    (activity_name email : string) (activity : Activity) (a : App) :
  activities a !! activity_name = Some activity ->
  email ∉ participants activity ->
  outage (broker a) = None ->
  signup_for_activity activity_name email a
  = (Response [("message", VStr ("Signed up " ++ email ++ " for " ++ activity_name))],
     {| activities :=
          <[activity_name :=
              {| description := description activity;
                 schedule := schedule activity;
                 max_participants := max_participants activity;
                 participants := (participants activity ++ [email])%list |}]>
            (activities a);
        broker :=
          {| outage := None;
             queue := (queue (broker a)
                       ++ [SignupConfirmation email activity_name
                             (schedule activity) (description activity)])%list |};
        warnings := warnings a |}).
Proof.
  intros Hact Hnew Hup. unfold signup_for_activity. rewrite Hact.
  rewrite bool_decide_eq_false_2 by done.
  unfold handler, bind, try_except, set_activity, delay, ret. simpl.
  rewrite Hup. reflexivity.
Qed.

Section TaskFacts.

Variable email_str : string -> PyResult string.
Variable jinja_get_template : string -> PyResult unit.
Variable jinja_render : string -> gmap string PyVal -> PyResult string.
Variable schema_validate : email_service.MessageSchema -> PyResult unit.
Variable mail_send_message : email_service.MessageSchema -> PyResult unit.
Variable the_service : email_service.EmailService.

(** The task gives up before it reaches the e-mail service when the
    stored preferences say no. *)
Lemma send_signup_confirmation_task_skipped
    (student_email activity_name schedule description : string)
    (student_name : option string) (prefs : EmailPreferences) (w : World) :
  user_preferences w !! student_email = Some prefs ->
  should_send_with prefs NotificationCategory.SIGNUP_CONFIRMATION = false ->
  send_signup_confirmation_task email_str jinja_get_template jinja_render
    schema_validate mail_send_message the_service
    student_email activity_name schedule description student_name w
  = (Return [("status", VStr "skipped"); ("reason", VStr "user preferences")],
     {| user_preferences := user_preferences w; trace := trace w |}).
Proof.
  intros Hin Hno. unfold send_signup_confirmation_task, bind, on_prefs.
  rewrite (should_send_email_returns _ _ _ _ _ _ (get_user_preferences_hit _ _ _ _ Hin)).
  rewrite Hno. reflexivity.
Qed.

(** C1, as the code has it.  The signup handler puts the confirmation task
    on the channel whatever the preferences of the identity are.  When the
    worker runs that task for an identity whose stored record has
    [signup_confirmation] false, the task returns status "skipped" with
    reason "user preferences", makes no call to the e-mail service (no log
    record, no rendering, no delivery) and leaves the preference store as
    it was. *)
Theorem signup_confirmation_opt_out
    (email activity_name : string) (student_name : option string)
    (prefs : EmailPreferences) (st : Store) (t : email_service.Trace)
    (activity : Activity) (a : App) :
  st !! email = Some prefs ->
  signup_confirmation prefs = false ->
  activities a !! activity_name = Some activity ->
  email ∉ participants activity ->
  outage (broker a) = None ->
  let call := SignupConfirmation email activity_name
                (schedule activity) (description activity) in
  queue (broker (signup_for_activity activity_name email a).2)
  = (queue (broker a) ++ [call])%list
  /\ run_task email_str jinja_get_template jinja_render schema_validate
       mail_send_message the_service call
       {| user_preferences := st; trace := t |}
     = (Return [("status", VStr "skipped"); ("reason", VStr "user preferences")],
        {| user_preferences := st; trace := t |})
  /\ send_signup_confirmation_task email_str jinja_get_template jinja_render
       schema_validate mail_send_message
       the_service email activity_name (schedule activity) (description activity)
       student_name {| user_preferences := st; trace := t |}
     = (Return [("status", VStr "skipped"); ("reason", VStr "user preferences")],
        {| user_preferences := st; trace := t |}).
Proof.
  intros Hin Hflag Hact Hnew Hup call.
  assert (should_send_with prefs NotificationCategory.SIGNUP_CONFIRMATION = false)
    as Hno.
  { apply should_send_with_flag_off. by rewrite category_map_get. }
  split; [|split].
  - by rewrite (signup_for_activity_enqueues _ _ _ _ Hact Hnew Hup).
  - unfold call, run_task.
    by rewrite (send_signup_confirmation_task_skipped _ _ _ _ _ prefs).
  - by rewrite (send_signup_confirmation_task_skipped _ _ _ _ _ prefs).
Qed.

End TaskFacts.

Lemma signup_confirmation_opt_out_witness :
  queue (broker (signup_for_activity "GitHub Skills" "a@x.edu" fresh_app).2)
  = [SignupConfirmation "a@x.edu" "GitHub Skills" "Wednesdays, 3:30 PM - 5:00 PM"
       (description github_skills)]
  /\ (run_task sample_email_str template_found render_ok schema_ok transport_ok
        service_on
        (SignupConfirmation "a@x.edu" "GitHub Skills" "Wednesdays, 3:30 PM - 5:00 PM"
           (description github_skills))
        {| user_preferences := opted_out_store; trace := [] |}).1
     = Return [("status", VStr "skipped"); ("reason", VStr "user preferences")].
Proof.
  pose proof (signup_confirmation_opt_out sample_email_str template_found render_ok
                schema_ok transport_ok service_on
                "a@x.edu" "GitHub Skills" None no_signup_prefs opted_out_store []
                github_skills fresh_app eq_refl eq_refl eq_refl (not_elem_of_nil _)
                eq_refl) as H.
  cbv zeta in H. destruct H as (Hq & Hrun & _).
  split.
  - exact Hq.
  - exact (f_equal fst Hrun).
Defined.

(** C1 as the specification words it does not hold: for the identity
    "a@x.edu", whose record has [signup_confirmation] false, a signup for
    an activity it is not enrolled in answers with the success message and
    leaves one confirmation task on the queue of the channel, which was
    empty before. *)
Lemma signup_reaches_channel_despite_opt_out :
  opted_out_store !! "a@x.edu" = Some no_signup_prefs
  /\ signup_confirmation no_signup_prefs = false
  /\ queue (broker fresh_app) = []
  /\ (signup_for_activity "GitHub Skills" "a@x.edu" fresh_app).1
     = Response [("message", VStr "Signed up a@x.edu for GitHub Skills")]
  /\ queue (broker (signup_for_activity "GitHub Skills" "a@x.edu" fresh_app).2)
     = [SignupConfirmation "a@x.edu" "GitHub Skills" "Wednesdays, 3:30 PM - 5:00 PM"
          (description github_skills)]
  /\ queue (broker (signup_for_activity "GitHub Skills" "a@x.edu" fresh_app).2)
     <> queue (broker fresh_app).
Proof. repeat split; try reflexivity. discriminate. Qed.

(** With the default preferences the task goes through to the service and
    asks for one message for template "signup_confirmation", addressed to
    the student alone, without copy.  With a schema that takes such a
    message, it is handed to the transport. *)
Example signup_confirmation_defaults :
  run_task sample_email_str template_found render_ok schema_ok transport_ok service_on
    (SignupConfirmation "a@x.edu" "Chess Club" "Fri 3:30-5:00" "desc")
    {| user_preferences := ∅; trace := [] |}
  = (Return [("status", VStr "sent")],
     {| user_preferences := {["a@x.edu" := EmailPreferences_default "a@x.edu"]};
        trace :=
          [email_service.EvGetTemplate "signup_confirmation.html";
           email_service.EvRender "signup_confirmation.html"
             (<["subject" := VStr "Confirmed: Chess Club Registration"]>
                (<["description" := VStr "desc"]>
                   (<["schedule" := VStr "Fri 3:30-5:00"]>
                      (<["activity_name" := VStr "Chess Club"]>
                         (<["student_name" := VNone]> ∅)))));
           email_service.EvSend
             {| email_service.subject := "Confirmed: Chess Club Registration";
                email_service.recipients := ["a@x.edu"];
                email_service.body := "<html>signup_confirmation.html</html>";
                email_service.subtype := "html";
                email_service.cc := None |};
           email_service.EvLog "info" "Email sent successfully to" ["a@x.edu"]
             "Confirmed: Chess Club Registration"] |}).
Proof. reflexivity. Qed.

(** With a schema that refuses [cc=None], the same task ends "failed" and
    nothing reaches the transport. *)
Example signup_confirmation_defaults_refused :
  (run_task sample_email_str template_found render_ok schema_wants_cc_list transport_ok
     service_on
     (SignupConfirmation "a@x.edu" "Chess Club" "Fri 3:30-5:00" "desc")
     {| user_preferences := ∅; trace := [] |}).1
  = Return [("status", VStr "failed")].
Proof. reflexivity. Qed.

(** A signup with a string that is not an address is accepted by the
    handler and queued; the task then raises on the worker. *)
Example signup_of_non_address :
  (signup_for_activity "Chess Club" "nobody" fresh_app).1
  = Response [("message", VStr "Signed up nobody for Chess Club")]
  /\ run_task sample_email_str template_found render_ok schema_ok transport_ok service_on
       (SignupConfirmation "nobody" "Chess Club" "Fridays, 3:30 PM - 5:00 PM"
          "Learn strategies and compete in chess tournaments")
       {| user_preferences := ∅; trace := [] |}
     = (Raise (Exception "ValidationError" "value is not a valid email address"),
        {| user_preferences := ∅; trace := [] |}).
Proof. split; reflexivity. Qed.

(** * Further properties of the code *)

(** ** Reading and writing preferences *)

Section PreferenceFacts.

Variable email_str : string -> PyResult string.

(** X1. A record written with [update_user_preferences] is what the next
    read returns, and that read leaves the store alone; the record replaces
    whatever was stored before, and of two writes only the last one
    counts. *)
Theorem update_user_preferences_read_back
    (email : string) (prefs earlier : EmailPreferences) (st : Store) :
  let st' := (update_user_preferences email prefs st).2 in
  (update_user_preferences email prefs st).1 = prefs
  /\ get_user_preferences email_str email st' = (Return prefs, st')
  /\ (update_user_preferences email prefs
        (update_user_preferences email earlier st).2).2 = st'.
Proof.
  intros st'. unfold st', update_user_preferences. simpl.
  split; [done|]. split.
  - apply get_user_preferences_hit, lookup_insert_eq.
  - apply insert_insert_eq.
Qed.

(** X2. Reading, writing or deleting the preferences of one identity
    leaves the stored record of every other identity as it was, also when
    the read raises. *)
Theorem preferences_frame
    (email other : string) (category : NotificationCategory.t)
    (prefs : EmailPreferences) (st : Store) :
  other <> email ->
  (get_user_preferences email_str email st).2 !! other = st !! other
  /\ (should_send_email email_str email category st).2 !! other = st !! other
  /\ (get_parent_email email_str email st).2 !! other = st !! other
  /\ (update_user_preferences email prefs st).2 !! other = st !! other
  /\ (delete_user_preferences email st).2 !! other = st !! other.
Proof.
  intros Hne.
  pose proof (get_user_preferences_frame email_str email other st Hne) as Hget.
  rewrite should_send_email_unfold, get_parent_email_unfold.
  destruct (get_user_preferences email_str email st) as [[p|e] st1]; simpl in *.
  - repeat split; try done.
    + unfold update_user_preferences. simpl. by rewrite lookup_insert_ne.
    + unfold delete_user_preferences.
      destruct (st !! email); simpl; [|done]. by rewrite lookup_delete_ne.
  - repeat split; try done.
    + unfold update_user_preferences. simpl. by rewrite lookup_insert_ne.
    + unfold delete_user_preferences.
      destruct (st !! email); simpl; [|done]. by rewrite lookup_delete_ne.
Qed.

Lemma should_send_with_true_iff (prefs : EmailPreferences)
    (category : NotificationCategory.t) :
  should_send_with prefs category = true
  <-> enabled prefs = true
      /\ frequency prefs <> DISABLED
      /\ (digest_only prefs = true -> category = NotificationCategory.WEEKLY_DIGEST)
      /\ category_flag prefs category = true.
Proof.
  unfold should_send_with. rewrite category_map_get.
  change (match category with
          | NotificationCategory.SIGNUP_CONFIRMATION => signup_confirmation prefs
          | NotificationCategory.UNREGISTER_CONFIRMATION => unregister_confirmation prefs
          | NotificationCategory.ACTIVITY_CHANGES => activity_changes prefs
          | NotificationCategory.REMINDERS => reminders prefs
          | NotificationCategory.WEEKLY_DIGEST => weekly_digest prefs
          | NotificationCategory.NEW_ACTIVITIES => new_activities prefs
          | NotificationCategory.ATTENDANCE => attendance prefs
          end) with (category_flag prefs category).
  destruct (enabled prefs); simpl; [|by split; [|intros (? & _)]].
  destruct (decide (frequency prefs = DISABLED)) as [Hd|Hd].
  - rewrite bool_decide_eq_true_2 by done. split; [done|]. by intros (_ & ? & _).
  - rewrite bool_decide_eq_false_2 by done.
    destruct (digest_only prefs); simpl.
    + destruct (decide (category = NotificationCategory.WEEKLY_DIGEST)) as [Hc|Hc].
      * rewrite bool_decide_eq_true_2 by done. simpl. by split; [|intros (_ & _ & _ & ?)].
      * rewrite bool_decide_eq_false_2 by done. simpl. split; [done|].
        intros (_ & _ & H & _). by specialize (H eq_refl).
    + split; [|by intros (_ & _ & _ & ?)]. intros H. by repeat split.
Qed.

(** X3. The whole decision of [should_send_email]: whenever the read of
    the identity returns a record (the stored one, or the defaults), the
    answer is true exactly when that record has the global switch on, a
    frequency other than [DISABLED], digest-only mode off unless the
    category is the weekly digest, and the flag of the category on.  The
    fallback of the dictionary lookup is never used. *)
Theorem should_send_email_true_iff
    (email : string) (category : NotificationCategory.t) (st st' : Store)
    (prefs : EmailPreferences) :
  get_user_preferences email_str email st = (Return prefs, st') ->
  (should_send_email email_str email category st).1 = Return true
  <-> enabled prefs = true
      /\ frequency prefs <> DISABLED
      /\ (digest_only prefs = true -> category = NotificationCategory.WEEKLY_DIGEST)
      /\ category_flag prefs category = true.
Proof.
  intros Hget. rewrite (should_send_email_returns _ _ _ _ _ _ Hget). simpl.
  rewrite <- should_send_with_true_iff. split; [by intros [= ->]|by intros ->].
Qed.

(** X4. An identity without a stored record that the address check
    accepts is sent every category, and no parent is copied. *)
Theorem unseen_identity_gets_everything
    (email address : string) (category : NotificationCategory.t) (st : Store) :
  st !! email = None ->
  email_str email = Return address ->
  (should_send_email email_str email category st).1 = Return true
  /\ (get_parent_email email_str email st).1 = Return None.
Proof.
  intros Hmiss Ha.
  pose proof (get_user_preferences_miss email_str _ _ _ Hmiss Ha) as Hget.
  rewrite (should_send_email_returns _ _ _ _ _ _ Hget).
  rewrite (get_parent_email_returns _ _ _ _ _ Hget). simpl.
  split; [|done]. f_equal. apply should_send_with_default.
Qed.

(** X5. Among the frequencies only [DISABLED] matters: rewriting a record
    with another frequency, neither the old nor the new one being
    [DISABLED], changes no decision.  The daily and weekly frequencies do
    not hold back any category. *)
Theorem should_send_email_ignores_digest_frequency
    (email : string) (category : NotificationCategory.t) (st : Store)
    (prefs : EmailPreferences) (f : EmailFrequency) :
  st !! email = Some prefs ->
  frequency prefs <> DISABLED ->
  f <> DISABLED ->
  (should_send_email email_str email category
     (update_user_preferences email (with_frequency prefs f) st).2).1
  = (should_send_email email_str email category st).1.
Proof.
  intros Hin Hold Hnew.
  rewrite (should_send_email_returns _ _ _ _ _ _ (get_user_preferences_hit _ _ _ _ Hin)).
  unfold update_user_preferences. simpl.
  rewrite (should_send_email_returns _ _ _ _ (with_frequency prefs f)
             (<[email := with_frequency prefs f]> st))
    by apply get_user_preferences_hit, lookup_insert_eq.
  simpl. f_equal. unfold should_send_with. rewrite !category_map_get. simpl.
  rewrite (bool_decide_eq_false_2 (f = DISABLED)) by done.
  rewrite (bool_decide_eq_false_2 (frequency prefs = DISABLED)) by done.
  reflexivity.
Qed.

(** X6. Deleting right after a write reports true and leaves the store
    without the identity (the very store from before, when the identity
    was new); a second delete reports false and changes nothing. *)
Theorem delete_undoes_update (email : string) (prefs : EmailPreferences) (st : Store) :
  let written := (update_user_preferences email prefs st).2 in
  delete_user_preferences email written = (true, delete email st)
  /\ (st !! email = None -> delete_user_preferences email written = (true, st))
  /\ delete_user_preferences email (delete_user_preferences email written).2
     = (false, delete email st).
Proof.
  intros written. unfold written, update_user_preferences. simpl.
  assert (delete_user_preferences email (<[email := prefs]> st) = (true, delete email st))
    as Hdel.
  { unfold delete_user_preferences. rewrite lookup_insert_eq.
    by rewrite delete_insert_eq. }
  rewrite Hdel. simpl. split; [done|]. split.
  - intros Hmiss. by rewrite delete_id.
  - unfold delete_user_preferences. by rewrite lookup_delete_eq.
Qed.

(** X7. When a read of an identity returns, the three reads leave the same
    store behind, and from then on each read answers what it answered
    before and changes nothing more: only the first read of an identity
    writes.  When the read raises, the three reads raise alike and write
    nothing. *)
Theorem reads_settle (email : string) (category : NotificationCategory.t) (st : Store) :
  (forall prefs st1,
     get_user_preferences email_str email st = (Return prefs, st1) ->
     (should_send_email email_str email category st).2 = st1
     /\ (get_parent_email email_str email st).2 = st1
     /\ get_user_preferences email_str email st1 = (Return prefs, st1)
     /\ should_send_email email_str email category st1
        = ((should_send_email email_str email category st).1, st1)
     /\ get_parent_email email_str email st1
        = ((get_parent_email email_str email st).1, st1))
  /\ (forall e st1,
        get_user_preferences email_str email st = (Raise e, st1) ->
        st1 = st
        /\ should_send_email email_str email category st = (Raise e, st)
        /\ get_parent_email email_str email st = (Raise e, st)).
Proof.
  split.
  - intros prefs st1 Hget.
    pose proof (get_user_preferences_again _ _ _ _ _ Hget) as Hagain.
    rewrite (should_send_email_returns _ _ _ _ _ _ Hget).
    rewrite (get_parent_email_returns _ _ _ _ _ Hget).
    rewrite (should_send_email_returns _ _ _ _ _ _ Hagain).
    rewrite (get_parent_email_returns _ _ _ _ _ Hagain). done.
  - intros e st1 Hget.
    rewrite should_send_email_unfold, get_parent_email_unfold, Hget.
    by apply get_user_preferences_raises in Hget as (-> & _).
Qed.

Lemma keyed_by_address_insert (key : string) (prefs : EmailPreferences) (st : Store) :
  email_str key = Return (email prefs) ->
  keyed_by_address email_str st -> keyed_by_address email_str (<[key := prefs]> st).
Proof. intros Hk Hst. by apply map_Forall_insert_2. Qed.

Lemma keyed_by_address_read (email : string) (st : Store) :
  keyed_by_address email_str st ->
  keyed_by_address email_str (get_user_preferences email_str email st).2.
Proof.
  intros Hst. unfold get_user_preferences, EmailPreferences_init.
  destruct (st !! email); [done|].
  destruct (email_str email) as [address|e] eqn:Ha; simpl; [|done].
  by apply keyed_by_address_insert.
Qed.

Lemma keyed_by_address_filter category (recipients : list string) (st : Store) :
  keyed_by_address email_str st ->
  keyed_by_address email_str (filter_recipients email_str category recipients st).2.
Proof.
  revert st. induction recipients as [|email rest IH]; intros st Hst; [done|].
  rewrite filter_recipients_cons.
  pose proof (keyed_by_address_read email st Hst) as Hread.
  destruct (get_user_preferences email_str email st) as [[prefs|e] st1]; [|done].
  simpl in Hread. specialize (IH _ Hread).
  by destruct (filter_recipients email_str category rest st1) as [[kept|e] st2].
Qed.

(** X8. A read stores the normal form of the address under the string
    as it was given, so what the store keeps is this: if every record
    carries the normal form of the string it is stored under, this is still
    so after any read, after filtering a recipient list (also when these
    raise), after a delete, and after a write of a record that carries the
    normal form of its key. *)
Theorem keyed_by_address_kept
    (email : string) (category : NotificationCategory.t)
    (recipients : list string) (prefs : EmailPreferences) (st : Store) :
  keyed_by_address email_str st ->
  keyed_by_address email_str (get_user_preferences email_str email st).2
  /\ keyed_by_address email_str (should_send_email email_str email category st).2
  /\ keyed_by_address email_str (get_parent_email email_str email st).2
  /\ keyed_by_address email_str (filter_recipients email_str category recipients st).2
  /\ keyed_by_address email_str (delete_user_preferences email st).2
  /\ (email_str email = Return (email_preferences.email prefs) ->
      keyed_by_address email_str (update_user_preferences email prefs st).2).
Proof.
  intros Hst.
  pose proof (keyed_by_address_read email st Hst) as Hread.
  rewrite should_send_email_unfold, get_parent_email_unfold.
  split; [done|].
  split; [by destruct (get_user_preferences email_str email st) as [[p|e] st1]|].
  split; [by destruct (get_user_preferences email_str email st) as [[p|e] st1]|].
  split; [by apply keyed_by_address_filter|].
  split.
  - unfold delete_user_preferences.
    destruct (st !! email); simpl; [|done]. by apply map_Forall_delete.
  - intros Hk. unfold update_user_preferences. simpl.
    by apply keyed_by_address_insert.
Qed.

End PreferenceFacts.

Lemma preferences_frame_witness :
  (should_send_email sample_email_str "new@mergington.edu"
     NotificationCategory.REMINDERS test_store).2
    !! "student@mergington.edu" = Some student_prefs
  /\ (delete_user_preferences "digest@mergington.edu" test_store).2
       !! "student@mergington.edu" = Some student_prefs.
Proof.
  split.
  - pose proof (preferences_frame sample_email_str "new@mergington.edu"
                  "student@mergington.edu"
                  NotificationCategory.REMINDERS student_prefs test_store) as H.
    destruct H as (_ & H & _); [discriminate|].
    rewrite H. reflexivity.
  - pose proof (preferences_frame sample_email_str "digest@mergington.edu"
                  "student@mergington.edu"
                  NotificationCategory.REMINDERS student_prefs test_store) as H.
    destruct H as (_ & _ & _ & _ & H); [discriminate|].
    rewrite H. reflexivity.
Defined.

Lemma should_send_email_true_iff_witness :
  (should_send_email sample_email_str "student@mergington.edu"
     NotificationCategory.ACTIVITY_CHANGES test_store).1 = Return true.
Proof.
  apply (proj2 (should_send_email_true_iff sample_email_str "student@mergington.edu"
                  NotificationCategory.ACTIVITY_CHANGES test_store test_store
                  student_prefs eq_refl)).
  repeat split; try reflexivity; discriminate.
Defined.

Lemma unseen_identity_gets_everything_witness :
  (should_send_email sample_email_str "New@MERGINGTON.EDU"
     NotificationCategory.ATTENDANCE test_store).1
  = Return true.
Proof.
  apply (unseen_identity_gets_everything sample_email_str "New@MERGINGTON.EDU"
           "New@mergington.edu" NotificationCategory.ATTENDANCE test_store).
  - reflexivity.
  - reflexivity.
Defined.

Lemma should_send_email_ignores_digest_frequency_witness :
  (should_send_email sample_email_str "digest@mergington.edu"
     NotificationCategory.REMINDERS
     (update_user_preferences "digest@mergington.edu" weekly_only_prefs test_store).2).1
  = (should_send_email sample_email_str "digest@mergington.edu"
       NotificationCategory.REMINDERS test_store).1.
Proof.
  apply (should_send_email_ignores_digest_frequency sample_email_str
           "digest@mergington.edu"
           NotificationCategory.REMINDERS test_store digest_prefs WEEKLY_DIGEST).
  - reflexivity.
  - simpl. discriminate.
  - discriminate.
Defined.

Lemma delete_undoes_update_witness :
  delete_user_preferences "new@mergington.edu"
    (update_user_preferences "new@mergington.edu" stray_prefs test_store).2
  = (true, test_store).
Proof.
  apply (proj1 (proj2 (delete_undoes_update "new@mergington.edu" stray_prefs test_store))).
  reflexivity.
Defined.

Lemma test_store_keyed : keyed_by_address sample_email_str test_store.
Proof.
  unfold test_store.
  repeat (apply keyed_by_address_insert; [reflexivity|]).
  apply map_Forall_empty.
Defined.

Lemma keyed_by_address_kept_witness :
  keyed_by_address sample_email_str
    (filter_recipients sample_email_str NotificationCategory.NEW_ACTIVITIES
       ["New@MERGINGTON.EDU"; "nobody"] test_store).2.
Proof.
  apply (keyed_by_address_kept sample_email_str "New@MERGINGTON.EDU"
           NotificationCategory.NEW_ACTIVITIES
           ["New@MERGINGTON.EDU"; "nobody"] student_prefs test_store).
  exact test_store_keyed.
Defined.

(** The record a read stores under a string that is not in normal form
    carries another address than its key. *)
Example read_stores_normal_form :
  ((get_user_preferences sample_email_str "New@MERGINGTON.EDU" ∅).2
     !! "New@MERGINGTON.EDU")
  = Some (EmailPreferences_default "New@mergington.edu").
Proof. reflexivity. Qed.

(** ** The preference handlers *)

Import app_endpoints.

Section HandlerFacts.

Variable email_str : string -> PyResult string.

(** X9. [set_email_preferences] refuses a record whose address differs
    from the one in the path with status 400 and leaves the store as it
    was; a record under its own address is stored, returned in the reply,
    and is what the next [get_email_preferences] returns.  The library
    function [update_user_preferences] makes no such check. *)
Theorem set_email_preferences_checks_identity
    (email : string) (prefs : EmailPreferences) (st : Store) :
  (email_preferences.email prefs <> email ->
     set_email_preferences email prefs st
     = (PrefError 400 "Email in path must match email in preferences", st)
     /\ (update_user_preferences email prefs st).2 !! email = Some prefs)
  /\ (email_preferences.email prefs = email ->
        let st' := <[email := prefs]> st in
        set_email_preferences email prefs st
        = (PrefUpdated "Preferences updated successfully" prefs, st')
        /\ get_email_preferences email_str email st' = (Return (PrefRecord prefs), st')).
Proof.
  unfold set_email_preferences, get_email_preferences. split.
  - intros Hne. rewrite bool_decide_eq_false_2 by done. simpl.
    split; [done|]. apply lookup_insert_eq.
  - intros Heq. cbv zeta. rewrite bool_decide_eq_true_2 by done. simpl.
    split; [done|]. unfold bind.
    by rewrite (get_user_preferences_hit _ _ _ prefs) by apply lookup_insert_eq.
Qed.

(** X10. Through the preference handlers every record keeps carrying the
    normal form of the string it is stored under: [get_email_preferences]
    (also when it raises), [remove_email_preferences] and
    [list_all_preferences] keep this for any argument, and
    [set_email_preferences] keeps it, accepted or refused, for a body whose
    address is in normal form. *)
Theorem handlers_keep_keyed_by_address
    (email : string) (prefs : EmailPreferences) (st : Store) :
  keyed_by_address email_str st ->
  keyed_by_address email_str (get_email_preferences email_str email st).2
  /\ (email_str (email_preferences.email prefs) = Return (email_preferences.email prefs) ->
      keyed_by_address email_str (set_email_preferences email prefs st).2)
  /\ keyed_by_address email_str (remove_email_preferences email st).2
  /\ keyed_by_address email_str (list_all_preferences st).2.
Proof.
  intros Hst. split; [|split; [|split]].
  - unfold get_email_preferences, bind.
    pose proof (keyed_by_address_read email_str email st Hst) as H.
    by destruct (get_user_preferences email_str email st) as [[p|e] st1].
  - intros Hnormal. unfold set_email_preferences.
    destruct (decide (email = email_preferences.email prefs)) as [Heq|Hne].
    + rewrite bool_decide_eq_true_2 by done. simpl.
      apply keyed_by_address_insert; [|done]. by rewrite Heq.
    + by rewrite bool_decide_eq_false_2 by done.
  - unfold remove_email_preferences, delete_user_preferences.
    destruct (st !! email); simpl; [|done]. by apply map_Forall_delete.
  - done.
Qed.

(** X11. [remove_email_preferences] answers 404 "Preferences not found"
    exactly when nothing is stored under the identity, and then leaves the
    store alone; otherwise it confirms and removes the record.  Removing
    twice always ends in 404.  A [get_email_preferences] after a removal
    returns the defaults for an identity that the address check accepts,
    and raises for one it refuses. *)
Theorem remove_email_preferences_replies (email : string) (st : Store) :
  (st !! email = None ->
     remove_email_preferences email st = (PrefError 404 "Preferences not found", st))
  /\ (is_Some (st !! email) ->
        remove_email_preferences email st
        = (PrefMessage "Preferences deleted successfully", delete email st))
  /\ (remove_email_preferences email (remove_email_preferences email st).2).1
     = PrefError 404 "Preferences not found"
  /\ (forall address, email_str email = Return address ->
        (get_email_preferences email_str email (remove_email_preferences email st).2).1
        = Return (PrefRecord (EmailPreferences_default address)))
  /\ (forall e, email_str email = Raise e ->
        get_email_preferences email_str email (remove_email_preferences email st).2
        = (Raise e, delete email st)).
Proof.
  assert (forall s : Store, s !! email = None ->
            remove_email_preferences email s
            = (PrefError 404 "Preferences not found", s)) as Hnone.
  { intros s Hs. unfold remove_email_preferences, delete_user_preferences.
    by rewrite Hs. }
  assert ((remove_email_preferences email st).2 = delete email st) as Hstore.
  { unfold remove_email_preferences, delete_user_preferences.
    destruct (st !! email) eqn:E; simpl; [done|by rewrite delete_id]. }
  assert ((remove_email_preferences email st).2 !! email = None) as Hgone.
  { rewrite Hstore. apply lookup_delete_eq. }
  split; [apply Hnone|]. split.
  - intros [prefs Hin]. unfold remove_email_preferences, delete_user_preferences.
    by rewrite Hin.
  - split; [by rewrite (Hnone _ Hgone)|]. split.
    + intros address Ha. unfold get_email_preferences, bind.
      by rewrite (get_user_preferences_miss _ _ _ _ Hgone Ha).
    + intros e He. unfold get_email_preferences, bind.
      rewrite (get_user_preferences_refused _ _ _ _ Hgone He). by rewrite Hstore.
Qed.

End HandlerFacts.

Lemma set_email_preferences_checks_identity_witness :
  set_email_preferences "a@x.edu" stray_prefs test_store
  = (PrefError 400 "Email in path must match email in preferences", test_store)
  /\ set_email_preferences "a@x.edu" no_signup_prefs test_store
     = (PrefUpdated "Preferences updated successfully" no_signup_prefs,
        <["a@x.edu" := no_signup_prefs]> test_store).
Proof.
  split.
  - apply (proj1 (set_email_preferences_checks_identity sample_email_str
                    "a@x.edu" stray_prefs test_store)).
    discriminate.
  - apply (proj2 (set_email_preferences_checks_identity sample_email_str
                    "a@x.edu" no_signup_prefs test_store)).
    reflexivity.
Defined.

Lemma handlers_keep_keyed_by_address_witness :
  keyed_by_address sample_email_str
    (get_email_preferences sample_email_str "New@MERGINGTON.EDU" test_store).2
  /\ keyed_by_address sample_email_str
       (set_email_preferences "a@x.edu" no_signup_prefs test_store).2.
Proof.
  pose proof (handlers_keep_keyed_by_address sample_email_str "New@MERGINGTON.EDU"
                no_signup_prefs test_store test_store_keyed) as (H1 & _).
  pose proof (handlers_keep_keyed_by_address sample_email_str "a@x.edu"
                no_signup_prefs test_store test_store_keyed) as (_ & H2 & _).
  split; [exact H1|]. apply H2. reflexivity.
Defined.

Lemma remove_email_preferences_replies_witness :
  remove_email_preferences "new@mergington.edu" test_store
  = (PrefError 404 "Preferences not found", test_store)
  /\ (remove_email_preferences "student@mergington.edu" test_store).1
     = PrefMessage "Preferences deleted successfully".
Proof.
  split.
  - apply (proj1 (remove_email_preferences_replies sample_email_str
                    "new@mergington.edu" test_store)).
    reflexivity.
  - pose proof (proj1 (proj2 (remove_email_preferences_replies sample_email_str
                                "student@mergington.edu" test_store))) as H.
    rewrite H; [reflexivity|]. exists student_prefs. reflexivity.
Defined.

(** ** More on filtering *)

Section MoreFilterFacts.

Variable email_str : string -> PyResult string.

(** After a comprehension that returned: every identity of the list has
    the record its read returned, and the others are untouched. *)
Lemma filter_recipients_lookup category (recipients kept : list string)
    (st st' : Store) :
  filter_recipients email_str category recipients st = (Return kept, st') ->
  forall email,
    (email ∈ recipients ->
     exists prefs, (get_user_preferences email_str email st).1 = Return prefs
                   /\ st' !! email = Some prefs)
    /\ (email ∉ recipients -> st' !! email = st !! email).
Proof.
  revert st kept st'. induction recipients as [|first rest IH]; intros st kept st'.
  - intros [= <- <-] email. split; [by intros ?%not_elem_of_nil|done].
  - rewrite filter_recipients_cons.
    destruct (get_user_preferences email_str first st) as [[p|e] st1] eqn:Hget; [|done].
    destruct (filter_recipients email_str category rest st1) as [[kept1|e] st2] eqn:Hrest;
      [|done].
    intros [= <- <-] email.
    destruct (IH _ _ _ Hrest email) as [IHin IHout].
    pose proof (get_user_preferences_returns _ _ _ _ _ Hget) as (Hst1 & Hfirst & _).
    split.
    + intros Hin. destruct (decide (email ∈ rest)) as [Hr|Hr].
      * destruct (IHin Hr) as (prefs & Hread & Hst2). exists prefs. split; [|done].
        rewrite <- Hread. destruct (decide (email = first)) as [->|Hne].
        -- by rewrite Hget, (get_user_preferences_again _ _ _ _ _ Hget).
        -- symmetry. apply get_user_preferences_lookup.
           rewrite Hst1. by rewrite lookup_insert_ne.
      * apply elem_of_cons in Hin as [->|Hin]; [|done].
        exists p. rewrite Hget. split; [done|]. by rewrite (IHout Hr).
    + intros Hout. apply not_elem_of_cons in Hout as [Hne Hout].
      rewrite (IHout Hout), Hst1. by rewrite lookup_insert_ne.
Qed.

(** Conversely to [filter_recipients_total]: when the comprehension
    returns, every read it made returned. *)
Lemma filter_recipients_readable category (recipients kept : list string)
    (st st' : Store) :
  filter_recipients email_str category recipients st = (Return kept, st') ->
  forall r, r ∈ recipients -> readable email_str st r.
Proof.
  intros H r Hr.
  destruct (proj1 (filter_recipients_lookup _ _ _ _ _ H r) Hr) as (prefs & Hread & _).
  apply get_user_preferences_readable.
  destruct (get_user_preferences email_str r st) as [res st1]. simpl in Hread.
  subst res. by eexists _, _.
Qed.

(** On a store that has a record for every identity of the list, the
    comprehension returns and writes nothing. *)
Lemma filter_recipients_present category (recipients : list string) (st : Store) :
  (forall email, email ∈ recipients -> is_Some (st !! email)) ->
  exists kept, filter_recipients email_str category recipients st = (Return kept, st).
Proof.
  induction recipients as [|first rest IH]; intros Hall; [by exists []|].
  rewrite filter_recipients_cons.
  destruct (Hall first (list_elem_of_here _ _)) as [prefs Hin].
  rewrite (get_user_preferences_hit _ _ _ _ Hin).
  destruct IH as [kept ->]; [|by eexists].
  intros e He. by apply Hall, list_elem_of_further.
Qed.

Lemma list_filter_twice {A} (f : A -> bool) (l : list A) :
  List.filter f (List.filter f l) = List.filter f l.
Proof.
  induction l as [|x l IH]; [done|]. simpl.
  destruct (f x) eqn:E; simpl; [rewrite E|]; by rewrite ?IH.
Qed.

(** X12. What filtering does to the store when it returns: afterwards
    every identity of the input list has a record, the one its read
    returned (the one it had, or else the defaults); records stored before
    are unchanged and identities outside the list are untouched, so the
    keys afterwards are the old keys and the identities of the list. *)
Theorem filter_recipients_store
    (category : NotificationCategory.t) (recipients kept : list string)
    (st st' : Store) :
  filter_recipients email_str category recipients st = (Return kept, st') ->
  (forall email, email ∈ recipients ->
     exists prefs, (get_user_preferences email_str email st).1 = Return prefs
                   /\ st' !! email = Some prefs)
  /\ (forall email prefs, st !! email = Some prefs -> st' !! email = Some prefs)
  /\ (forall email, email ∉ recipients -> st' !! email = st !! email)
  /\ dom st' = dom st ∪ list_to_set recipients.
Proof.
  intros H. pose proof (filter_recipients_lookup _ _ _ _ _ H) as Hl.
  split; [intros email; apply Hl|].
  split; [|split; [intros email; apply Hl|]].
  - intros email prefs Hst.
    destruct (decide (email ∈ recipients)) as [Hin|Hout].
    + destruct (proj1 (Hl email) Hin) as (p & Hread & ->).
      rewrite (get_user_preferences_hit _ _ _ _ Hst) in Hread. simpl in Hread.
      by injection Hread as ->.
    + by rewrite (proj2 (Hl email) Hout).
  - apply set_eq. intros email.
    rewrite elem_of_union, !elem_of_dom, elem_of_list_to_set.
    destruct (decide (email ∈ recipients)) as [Hin|Hout].
    + destruct (proj1 (Hl email) Hin) as (p & _ & ->). split; [by right|eauto].
    + rewrite (proj2 (Hl email) Hout). split; [by left|]. by intros [?|?].
Qed.

(** X13. Filtering that returned does not depend on the records it
    created.  Run again on the store it left behind, on the same list or on
    its own result, it returns the same list and leaves that store alone;
    and when a second list is filtered on the initial store too, the two
    lists filtered in one go give the two results one after the other. *)
Theorem filter_recipients_settles
    (category : NotificationCategory.t) (recipients kept : list string)
    (st st' : Store) :
  filter_recipients email_str category recipients st = (Return kept, st') ->
  filter_recipients email_str category recipients st' = (Return kept, st')
  /\ filter_recipients email_str category kept st' = (Return kept, st')
  /\ (forall more kept_more st_more,
        filter_recipients email_str category more st = (Return kept_more, st_more) ->
        (filter_recipients email_str category (recipients ++ more)%list st).1
        = Return (kept ++ kept_more)%list).
Proof.
  intros H.
  pose proof (filter_recipients_lookup _ _ _ _ _ H) as Hl.
  pose proof (filter_recipients_filter _ _ _ _ _ _ H) as Hkept.
  assert (forall r, r ∈ recipients ->
            wants email_str st' category r = wants email_str st category r) as Hw.
  { intros r Hr. destruct (proj1 (Hl r) Hr) as (p & Hread & Hst').
    unfold wants. rewrite (get_user_preferences_hit _ _ _ _ Hst'). simpl.
    by rewrite Hread. }
  assert (forall l, (forall e, e ∈ l -> e ∈ recipients) ->
            filter_recipients email_str category l st'
            = (Return (List.filter (wants email_str st category) l), st')) as Hagain.
  { intros l Hsub.
    destruct (filter_recipients_present category l st') as [k Hk].
    { intros e He. destruct (proj1 (Hl e) (Hsub e He)) as (p & _ & ->). eauto. }
    rewrite Hk. f_equal. f_equal.
    rewrite (filter_recipients_filter _ _ _ _ _ _ Hk).
    apply List.filter_ext_in. intros e He. apply Hw, Hsub. by apply list_elem_of_In. }
  split; [|split].
  - rewrite Hagain by done. by rewrite Hkept.
  - rewrite Hagain.
    + by rewrite Hkept, list_filter_twice.
    + intros e He. rewrite Hkept in He.
      apply list_elem_of_In, List.filter_In in He as [He _].
      by apply list_elem_of_In.
  - intros more kept_more st_more Hmore.
    destruct (filter_recipients_total email_str category (recipients ++ more)%list st)
      as (k & s & Hk).
    { intros r [Hr|Hr]%elem_of_app.
      - exact (filter_recipients_readable _ _ _ _ _ H r Hr).
      - exact (filter_recipients_readable _ _ _ _ _ Hmore r Hr). }
    rewrite Hk. simpl. f_equal.
    rewrite (filter_recipients_filter _ _ _ _ _ _ Hk), List.filter_app.
    by rewrite <- Hkept, <- (filter_recipients_filter _ _ _ _ _ _ Hmore).
Qed.

(** X14. Who is kept: when the filtering returns, an identity is in the
    filtered list exactly when it is in the input and its record (the
    stored one, or the defaults) allows the category, and the filtered list
    is never longer than the input.  A list of identities that all lack a
    record and pass the address check passes whole. *)
Theorem filter_recipients_keeps_exactly
    (category : NotificationCategory.t) (recipients : list string) (st : Store) :
  (forall kept st',
     filter_recipients email_str category recipients st = (Return kept, st') ->
     (forall email,
        email ∈ kept
        <-> email ∈ recipients
            /\ exists prefs,
                 (get_user_preferences email_str email st).1 = Return prefs
                 /\ should_send_with prefs category = true)
     /\ length kept <= length recipients)
  /\ ((forall email, email ∈ recipients ->
         st !! email = None /\ exists address, email_str email = Return address) ->
      (filter_recipients email_str category recipients st).1 = Return recipients).
Proof.
  split.
  - intros kept st' H. split.
    + intros email. rewrite (filter_recipients_elem _ _ _ _ _ _ _ H). unfold wants.
      split.
      * intros [Hin Hw]. split; [done|].
        destruct ((get_user_preferences email_str email st).1) as [p|e]; [|done].
        by exists p.
      * intros [Hin (p & -> & Hw)]. done.
    + apply sublist_length. by eapply filter_recipients_sublist.
  - intros Hnew.
    destruct (filter_recipients_total email_str category recipients st) as (k & s & Hk).
    { intros r Hr. right. by apply Hnew. }
    rewrite Hk. simpl. f_equal.
    rewrite (filter_recipients_filter _ _ _ _ _ _ Hk).
    clear Hk. induction recipients as [|first rest IH]; [done|]. simpl.
    destruct (Hnew first (list_elem_of_here _ _)) as [Hmiss [address Ha]].
    assert (wants email_str st category first = true) as ->.
    { unfold wants. rewrite (get_user_preferences_miss _ _ _ _ Hmiss Ha). simpl.
      apply should_send_with_default. }
    f_equal. apply IH. intros e He. apply Hnew. by apply list_elem_of_further.
Qed.

End MoreFilterFacts.

Lemma filter_recipients_store_witness :
  (filter_recipients sample_email_str NotificationCategory.REMINDERS
     ["New@MERGINGTON.EDU"; "student@mergington.edu"] test_store).2
    !! "muted@mergington.edu"
  = Some muted_prefs.
Proof.
  pose proof (filter_recipients_store sample_email_str NotificationCategory.REMINDERS
                ["New@MERGINGTON.EDU"; "student@mergington.edu"]
                ["New@MERGINGTON.EDU"] test_store _ eq_refl)
    as (_ & Hold & _).
  apply Hold. reflexivity.
Defined.

Lemma filter_recipients_settles_witness :
  filter_recipients sample_email_str NotificationCategory.REMINDERS
    ["New@MERGINGTON.EDU"; "muted@mergington.edu"]
    (<["New@MERGINGTON.EDU" := EmailPreferences_default "New@mergington.edu"]> test_store)
  = (Return ["New@MERGINGTON.EDU"],
     <["New@MERGINGTON.EDU" := EmailPreferences_default "New@mergington.edu"]> test_store).
Proof.
  apply (proj1 (filter_recipients_settles sample_email_str NotificationCategory.REMINDERS
                  ["New@MERGINGTON.EDU"; "muted@mergington.edu"]
                  ["New@MERGINGTON.EDU"] test_store _ eq_refl)).
Defined.

Lemma filter_recipients_keeps_exactly_witness :
  (filter_recipients sample_email_str NotificationCategory.REMINDERS
     ["c@x.edu"; "d@x.edu"] ∅).1
  = Return ["c@x.edu"; "d@x.edu"].
Proof.
  apply (proj2 (filter_recipients_keeps_exactly sample_email_str
                  NotificationCategory.REMINDERS ["c@x.edu"; "d@x.edu"] ∅)).
  intros email Hin. split; [apply lookup_empty|].
  apply elem_of_cons in Hin as [->|Hin]; [by eexists|].
  apply list_elem_of_singleton in Hin as ->. by eexists.
Defined.

(** ** What the tasks hand to the mail transport *)

Lemma handed_app (t events : email_service.Trace) :
  handed (t ++ events)%list = (handed t ++ handed events)%list.
Proof. unfold handed. apply omap_app. Qed.

Lemma cc_of_parent_email_of (prefs : EmailPreferences) :
  email_service.cc_of (parent_email_of prefs) = cc_list (parent_email_of prefs).
Proof.
  unfold email_service.cc_of, cc_list.
  destruct (parent_email_of prefs) as [p|] eqn:E; [|done].
  apply parent_email_of_Some in E as (_ & _ & Hne).
  apply opt_str_truthy_Some in Hne. by rewrite Hne.
Qed.

Section Deliveries.

Variable email_str : string -> PyResult string.
Variable jinja_get_template : string -> PyResult unit.
Variable jinja_render : string -> gmap string PyVal -> PyResult string.
Variable schema_validate : email_service.MessageSchema -> PyResult unit.
Variable mail_send_message : email_service.MessageSchema -> PyResult unit.
Variable the_service : email_service.EmailService.

(** One call of [send_email], summed up: it returns a boolean, appends
    events to the trace, and hands at most one message to the transport,
    the one composed from its arguments. *)
Lemma send_email_run (self : email_service.EmailService) (recipients : list string)
    (subject template_name : string) (context : gmap string PyVal)
    (cc : option (list string)) (t : email_service.Trace) :
  exists (sent : bool) (events : email_service.Trace),
    email_service.send_email jinja_get_template jinja_render schema_validate
      mail_send_message self recipients subject template_name context cc t
    = (Return sent, (t ++ events)%list)
    /\ (handed events = []
        \/ exists html_content,
             handed events = [composed_message recipients subject cc html_content])
    /\ (email_service.enabled self = false ->
        sent = false /\ email_service.contacts events = [])
    /\ (sent = true -> handed events <> []).
Proof.
  destruct (email_service.enabled self) eqn:En.
  - rewrite (send_email_enabled _ _ _ _ _ _ _ _ _ _ _ En). cbv zeta.
    destruct (jinja_get_template _) as [[]|e0].
    + destruct (jinja_render _ _) as [html_content|e1].
      * destruct (schema_validate _) as [[]|e3].
        -- destruct (mail_send_message _) as [[]|e2];
             eexists _, _; (split; [reflexivity|]);
             (split; [right; by exists html_content|]); by split.
        -- eexists _, _. split; [reflexivity|]. split; [by left|]. by split.
      * eexists _, _. split; [reflexivity|]. split; [by left|]. by split.
    + eexists _, _. split; [reflexivity|]. split; [by left|]. by split.
  - rewrite (send_email_disabled _ _ _ _ _ _ _ _ _ _ _ En).
    eexists _, _. split; [reflexivity|]. split; [by left|]. by split.
Qed.

(** The messages among the events of one [send_email] carry the
    recipients and the copy list the call was given. *)
Lemma send_email_run_addressing (recipients : list string) (subject : string)
    (cc : option (list string)) (events : email_service.Trace) :
  (handed events = []
   \/ exists html_content,
        handed events = [composed_message recipients subject cc html_content]) ->
  forall m, m ∈ handed events ->
    email_service.recipients m = recipients /\ email_service.cc m = cc
    /\ email_service.subject m = subject.
Proof.
  intros [H|[html_content H]] m Hm; rewrite H in Hm.
  - by apply not_elem_of_nil in Hm.
  - apply list_elem_of_singleton in Hm as ->. done.
Qed.

Implicit Types (student_email activity_name schedule description : string)
  (student_name : option string) (prefs : EmailPreferences) (st : Store)
  (t : email_service.Trace).

(** The confirmation task for a signup, when the read of the student's
    preferences returns. *)
Lemma send_signup_confirmation_task_returns
    student_email activity_name schedule description student_name prefs st
    (st' : Store) t :
  get_user_preferences email_str student_email st = (Return prefs, st') ->
  exists result events,
    send_signup_confirmation_task email_str jinja_get_template jinja_render
      schema_validate mail_send_message the_service
      student_email activity_name schedule description student_name
      {| user_preferences := st; trace := t |}
    = (Return result, {| user_preferences := st'; trace := (t ++ events)%list |})
    /\ forall m, m ∈ handed events ->
         email_service.recipients m = [student_email]
         /\ email_service.cc m = cc_list (parent_email_of prefs)
         /\ should_send_with prefs NotificationCategory.SIGNUP_CONFIRMATION = true.
Proof.
  intros Hget. unfold send_signup_confirmation_task, bind, on_prefs. simpl.
  rewrite (should_send_email_returns _ _ _ _ _ _ Hget). simpl.
  destruct (should_send_with prefs NotificationCategory.SIGNUP_CONFIRMATION) eqn:Hs;
    simpl.
  - rewrite (get_parent_email_returns _ _ _ _ _
               (get_user_preferences_again _ _ _ _ _ Hget)). simpl.
    unfold run_async, email_service.send_signup_confirmation. simpl.
    edestruct send_email_run as (sent & events & -> & Hh & _). simpl.
    eexists _, events. split; [reflexivity|].
    intros m Hm.
    destruct (send_email_run_addressing _ _ _ _ Hh m Hm) as (-> & -> & _).
    by rewrite cc_of_parent_email_of.
  - exists [("status", VStr "skipped"); ("reason", VStr "user preferences")], [].
    rewrite (right_id_L [] (++)). split; [done|].
    intros m Hm. by apply not_elem_of_nil in Hm.
Qed.

Lemma send_unregister_confirmation_task_returns
    student_email activity_name schedule student_name prefs st (st' : Store) t :
  get_user_preferences email_str student_email st = (Return prefs, st') ->
  exists result events,
    send_unregister_confirmation_task email_str jinja_get_template jinja_render
      schema_validate mail_send_message the_service
      student_email activity_name schedule student_name
      {| user_preferences := st; trace := t |}
    = (Return result, {| user_preferences := st'; trace := (t ++ events)%list |})
    /\ forall m, m ∈ handed events ->
         email_service.recipients m = [student_email]
         /\ email_service.cc m = cc_list (parent_email_of prefs)
         /\ should_send_with prefs NotificationCategory.UNREGISTER_CONFIRMATION = true.
Proof.
  intros Hget. unfold send_unregister_confirmation_task, bind, on_prefs. simpl.
  rewrite (should_send_email_returns _ _ _ _ _ _ Hget). simpl.
  destruct (should_send_with prefs NotificationCategory.UNREGISTER_CONFIRMATION) eqn:Hs;
    simpl.
  - rewrite (get_parent_email_returns _ _ _ _ _
               (get_user_preferences_again _ _ _ _ _ Hget)). simpl.
    unfold run_async, email_service.send_unregister_confirmation. simpl.
    edestruct send_email_run as (sent & events & -> & Hh & _). simpl.
    eexists _, events. split; [reflexivity|].
    intros m Hm.
    destruct (send_email_run_addressing _ _ _ _ Hh m Hm) as (-> & -> & _).
    by rewrite cc_of_parent_email_of.
  - exists [("status", VStr "skipped"); ("reason", VStr "user preferences")], [].
    rewrite (right_id_L [] (++)). split; [done|].
    intros m Hm. by apply not_elem_of_nil in Hm.
Qed.

Lemma send_reminder_task_returns
    student_email activity_name schedule (next_session : string) student_name prefs st
    (st' : Store) t :
  get_user_preferences email_str student_email st = (Return prefs, st') ->
  exists result events,
    send_reminder_task email_str jinja_get_template jinja_render
      schema_validate mail_send_message the_service
      student_email activity_name schedule next_session student_name
      {| user_preferences := st; trace := t |}
    = (Return result, {| user_preferences := st'; trace := (t ++ events)%list |})
    /\ forall m, m ∈ handed events ->
         email_service.recipients m = [student_email]
         /\ email_service.cc m = None
         /\ should_send_with prefs NotificationCategory.REMINDERS = true.
Proof.
  intros Hget. unfold send_reminder_task, bind, on_prefs. simpl.
  rewrite (should_send_email_returns _ _ _ _ _ _ Hget). simpl.
  destruct (should_send_with prefs NotificationCategory.REMINDERS) eqn:Hs; simpl.
  - unfold run_async, email_service.send_reminder_email. simpl.
    edestruct send_email_run as (sent & events & -> & Hh & _). simpl.
    eexists _, events. split; [reflexivity|].
    intros m Hm.
    by destruct (send_email_run_addressing _ _ _ _ Hh m Hm) as (-> & -> & _).
  - eexists _, []. rewrite (right_id_L [] (++)). split; [reflexivity|].
    intros m Hm. by apply not_elem_of_nil in Hm.
Qed.

(** The three tasks for one student, when the read of the preferences
    raises: the task raises the same error, before any call to the
    service, and the store is as it was. *)
Lemma single_tasks_raise
    student_email activity_name schedule description (next_session : string)
    student_name st (st' : Store) t (e : PyExn) :
  get_user_preferences email_str student_email st = (Raise e, st') ->
  let w := {| user_preferences := st; trace := t |} in
  send_signup_confirmation_task email_str jinja_get_template jinja_render
    schema_validate mail_send_message the_service
    student_email activity_name schedule description student_name w
  = (Raise e, w)
  /\ send_unregister_confirmation_task email_str jinja_get_template jinja_render
       schema_validate mail_send_message the_service
       student_email activity_name schedule student_name w
     = (Raise e, w)
  /\ send_reminder_task email_str jinja_get_template jinja_render
       schema_validate mail_send_message the_service
       student_email activity_name schedule next_session student_name w
     = (Raise e, w).
Proof.
  intros Hget w.
  pose proof (get_user_preferences_raises _ _ _ _ _ Hget) as (-> & _ & _).
  unfold send_signup_confirmation_task, send_unregister_confirmation_task,
    send_reminder_task, bind, on_prefs, w. simpl.
  rewrite !should_send_email_unfold, Hget. done.
Qed.

(** X15. The two confirmation tasks, for a student whose preferences can
    be read (a stored record, or an address the check accepts): the task
    returns, and whatever it hands to the transport is addressed to the
    student alone, carries the parent address in copy exactly when the
    record names one with the copy switched on, and is handed over only if
    the record allows the category.  For a student whose read raises, the
    task raises the same error, hands nothing over and leaves the store as
    it was. *)
Theorem confirmation_tasks_addressing
    student_email activity_name schedule description student_name st t :
  let w := {| user_preferences := st; trace := t |} in
  let signup :=
    send_signup_confirmation_task email_str jinja_get_template jinja_render
      schema_validate mail_send_message the_service
      student_email activity_name schedule description student_name in
  let unregister :=
    send_unregister_confirmation_task email_str jinja_get_template jinja_render
      schema_validate mail_send_message the_service
      student_email activity_name schedule student_name in
  (forall prefs st',
     get_user_preferences email_str student_email st = (Return prefs, st') ->
     let addressed category (events : email_service.Trace) :=
       forall m, m ∈ handed events ->
         email_service.recipients m = [student_email]
         /\ email_service.cc m = cc_list (parent_email_of prefs)
         /\ (get_parent_email email_str student_email st).1
            = Return (parent_email_of prefs)
         /\ should_send_with prefs category = true in
     (exists result events,
        signup w
        = (Return result, {| user_preferences := st'; trace := (t ++ events)%list |})
        /\ addressed NotificationCategory.SIGNUP_CONFIRMATION events)
     /\ (exists result events,
           unregister w
           = (Return result,
              {| user_preferences := st'; trace := (t ++ events)%list |})
           /\ addressed NotificationCategory.UNREGISTER_CONFIRMATION events))
  /\ (forall e st',
        get_user_preferences email_str student_email st = (Raise e, st') ->
        signup w = (Raise e, w) /\ unregister w = (Raise e, w)).
Proof.
  intros w signup unregister. split.
  - intros prefs st' Hget addressed. unfold addressed.
    rewrite (get_parent_email_returns _ _ _ _ _ Hget). simpl. split.
    + destruct (send_signup_confirmation_task_returns student_email activity_name
                  schedule description student_name prefs st st' t Hget)
        as (result & events & Hrun & Haddr).
      exists result, events. split; [exact Hrun|].
      intros m Hm. destruct (Haddr m Hm) as (? & ? & ?). done.
    + destruct (send_unregister_confirmation_task_returns student_email activity_name
                  schedule student_name prefs st st' t Hget)
        as (result & events & Hrun & Haddr).
      exists result, events. split; [exact Hrun|].
      intros m Hm. destruct (Haddr m Hm) as (? & ? & ?). done.
  - intros e st' Hget.
    destruct (single_tasks_raise student_email activity_name schedule description
                "" student_name st st' t e Hget) as (H1 & H2 & _).
    by split.
Qed.

(** X17. The reminder task never copies a parent.  For a student whose
    preferences can be read it returns, and what it hands to the transport
    is addressed to the student alone, with no copy list even when the
    record has the parent copy on, and only if the record allows
    reminders.  For a student whose read raises, the task raises the same
    error, hands nothing over and leaves the store as it was. *)
Theorem reminder_task_addressing
    student_email activity_name schedule (next_session : string) student_name st t :
  let w := {| user_preferences := st; trace := t |} in
  let reminder :=
    send_reminder_task email_str jinja_get_template jinja_render
      schema_validate mail_send_message the_service
      student_email activity_name schedule next_session student_name in
  (forall prefs st',
     get_user_preferences email_str student_email st = (Return prefs, st') ->
     exists result events,
       reminder w
       = (Return result, {| user_preferences := st'; trace := (t ++ events)%list |})
       /\ forall m, m ∈ handed events ->
            email_service.recipients m = [student_email]
            /\ email_service.cc m = None
            /\ should_send_with prefs NotificationCategory.REMINDERS = true)
  /\ (forall e st',
        get_user_preferences email_str student_email st = (Raise e, st') ->
        reminder w = (Raise e, w)).
Proof.
  intros w reminder. split.
  - intros prefs st' Hget. by apply send_reminder_task_returns.
  - intros e st' Hget.
    by destruct (single_tasks_raise student_email activity_name schedule ""
                   next_session student_name st st' t e Hget) as (_ & _ & H).
Qed.

(** A comprehension that raises was refused by the address check at an
    identity of the list that has no record, before and after. *)
Lemma filter_recipients_raises (category : NotificationCategory.t)
    (recipients : list string) st (st' : Store) (e : PyExn) :
  filter_recipients email_str category recipients st = (Raise e, st') ->
  exists r, r ∈ recipients /\ email_str r = Raise e
            /\ st !! r = None /\ st' !! r = None.
Proof.
  revert st. induction recipients as [|first rest IH]; intros st; [done|].
  rewrite filter_recipients_cons.
  destruct (get_user_preferences email_str first st) as [[p|e0] st1] eqn:Hget.
  - destruct (filter_recipients email_str category rest st1) as [[kept|e1] st2] eqn:Hrest;
      [done|].
    intros [= <- <-].
    destruct (IH _ Hrest) as (r & Hr & He & Hst1 & Hst2).
    exists r. split; [by apply list_elem_of_further|]. split; [done|]. split; [|done].
    pose proof (get_user_preferences_returns _ _ _ _ _ Hget) as (Heq & Hfirst & _).
    destruct (decide (r = first)) as [->|Hne]; [congruence|].
    rewrite Heq in Hst1. by rewrite lookup_insert_ne in Hst1.
  - intros [= <- <-].
    pose proof (get_user_preferences_raises _ _ _ _ _ Hget) as (-> & Hnone & He).
    exists first. split; [apply list_elem_of_here|done].
Qed.

(** A broadcast task after its comprehension returned. *)
Lemma broadcast_outcome (category : NotificationCategory.t)
    (recipients kept : list string) (subject template_name : string)
    (context : gmap string PyVal) st (st' : Store) t :
  filter_recipients email_str category recipients st = (Return kept, st') ->
  kept <> [] ->
  exists (sent : bool) (events : email_service.Trace),
    run_async
      (email_service.send_email jinja_get_template jinja_render schema_validate
         mail_send_message the_service kept subject template_name context None)
      {| user_preferences := st'; trace := t |}
    = (Return sent, {| user_preferences := st'; trace := (t ++ events)%list |})
    /\ forall m, m ∈ handed events ->
         email_service.recipients m = kept /\ email_service.cc m = None
         /\ forall r, r ∈ email_service.recipients m ->
              r ∈ recipients /\ wants email_str st category r = true.
Proof.
  intros Hf Hne. unfold run_async. simpl.
  edestruct send_email_run as (sent & events & -> & Hh & _).
  exists sent, events. split; [reflexivity|].
  intros m Hm.
  destruct (send_email_run_addressing _ _ _ _ Hh m Hm) as (-> & -> & _).
  split; [done|]. split; [done|].
  intros r Hr. by apply (filter_recipients_elem _ _ _ _ _ _ _ Hf).
Qed.

(** X16. The two broadcast tasks.  When the filtering returns and no
    recipient passes, the task returns "skipped" with the reason "no
    recipients with enabled preferences" and does nothing else.  When
    some pass, whatever it hands to the transport is addressed to the
    filtered list, without copy, so every addressee is a recipient of the
    input whose record allows the category; and the count it reports is
    the length of the filtered list.  When the filtering raises (a
    recipient without record that the address check refuses), the task
    raises the same error and hands nothing over; the default records made
    for the recipients before that one stay in the store. *)
Theorem broadcast_tasks_addressing
    (recipients : list string)
    (activity_name change_description schedule description portal_url : string)
    (new_schedule : option string) (max_participants : Z) st t :
  let w := {| user_preferences := st; trace := t |} in
  let outcome category (task : Py World Dict) :=
    (forall kept st',
       filter_recipients email_str category recipients st = (Return kept, st') ->
       exists result events,
         task w
         = (Return result, {| user_preferences := st'; trace := (t ++ events)%list |})
         /\ (forall m, m ∈ handed events ->
               email_service.recipients m = kept /\ email_service.cc m = None
               /\ forall r, r ∈ email_service.recipients m ->
                    r ∈ recipients /\ wants email_str st category r = true)
         /\ (kept = [] ->
             events = []
             /\ result = [("status", VStr "skipped");
                          ("reason", VStr "no recipients with enabled preferences")])
         /\ (kept <> [] ->
             exists sent : bool,
               result = [("status", status_of sent);
                         ("recipients", VInt (Z.of_nat (length kept)))]))
    /\ (forall e st',
          filter_recipients email_str category recipients st = (Raise e, st') ->
          task w = (Raise e, {| user_preferences := st'; trace := t |})
          /\ exists r, r ∈ recipients /\ email_str r = Raise e /\ st !! r = None) in
  outcome NotificationCategory.ACTIVITY_CHANGES
    (send_activity_change_task email_str jinja_get_template jinja_render
       schema_validate mail_send_message the_service
       recipients activity_name change_description new_schedule)
  /\ outcome NotificationCategory.NEW_ACTIVITIES
       (send_new_activity_announcement_task email_str jinja_get_template jinja_render
          schema_validate mail_send_message the_service
          recipients activity_name schedule description max_participants portal_url).
Proof.
  intros w outcome. unfold outcome. split; split.
  - intros kept st' Hf.
    unfold send_activity_change_task, bind at 1, on_prefs, w. simpl. rewrite Hf.
    destruct kept as [|k kept]; simpl.
    + eexists _, []. rewrite (right_id_L [] (++)). split; [reflexivity|].
      split; [intros m Hm; by apply not_elem_of_nil in Hm|]. by split.
    + unfold bind, email_service.send_activity_change_notification.
      match goal with
      | |- context [run_async (email_service.send_email _ _ _ _ _ _ ?s ?n ?c None) _] =>
          destruct (broadcast_outcome _ _ _ s n c _ _ t Hf)
            as (sent & events & -> & Ha); [done|]
      end.
      eexists _, events. split; [reflexivity|].
      split; [exact Ha|]. split; [done|by exists sent].
  - intros e st' Hf.
    unfold send_activity_change_task, bind at 1, on_prefs, w. simpl. rewrite Hf.
    split; [done|].
    destruct (filter_recipients_raises _ _ _ _ _ Hf) as (r & ? & ? & ? & _). eauto.
  - intros kept st' Hf.
    unfold send_new_activity_announcement_task, bind at 1, on_prefs, w. simpl.
    rewrite Hf.
    destruct kept as [|k kept]; simpl.
    + eexists _, []. rewrite (right_id_L [] (++)). split; [reflexivity|].
      split; [intros m Hm; by apply not_elem_of_nil in Hm|]. by split.
    + unfold bind, email_service.send_new_activity_announcement.
      match goal with
      | |- context [run_async (email_service.send_email _ _ _ _ _ _ ?s ?n ?c None) _] =>
          destruct (broadcast_outcome _ _ _ s n c _ _ t Hf)
            as (sent & events & -> & Ha); [done|]
      end.
      eexists _, events. split; [reflexivity|].
      split; [exact Ha|]. split; [done|by exists sent].
  - intros e st' Hf.
    unfold send_new_activity_announcement_task, bind at 1, on_prefs, w. simpl.
    rewrite Hf.
    split; [done|].
    destruct (filter_recipients_raises _ _ _ _ _ Hf) as (r & ? & ? & ? & _). eauto.
Qed.

End Deliveries.

Section BatchFacts.

Variable email_str : string -> PyResult string.
Variable jinja_get_template : string -> PyResult unit.
Variable jinja_render : string -> gmap string PyVal -> PyResult string.
Variable schema_validate : email_service.MessageSchema -> PyResult unit.
Variable mail_send_message : email_service.MessageSchema -> PyResult unit.
Variable the_service : email_service.EmailService.

(** The loop of the batch task, summed up by induction on the recipients:
    one outcome per recipient, in order; every message handed over is for
    one recipient of the list; a success needs a message handed over. *)
Lemma batch_results_run (recipients : list string) (subject template_name : string)
    (context : gmap string PyVal) (w : World) :
  exists (results : list (string * bool)) (events : email_service.Trace),
    batch_results jinja_get_template jinja_render schema_validate mail_send_message
      the_service recipients subject template_name context w
    = (Return results,
       {| user_preferences := user_preferences w;
          trace := (trace w ++ events)%list |})
    /\ List.map fst results = recipients
    /\ (forall m, m ∈ handed events ->
          exists r, r ∈ recipients /\ email_service.recipients m = [r]
                    /\ email_service.cc m = None
                    /\ email_service.subject m = subject)
    /\ length (filter (fun r => Is_true (snd r)) results) <= length (handed events)
    /\ length (handed events) <= length recipients
    /\ (email_service.enabled the_service = false ->
        filter (fun r => Is_true (snd r)) results = []
        /\ email_service.contacts events = []).
Proof.
  revert w. induction recipients as [|first rest IH]; intros w.
  - exists [], []. simpl. rewrite (right_id_L [] (++)).
    destruct w. repeat split; try done.
    intros m Hm. by apply not_elem_of_nil in Hm.
  - cbn [batch_results]. unfold bind at 1, run_async.
    destruct (send_email_run jinja_get_template jinja_render schema_validate
                mail_send_message
                the_service [first] subject template_name context None (trace w))
      as (sent & ev1 & -> & Hh & Hoff & Hsent).
    destruct (IH {| user_preferences := user_preferences w;
                    trace := (trace w ++ ev1)%list |})
      as (results & ev2 & Hrun & Hmap & Haddr & Hcount & Hlen & Hoff2).
    unfold bind. rewrite Hrun. simpl.
    exists ((first, sent) :: results), (ev1 ++ ev2)%list.
    rewrite (assoc_L (++)). split; [done|].
    split; [simpl; by rewrite Hmap|].
    rewrite handed_app, length_app.
    split; [|split; [|split]].
    + intros m [Hm|Hm]%elem_of_app.
      * destruct (send_email_run_addressing _ _ _ _ Hh m Hm) as (? & ? & ?).
        exists first. split; [apply list_elem_of_here|done].
      * destruct (Haddr m Hm) as (r & Hr & ?).
        exists r. split; [by apply list_elem_of_further|done].
    + rewrite filter_cons. destruct sent; simpl.
      * destruct (handed ev1) as [|? ?] eqn:E; [by specialize (Hsent eq_refl)|].
        simpl. lia.
      * lia.
    + destruct Hh as [->|[html ->]]; simpl; lia.
    + intros Hdis. destruct (Hoff Hdis) as [-> Hc1].
      destruct (Hoff2 Hdis) as [Hf Hc2].
      rewrite filter_cons. simpl. split; [done|].
      rewrite contacts_app, Hc1, Hc2. done.
Qed.

(** X18. The batch task never raises and does not look at the
    preferences: the store is left as it was.  Its summary is consistent:
    [total] is the number of recipients, [sent] lies between 0 and [total]
    and [failed] is the difference; [sent] never exceeds the number of
    messages handed to the transport, which never exceeds [total].  Every
    message handed over is addressed to a single recipient of the list,
    without copy.  With the service not configured nothing is sent and
    neither the engine nor the transport is called. *)
Theorem send_batch_emails_task_summary
    (recipients : list string) (subject template_name : string)
    (context : gmap string PyVal) (w : World) :
  exists (sent_count : nat) (events : email_service.Trace),
    send_batch_emails_task jinja_get_template jinja_render schema_validate
      mail_send_message
      the_service recipients subject template_name context w
    = (Return [("status", VStr "completed");
               ("total", VInt (Z.of_nat (length recipients)));
               ("sent", VInt (Z.of_nat sent_count));
               ("failed", VInt (Z.of_nat (length recipients) - Z.of_nat sent_count))],
       {| user_preferences := user_preferences w;
          trace := (trace w ++ events)%list |})
    /\ sent_count <= length (handed events)
    /\ length (handed events) <= length recipients
    /\ (forall m, m ∈ handed events ->
          exists r, r ∈ recipients /\ email_service.recipients m = [r]
                    /\ email_service.cc m = None)
    /\ (email_service.enabled the_service = false ->
        sent_count = 0 /\ email_service.contacts events = []).
Proof.
  destruct (batch_results_run recipients subject template_name context w)
    as (results & events & Hrun & Hmap & Haddr & Hcount & Hlen & Hoff).
  exists (length (filter (fun r => Is_true (snd r)) results)), events.
  split.
  { unfold send_batch_emails_task, bind. rewrite Hrun. reflexivity. }
  split; [done|]. split; [done|]. split.
  - intros m Hm. destruct (Haddr m Hm) as (r & ? & ? & ? & _). by exists r.
  - intros Hdis. destruct (Hoff Hdis) as [-> ?]. done.
Qed.

Lemma send_batch_emails_task_run (recipients : list string)
    (subject template_name : string) (context : gmap string PyVal) (w : World) :
  exists result w',
    send_batch_emails_task jinja_get_template jinja_render schema_validate
      mail_send_message
      the_service recipients subject template_name context w
    = (Return result, w').
Proof.
  destruct (batch_results_run recipients subject template_name context w)
    as (results & events & Hrun & _).
  unfold send_batch_emails_task, bind. rewrite Hrun. by eexists _, _.
Qed.

(** A task for one student returns exactly when the student's
    preferences can be read. *)
Lemma single_task_returns_iff (task : Py World Dict) (student_email : string)
    (w : World) :
  (forall prefs st',
     get_user_preferences email_str student_email (user_preferences w)
     = (Return prefs, st') ->
     exists result w', task w = (Return result, w')) ->
  (forall e st',
     get_user_preferences email_str student_email (user_preferences w)
     = (Raise e, st') ->
     task w = (Raise e, w)) ->
  (exists result w', task w = (Return result, w'))
  <-> readable email_str (user_preferences w) student_email.
Proof.
  intros Hret Hraise. rewrite get_user_preferences_readable. split.
  - intros (result & w' & Hrun).
    destruct (get_user_preferences email_str student_email (user_preferences w))
      as [[prefs|e] st'] eqn:Hget; [by eexists _, _|].
    rewrite (Hraise _ _ eq_refl) in Hrun. done.
  - intros (prefs & st' & Hget). by eapply Hret.
Qed.

(** A broadcast task returns exactly when the preferences of every
    recipient can be read. *)
Lemma broadcast_task_returns_iff (task : Py World Dict)
    (category : NotificationCategory.t) (recipients : list string) (w : World) :
  (forall kept st',
     filter_recipients email_str category recipients (user_preferences w)
     = (Return kept, st') ->
     exists result w', task w = (Return result, w')) ->
  (forall e st',
     filter_recipients email_str category recipients (user_preferences w)
     = (Raise e, st') ->
     exists w', task w = (Raise e, w')) ->
  (exists result w', task w = (Return result, w'))
  <-> forall r, r ∈ recipients -> readable email_str (user_preferences w) r.
Proof.
  intros Hret Hraise. split.
  - intros (result & w' & Hrun).
    destruct (filter_recipients email_str category recipients (user_preferences w))
      as [[kept|e] st'] eqn:Hf.
    + by apply (filter_recipients_readable _ _ _ _ _ _ Hf).
    + destruct (Hraise _ _ eq_refl) as [w'' Hr]. rewrite Hr in Hrun. done.
  - intros Hall.
    destruct (filter_recipients_total email_str category recipients
                (user_preferences w) Hall) as (kept & st' & Hf).
    by eapply Hret.
Qed.

(** X19. When the worker fails a queued task.  The batch task always
    returns.  A task for one student (signup or unregistration
    confirmation, reminder) returns exactly when the student's preferences
    can be read: the student has a record, or the address check accepts
    the string.  A broadcast task returns exactly when this holds of every
    recipient.  Whatever else goes wrong (no template, a rendering error, a
    message the schema refuses, a transport that is down) ends in a
    returned result.  A task that raises has called neither the engine nor
    the transport, and what it raises is what the address check raised for
    an identity without record. *)
Theorem tasks_return_iff_readable (w : World) :
  let st := user_preferences w in
  let returns (task : Py World Dict) := exists result w', task w = (Return result, w') in
  let run := run_task email_str jinja_get_template jinja_render schema_validate
               mail_send_message the_service in
  (forall student_email activity_name schedule description,
     returns (run (SignupConfirmation student_email activity_name schedule description))
     <-> readable email_str st student_email)
  /\ (forall student_email activity_name schedule,
        returns (run (UnregisterConfirmation student_email activity_name schedule))
        <-> readable email_str st student_email)
  /\ (forall recipients activity_name schedule description max_participants,
        returns (run (NewActivityAnnouncement recipients activity_name schedule
                        description max_participants))
        <-> forall r, r ∈ recipients -> readable email_str st r)
  /\ (forall recipients subject template_name context,
        returns (run (BatchEmails recipients subject template_name context)))
  /\ (forall recipients activity_name change_description new_schedule,
        returns (send_activity_change_task email_str jinja_get_template jinja_render
                   schema_validate mail_send_message the_service
                   recipients activity_name change_description new_schedule)
        <-> forall r, r ∈ recipients -> readable email_str st r)
  /\ (forall student_email activity_name schedule next_session student_name,
        returns (send_reminder_task email_str jinja_get_template jinja_render
                   schema_validate mail_send_message the_service
                   student_email activity_name schedule next_session student_name)
        <-> readable email_str st student_email)
  /\ (forall call e w',
        run call w = (Raise e, w') ->
        trace w' = trace w
        /\ exists r, email_str r = Raise e /\ st !! r = None).
Proof.
  intros st returns run. unfold returns, run, st. destruct w as [st0 t0]. simpl.
  assert (forall recipients activity_name schedule description max_participants,
            (forall kept st',
               filter_recipients email_str NotificationCategory.NEW_ACTIVITIES recipients
                 st0 = (Return kept, st') ->
               exists result w',
                 send_new_activity_announcement_task email_str jinja_get_template
                   jinja_render schema_validate mail_send_message the_service
                   recipients activity_name schedule description max_participants
                   "http://localhost:8000" {| user_preferences := st0; trace := t0 |}
                 = (Return result, w'))
            /\ (forall e st',
                  filter_recipients email_str NotificationCategory.NEW_ACTIVITIES
                    recipients st0 = (Raise e, st') ->
                  send_new_activity_announcement_task email_str jinja_get_template
                    jinja_render schema_validate mail_send_message the_service
                    recipients activity_name schedule description max_participants
                    "http://localhost:8000" {| user_preferences := st0; trace := t0 |}
                  = (Raise e, {| user_preferences := st'; trace := t0 |})))
    as Hannounce.
  { intros recipients activity_name schedule description max_participants. split.
    - intros kept st' Hf.
      unfold send_new_activity_announcement_task, bind at 1, on_prefs. simpl.
      rewrite Hf. destruct kept as [|k kept]; simpl; [by eexists _, _|].
      unfold bind, email_service.send_new_activity_announcement.
      match goal with
      | |- context [run_async (email_service.send_email _ _ _ _ _ _ ?s ?n ?c None) _] =>
          destruct (broadcast_outcome email_str jinja_get_template jinja_render
                      schema_validate mail_send_message the_service
                      _ _ _ s n c _ _ t0 Hf) as (sent & events & -> & _); [done|]
      end.
      by eexists _, _.
    - intros e st' Hf.
      unfold send_new_activity_announcement_task, bind at 1, on_prefs. simpl.
      by rewrite Hf. }
  split; [|split; [|split; [|split; [|split; [|split]]]]].
  - intros student_email activity_name schedule description.
    apply (single_task_returns_iff _ student_email {| user_preferences := st0;
                                                      trace := t0 |}); simpl.
    + intros prefs st' Hget.
      destruct (send_signup_confirmation_task_returns email_str jinja_get_template
                  jinja_render schema_validate mail_send_message the_service
                  student_email activity_name schedule description None
                  prefs st0 st' t0 Hget) as (result & events & Hrun & _).
      by eexists _, _.
    + intros e st' Hget.
      by destruct (single_tasks_raise email_str jinja_get_template jinja_render
                     schema_validate mail_send_message the_service
                     student_email activity_name schedule description ""
                     None st0 st' t0 e Hget) as (H & _ & _).
  - intros student_email activity_name schedule.
    apply (single_task_returns_iff _ student_email {| user_preferences := st0;
                                                      trace := t0 |}); simpl.
    + intros prefs st' Hget.
      destruct (send_unregister_confirmation_task_returns email_str jinja_get_template
                  jinja_render schema_validate mail_send_message the_service
                  student_email activity_name schedule None
                  prefs st0 st' t0 Hget) as (result & events & Hrun & _).
      by eexists _, _.
    + intros e st' Hget.
      by destruct (single_tasks_raise email_str jinja_get_template jinja_render
                     schema_validate mail_send_message the_service
                     student_email activity_name schedule "" ""
                     None st0 st' t0 e Hget) as (_ & H & _).
  - intros recipients activity_name schedule description max_participants.
    destruct (Hannounce recipients activity_name schedule description max_participants)
      as [Hret Hraise].
    apply (broadcast_task_returns_iff _ NotificationCategory.NEW_ACTIVITIES recipients
             {| user_preferences := st0; trace := t0 |}); simpl.
    + exact Hret.
    + intros e st' Hf. eexists. by apply Hraise.
  - intros recipients subject template_name context.
    apply send_batch_emails_task_run.
  - intros recipients activity_name change_description new_schedule.
    apply (broadcast_task_returns_iff _ NotificationCategory.ACTIVITY_CHANGES recipients
             {| user_preferences := st0; trace := t0 |}); simpl.
    + intros kept st' Hf.
      unfold send_activity_change_task, bind at 1, on_prefs. simpl.
      rewrite Hf. destruct kept as [|k kept]; simpl; [by eexists _, _|].
      unfold bind, email_service.send_activity_change_notification.
      match goal with
      | |- context [run_async (email_service.send_email _ _ _ _ _ _ ?s ?n ?c None) _] =>
          destruct (broadcast_outcome email_str jinja_get_template jinja_render
                      schema_validate mail_send_message the_service
                      _ _ _ s n c _ _ t0 Hf) as (sent & events & -> & _); [done|]
      end.
      by eexists _, _.
    + intros e st' Hf.
      unfold send_activity_change_task, bind at 1, on_prefs. simpl.
      rewrite Hf. by eexists.
  - intros student_email activity_name schedule next_session student_name.
    apply (single_task_returns_iff _ student_email {| user_preferences := st0;
                                                      trace := t0 |}); simpl.
    + intros prefs st' Hget.
      destruct (send_reminder_task_returns email_str jinja_get_template
                  jinja_render schema_validate mail_send_message the_service
                  student_email activity_name schedule next_session student_name
                  prefs st0 st' t0 Hget) as (result & events & Hrun & _).
      by eexists _, _.
    + intros e st' Hget.
      by destruct (single_tasks_raise email_str jinja_get_template jinja_render
                     schema_validate mail_send_message the_service
                     student_email activity_name schedule "" next_session
                     student_name st0 st' t0 e Hget) as (_ & _ & H).
  - intros [student_email activity_name schedule description
           |student_email activity_name schedule
           |recipients activity_name schedule description max_participants
           |recipients subject template_name context] e w' Hrun; simpl in Hrun.
    + destruct (get_user_preferences email_str student_email st0)
        as [[prefs|e0] st'] eqn:Hget.
      * destruct (send_signup_confirmation_task_returns email_str jinja_get_template
                    jinja_render schema_validate mail_send_message the_service
                    student_email activity_name schedule description None
                    prefs st0 st' t0 Hget) as (result & events & Hret & _).
        rewrite Hret in Hrun. done.
      * destruct (single_tasks_raise email_str jinja_get_template jinja_render
                    schema_validate mail_send_message the_service
                    student_email activity_name schedule description ""
                    None st0 st' t0 e0 Hget) as (H & _ & _).
        rewrite H in Hrun. injection Hrun as <- <-. split; [done|].
        apply get_user_preferences_raises in Hget as (_ & ? & ?). eauto.
    + destruct (get_user_preferences email_str student_email st0)
        as [[prefs|e0] st'] eqn:Hget.
      * destruct (send_unregister_confirmation_task_returns email_str
                    jinja_get_template jinja_render schema_validate mail_send_message
                    the_service student_email activity_name schedule None
                    prefs st0 st' t0 Hget) as (result & events & Hret & _).
        rewrite Hret in Hrun. done.
      * destruct (single_tasks_raise email_str jinja_get_template jinja_render
                    schema_validate mail_send_message the_service
                    student_email activity_name schedule "" ""
                    None st0 st' t0 e0 Hget) as (_ & H & _).
        rewrite H in Hrun. injection Hrun as <- <-. split; [done|].
        apply get_user_preferences_raises in Hget as (_ & ? & ?). eauto.
    + destruct (Hannounce recipients activity_name schedule description
                  max_participants) as [Hret Hraise].
      destruct (filter_recipients email_str NotificationCategory.NEW_ACTIVITIES
                  recipients st0) as [[kept|e0] st'] eqn:Hf.
      * destruct (Hret _ _ eq_refl) as (result & w'' & H).
        rewrite H in Hrun. done.
      * rewrite (Hraise _ _ eq_refl) in Hrun. injection Hrun as <- <-.
        split; [done|].
        destruct (filter_recipients_raises _ _ _ _ _ _ Hf) as (r & _ & ? & ? & _).
        eauto.
    + destruct (send_batch_emails_task_run recipients subject template_name context
                  {| user_preferences := st0; trace := t0 |}) as (result & w'' & H).
      rewrite H in Hrun. done.
Qed.

End BatchFacts.

(** A signup the handler accepts and queues, and the worker then fails:
    the string is not an address and has no record. *)
Example queued_task_raises :
  queue (broker (signup_for_activity "Chess Club" "nobody" fresh_app).2)
  = [SignupConfirmation "nobody" "Chess Club" "Fridays, 3:30 PM - 5:00 PM"
       "Learn strategies and compete in chess tournaments"]
  /\ (run_task sample_email_str template_found render_ok schema_ok transport_ok
        service_on
        (SignupConfirmation "nobody" "Chess Club" "Fridays, 3:30 PM - 5:00 PM"
           "Learn strategies and compete in chess tournaments")
        {| user_preferences := ∅; trace := [] |}).1
     = Raise (Exception "ValidationError" "value is not a valid email address")
  /\ exists result,
       (run_task sample_email_str template_found render_ok schema_ok transport_ok
          service_on
          (SignupConfirmation "nobody" "Chess Club" "Fridays, 3:30 PM - 5:00 PM"
             "Learn strategies and compete in chess tournaments")
          {| user_preferences := odd_store; trace := [] |}).1
       = Return result.
Proof. split; [reflexivity|]. split; [reflexivity|]. by eexists. Qed.

(** A broadcast over a list with one refused recipient raises after the
    records of the recipients before it were made. *)
Example broadcast_task_raises :
  run_task sample_email_str template_found render_ok schema_ok transport_ok service_on
    (NewActivityAnnouncement ["c@x.edu"; "nobody"; "d@x.edu"] "Chess Club" "Fri" "desc" 12)
    {| user_preferences := ∅; trace := [] |}
  = (Raise (Exception "ValidationError" "value is not a valid email address"),
     {| user_preferences := {["c@x.edu" := EmailPreferences_default "c@x.edu"]};
        trace := [] |}).
Proof. reflexivity. Qed.

(** ** The roster handlers *)

Lemma list_remove_app_new (x : string) (l : list string) :
  x ∉ l -> list_remove x (l ++ [x])%list = l.
Proof.
  induction l as [|y l IH]; intros Hx; simpl.
  - by rewrite decide_True.
  - apply not_elem_of_cons in Hx as [Hne Hx].
    rewrite decide_False by done. by rewrite IH.
Qed.

Lemma list_remove_elem (x y : string) (l : list string) :
  y ∈ list_remove x l -> y ∈ l.
Proof.
  induction l as [|z l IH]; simpl; [done|].
  destruct (decide (z = x)).
  - apply list_elem_of_further.
  - intros [->|H]%elem_of_cons; [apply list_elem_of_here|].
    by apply list_elem_of_further, IH.
Qed.

Lemma list_remove_nodup (x : string) (l : list string) :
  NoDup l -> NoDup (list_remove x l) /\ x ∉ list_remove x l.
Proof.
  induction 1 as [|z l Hz Hl IH]; simpl.
  - split; [constructor|apply not_elem_of_nil].
  - destruct (decide (z = x)) as [->|Hne]; [done|].
    destruct IH as [IH1 IH2]. split.
    + constructor; [|done]. intros H. by apply Hz, (list_remove_elem x).
    + by intros [?|?]%elem_of_cons.
Qed.

Lemma unregister_from_activity_enrolled
    (activity_name email : string) (activity : Activity) (a : App) :
  activities a !! activity_name = Some activity ->
  email ∈ participants activity ->
  exists broker' warnings',
    unregister_from_activity activity_name email a
    = (Response [("message",
                  VStr ("Unregistered " ++ email ++ " from " ++ activity_name))],
       {| activities :=
            <[activity_name :=
                {| description := description activity;
                   schedule := schedule activity;
                   max_participants := max_participants activity;
                   participants := list_remove email (participants activity) |}]>
              (activities a);
          broker := broker'; warnings := warnings' |})
    /\ match outage (broker a) with
       | None =>
           broker' = {| outage := None;
                        queue := (queue (broker a)
                                  ++ [UnregisterConfirmation email activity_name
                                        (schedule activity)])%list |}
           /\ warnings' = warnings a
       | Some e =>
           broker' = broker a
           /\ warnings'
              = (warnings a ++ [("Failed to queue confirmation email: " ++ exn_msg e)%string])%list
       end.
Proof.
  intros Hact Hin. unfold unregister_from_activity. rewrite Hact.
  rewrite bool_decide_eq_true_2 by done. simpl.
  unfold handler, bind, try_except, set_activity, delay, warning, ret. simpl.
  destruct (outage (broker a)) as [e|] eqn:Hout; simpl; by eexists _, _.
Qed.

Lemma signup_for_activity_new
    (activity_name email : string) (activity : Activity) (a : App) :
  activities a !! activity_name = Some activity ->
  email ∉ participants activity ->
  exists broker' warnings',
    signup_for_activity activity_name email a
    = (Response [("message", VStr ("Signed up " ++ email ++ " for " ++ activity_name))],
       {| activities :=
            <[activity_name :=
                {| description := description activity;
                   schedule := schedule activity;
                   max_participants := max_participants activity;
                   participants := (participants activity ++ [email])%list |}]>
              (activities a);
          broker := broker'; warnings := warnings' |})
    /\ match outage (broker a) with
       | None =>
           broker' = {| outage := None;
                        queue := (queue (broker a)
                                  ++ [SignupConfirmation email activity_name
                                        (schedule activity) (description activity)])%list |}
           /\ warnings' = warnings a
       | Some e =>
           broker' = broker a
           /\ warnings'
              = (warnings a ++ [("Failed to queue confirmation email: " ++ exn_msg e)%string])%list
       end.
Proof.
  intros Hact Hnew. unfold signup_for_activity. rewrite Hact.
  rewrite bool_decide_eq_false_2 by done.
  unfold handler, bind, try_except, set_activity, delay, warning, ret. simpl.
  destruct (outage (broker a)) as [e|] eqn:Hout; simpl; by eexists _, _.
Qed.

(** X20. A broker that cannot be reached does not fail a signup or an
    unregistration: the reply and the roster are what they are with a
    working broker, the queue is left as it was, and one warning is
    logged. *)
Theorem roster_handlers_survive_outage
    (activity_name email : string) (activity : Activity) (a : App) (e : PyExn) :
  activities a !! activity_name = Some activity ->
  outage (broker a) = Some e ->
  let up := {| activities := activities a;
               broker := {| outage := None; queue := queue (broker a) |};
               warnings := warnings a |} in
  let warned :=
    (warnings a ++ [("Failed to queue confirmation email: " ++ exn_msg e)%string])%list in
  (email ∉ participants activity ->
     (signup_for_activity activity_name email a).1
     = (signup_for_activity activity_name email up).1
     /\ activities (signup_for_activity activity_name email a).2
        = activities (signup_for_activity activity_name email up).2
     /\ roster (signup_for_activity activity_name email a).2 activity_name
        = (participants activity ++ [email])%list
     /\ broker (signup_for_activity activity_name email a).2 = broker a
     /\ warnings (signup_for_activity activity_name email a).2 = warned)
  /\ (email ∈ participants activity ->
        (unregister_from_activity activity_name email a).1
        = (unregister_from_activity activity_name email up).1
        /\ activities (unregister_from_activity activity_name email a).2
           = activities (unregister_from_activity activity_name email up).2
        /\ broker (unregister_from_activity activity_name email a).2 = broker a
        /\ warnings (unregister_from_activity activity_name email a).2 = warned).
Proof.
  intros Hact Hout up warned. split.
  - intros Hnew.
    destruct (signup_for_activity_new _ _ _ a Hact Hnew) as (b1 & w1 & -> & H1).
    destruct (signup_for_activity_new _ _ _ up Hact Hnew) as (b2 & w2 & -> & H2).
    rewrite Hout in H1. destruct H1 as [-> ->]. simpl.
    unfold roster. simpl. rewrite lookup_insert_eq. done.
  - intros Hin.
    destruct (unregister_from_activity_enrolled _ _ _ a Hact Hin) as (b1 & w1 & -> & H1).
    destruct (unregister_from_activity_enrolled _ _ _ up Hact Hin) as (b2 & w2 & -> & H2).
    rewrite Hout in H1. destruct H1 as [-> ->]. done.
Qed.

Lemma roster_handlers_survive_outage_witness :
  (signup_for_activity "GitHub Skills" "a@x.edu" offline_app).1
  = Response [("message", VStr "Signed up a@x.edu for GitHub Skills")]
  /\ queue (broker (signup_for_activity "GitHub Skills" "a@x.edu" offline_app).2) = []
  /\ roster (signup_for_activity "GitHub Skills" "a@x.edu" offline_app).2 "GitHub Skills"
     = ["a@x.edu"].
Proof.
  pose proof (roster_handlers_survive_outage "GitHub Skills" "a@x.edu" github_skills
                offline_app (Exception "OperationalError" "Connection refused")
                eq_refl eq_refl) as H.
  cbv zeta in H. destruct H as [H _].
  destruct (H (not_elem_of_nil _)) as (Hr & _ & Hro & Hb & _).
  split; [|split].
  - rewrite Hr. reflexivity.
  - rewrite Hb. reflexivity.
  - exact Hro.
Defined.

Lemma signup_for_activity_rejected (activity_name email : string) (a : App) :
  (activities a !! activity_name = None ->
   signup_for_activity activity_name email a
   = (HTTPException 404 "Activity not found", a))
  /\ (forall activity, activities a !! activity_name = Some activity ->
      email ∈ participants activity ->
      signup_for_activity activity_name email a
      = (HTTPException 400 "Student is already signed up", a)).
Proof.
  unfold signup_for_activity. split.
  - by intros ->.
  - intros activity -> Hin. by rewrite bool_decide_eq_true_2.
Qed.

Lemma unregister_from_activity_rejected (activity_name email : string) (a : App) :
  (activities a !! activity_name = None ->
   unregister_from_activity activity_name email a
   = (HTTPException 404 "Activity not found", a))
  /\ (forall activity, activities a !! activity_name = Some activity ->
      email ∉ participants activity ->
      unregister_from_activity activity_name email a
      = (HTTPException 400 "Student is not signed up for this activity", a)).
Proof.
  unfold unregister_from_activity. split.
  - by intros ->.
  - intros activity -> Hin. by rewrite bool_decide_eq_false_2.
Qed.

(** X21. Signing up and unregistering are inverse on the roster: after a
    successful signup a second signup of the same student is refused with
    status 400 and changes nothing, and an unregistration succeeds and
    gives back the activity database from before the signup. *)
Theorem signup_then_unregister
    (activity_name email : string) (activity : Activity) (a : App) :
  activities a !! activity_name = Some activity ->
  email ∉ participants activity ->
  let a1 := (signup_for_activity activity_name email a).2 in
  signup_for_activity activity_name email a1
  = (HTTPException 400 "Student is already signed up", a1)
  /\ (unregister_from_activity activity_name email a1).1
     = Response [("message",
                  VStr ("Unregistered " ++ email ++ " from " ++ activity_name))]
  /\ activities (unregister_from_activity activity_name email a1).2 = activities a.
Proof.
  intros Hact Hnew a1.
  destruct (signup_for_activity_new _ _ _ a Hact Hnew) as (b1 & w1 & Hs & _).
  set (enrolled := {| description := description activity;
                      schedule := schedule activity;
                      max_participants := max_participants activity;
                      participants := (participants activity ++ [email])%list |}).
  assert (activities a1 !! activity_name = Some enrolled) as Hact1.
  { unfold a1. rewrite Hs. simpl. apply lookup_insert_eq. }
  assert (email ∈ participants enrolled) as Hin.
  { simpl. apply elem_of_app. right. apply list_elem_of_here. }
  split; [|split].
  - by apply (proj2 (signup_for_activity_rejected activity_name email a1) enrolled).
  - by destruct (unregister_from_activity_enrolled _ _ _ a1 Hact1 Hin)
      as (b2 & w2 & -> & _).
  - destruct (unregister_from_activity_enrolled _ _ _ a1 Hact1 Hin)
      as (b2 & w2 & -> & _).
    simpl. rewrite list_remove_app_new by done.
    unfold a1. rewrite Hs. simpl. rewrite insert_insert_eq.
    apply insert_id. rewrite Hact. by destruct activity.
Qed.

Lemma signup_then_unregister_witness :
  activities
    (unregister_from_activity "GitHub Skills" "a@x.edu"
       (signup_for_activity "GitHub Skills" "a@x.edu" fresh_app).2).2
  = initial_activities.
Proof.
  pose proof (signup_then_unregister "GitHub Skills" "a@x.edu" github_skills fresh_app
                eq_refl (not_elem_of_nil _)) as H.
  cbv zeta in H. destruct H as (_ & _ & H).
  exact H.
Defined.

(** X22. No handler enrols a student twice: if no roster has a repeated
    student, none has after a signup or an unregistration, whatever their
    arguments and outcome.  On such rosters an unregistration that the
    handler accepts really removes the student. *)
Theorem rosters_stay_nodup (activity_name email : string) (a : App) :
  rosters_nodup (activities a) ->
  rosters_nodup (activities (signup_for_activity activity_name email a).2)
  /\ rosters_nodup (activities (unregister_from_activity activity_name email a).2)
  /\ (email ∈ roster a activity_name ->
      email ∉ roster (unregister_from_activity activity_name email a).2 activity_name).
Proof.
  intros Hnd. unfold roster.
  destruct (activities a !! activity_name) as [activity|] eqn:Hact.
  - pose proof (Hnd _ _ Hact) as Hl. simpl in Hl.
    destruct (decide (email ∈ participants activity)) as [Hin|Hnew].
    + rewrite (proj2 (signup_for_activity_rejected activity_name email a) _ Hact Hin).
      destruct (unregister_from_activity_enrolled _ _ _ a Hact Hin)
        as (b & w & -> & _).
      simpl. rewrite lookup_insert_eq. simpl.
      destruct (list_remove_nodup email _ Hl) as [Hl' Hgone].
      split; [done|]. split; [|done].
      by apply map_Forall_insert_2.
    + rewrite (proj2 (unregister_from_activity_rejected activity_name email a)
                 _ Hact Hnew).
      destruct (signup_for_activity_new _ _ _ a Hact Hnew) as (b & w & -> & _).
      simpl. split; [|by split].
      apply map_Forall_insert_2; [|done]. simpl.
      apply NoDup_app. split; [done|]. split; [|apply NoDup_singleton].
      intros x Hx ->%list_elem_of_singleton. done.
  - rewrite (proj1 (signup_for_activity_rejected activity_name email a) Hact).
    rewrite (proj1 (unregister_from_activity_rejected activity_name email a) Hact).
    split; [done|]. split; [done|]. intros H. by apply not_elem_of_nil in H.
Qed.

Lemma initial_activities_nodup : rosters_nodup initial_activities.
Proof.
  unfold rosters_nodup.
  apply (bool_decide_unpack _). vm_compute. exact I.
Defined.

Lemma rosters_stay_nodup_witness :
  rosters_nodup (activities (signup_for_activity "Chess Club" "a@x.edu" fresh_app).2)
  /\ "michael@mergington.edu"
     ∉ roster (unregister_from_activity "Chess Club" "michael@mergington.edu"
                 fresh_app).2 "Chess Club".
Proof.
  pose proof (rosters_stay_nodup "Chess Club" "a@x.edu" fresh_app
                initial_activities_nodup) as (H1 & _).
  pose proof (rosters_stay_nodup "Chess Club" "michael@mergington.edu" fresh_app
                initial_activities_nodup) as (_ & _ & H2).
  split; [exact H1|].
  apply H2. apply list_elem_of_here.
Defined.

(** X23. A signup or an unregistration concerns one activity only: every
    other entry of the activity database is left as it was, whatever the
    outcome, and the named activity keeps its description, its schedule and
    its capacity.  The capacity is not compared with the length of the
    roster: a signup is accepted on a full activity too. *)
Theorem roster_handlers_frame (activity_name other email : string) (a : App) :
  (other <> activity_name ->
   activities (signup_for_activity activity_name email a).2 !! other
   = activities a !! other
   /\ activities (unregister_from_activity activity_name email a).2 !! other
      = activities a !! other)
  /\ (forall activity, activities a !! activity_name = Some activity ->
      exists after_signup after_unregister,
        activities (signup_for_activity activity_name email a).2 !! activity_name
        = Some after_signup
        /\ activities (unregister_from_activity activity_name email a).2 !! activity_name
           = Some after_unregister
        /\ description after_signup = description activity
        /\ schedule after_signup = schedule activity
        /\ max_participants after_signup = max_participants activity
        /\ description after_unregister = description activity
        /\ schedule after_unregister = schedule activity
        /\ max_participants after_unregister = max_participants activity
        /\ (email ∉ participants activity ->
            Z.of_nat (length (participants after_signup))
            = (Z.of_nat (length (participants activity)) + 1)%Z)).
Proof.
  destruct (activities a !! activity_name) as [activity|] eqn:Hact.
  - destruct (decide (email ∈ participants activity)) as [Hin|Hnew].
    + rewrite (proj2 (signup_for_activity_rejected activity_name email a) _ Hact Hin).
      destruct (unregister_from_activity_enrolled _ _ _ a Hact Hin)
        as (b & w & -> & _).
      simpl. split.
      * intros Hne. by rewrite lookup_insert_ne.
      * intros ? [= <-]. rewrite lookup_insert_eq. by eexists _, _.
    + rewrite (proj2 (unregister_from_activity_rejected activity_name email a)
                 _ Hact Hnew).
      destruct (signup_for_activity_new _ _ _ a Hact Hnew) as (b & w & -> & _).
      simpl. split.
      * intros Hne. by rewrite lookup_insert_ne.
      * intros ? [= <-]. rewrite lookup_insert_eq. eexists _, _.
        repeat split; try done. intros _. simpl. rewrite length_app. simpl. lia.
  - rewrite (proj1 (signup_for_activity_rejected activity_name email a) Hact).
    rewrite (proj1 (unregister_from_activity_rejected activity_name email a) Hact).
    split; [done|]. intros ? [=].
Qed.

(** ** The announcement handlers *)

(** X24. A batch announcement with at least one recipient is never
    refused and never raises.  It puts exactly one task on the queue,
    carrying the whole list as given (the preferences are not consulted and
    the activity database is not touched); with the broker down it queues
    nothing, logs one warning and still answers, with a warning field.  In
    both cases the reply counts the recipients. *)
Theorem send_batch_announcement_nonempty
    (recipients : list string) (subject template_name : string)
    (context : gmap string PyVal) (a : App) :
  recipients <> [] ->
  let after := (send_batch_announcement recipients subject template_name context a).2 in
  activities after = activities a
  /\ (exists body,
        (send_batch_announcement recipients subject template_name context a).1
        = Response body
        /\ ("recipients_count", VInt (Z.of_nat (length recipients))) ∈ body)
  /\ match outage (broker a) with
     | None =>
         queue (broker after)
         = (queue (broker a)
            ++ [BatchEmails recipients subject template_name context])%list
         /\ warnings after = warnings a
     | Some e =>
         broker after = broker a
         /\ warnings after
            = (warnings a ++ [("Failed to queue batch emails: " ++ exn_msg e)%string])%list
         /\ ("warning", VStr "Email service may not be available")
            ∈ match (send_batch_announcement recipients subject template_name context a).1
              with Response body => body | HTTPException _ _ => [] end
     end.
Proof.
  intros Hne after. unfold after, send_batch_announcement.
  destruct recipients as [|r rest]; [done|]. simpl.
  unfold handler, try_except, bind, delay, warning, ret.
  destruct (outage (broker a)) as [e|] eqn:Hout; simpl.
  - split; [done|]. split.
    + eexists. split; [reflexivity|].
      apply list_elem_of_further, list_elem_of_here.
    + split; [done|]. split; [done|].
      do 2 apply list_elem_of_further. apply list_elem_of_here.
  - split; [done|]. split; [|done].
    eexists. split; [reflexivity|].
    apply list_elem_of_further, list_elem_of_here.
Qed.

Lemma send_batch_announcement_nonempty_witness :
  queue (broker (send_batch_announcement ["a@x.edu"; "muted@mergington.edu"]
                   "News" "new_activity" ∅ fresh_app).2)
  = [BatchEmails ["a@x.edu"; "muted@mergington.edu"] "News" "new_activity" ∅].
Proof.
  pose proof (send_batch_announcement_nonempty ["a@x.edu"; "muted@mergington.edu"]
                "News" "new_activity" ∅ fresh_app) as H.
  cbv zeta in H. destruct H as (_ & _ & H); [discriminate|].
  simpl in H. exact (proj1 H).
Defined.

Section AnnounceFacts.

Variable email_str : string -> PyResult string.
Variable items : Store -> list (string * EmailPreferences).

(** Whatever the insertion order was, [items] lists every entry of the
    dictionary once. *)
Hypothesis items_entries : forall st : Store, items st ≡ₚ map_to_list st.

Lemma scan_recipients_elem (st : Store) (email : string) :
  email ∈ scan_recipients items st
  <-> exists prefs, st !! email = Some prefs
                    /\ new_activities prefs = true
                    /\ email_preferences.enabled prefs = true.
Proof.
  unfold scan_recipients. rewrite list_elem_of_In, List.in_map_iff. split.
  - intros ([key prefs] & <- & Hin). apply List.filter_In in Hin as [Hin Hok].
    apply list_elem_of_In in Hin. rewrite items_entries in Hin.
    apply elem_of_map_to_list in Hin.
    apply andb_true_iff in Hok as [? ?]. by exists prefs.
  - intros (prefs & Hst & Hn & He). exists (email, prefs). split; [done|].
    apply List.filter_In. split.
    + apply list_elem_of_In. rewrite items_entries. by apply elem_of_map_to_list.
    + simpl. by rewrite Hn, He.
Qed.

Lemma scan_recipients_nodup (st : Store) : NoDup (scan_recipients items st).
Proof.
  unfold scan_recipients.
  assert (NoDup (List.map fst (items st))) as Hnd.
  { change (NoDup ((items st).*1)). rewrite items_entries. apply NoDup_fst_map_to_list. }
  revert Hnd. induction (items st) as [|[key prefs] l IH]; simpl; [done|].
  intros [Hk Hl]%NoDup_cons. specialize (IH Hl).
  destruct (new_activities prefs && email_preferences.enabled prefs); [|done].
  simpl. apply NoDup_cons. split; [|done].
  intros Hin. apply Hk.
  apply list_elem_of_In, List.in_map_iff in Hin as (entry & <- & Hin).
  apply List.filter_In in Hin as [Hin _].
  apply list_elem_of_In, List.in_map_iff. by exists entry.
Qed.

(** X25. When no recipient list is given, the announcement handler
    addresses exactly the identities with a stored record whose
    [new_activities] flag and global switch are on, each once; identities
    without a record are never among them, although the filter of the
    worker lets them pass when the address check accepts them.  Every
    stored identity that the worker's
    filter lets pass is among them; the converse fails, since the scan
    looks at neither the frequency nor digest-only mode. *)
Theorem scan_recipients_selects (st : Store) :
  (forall email,
     email ∈ scan_recipients items st
     <-> exists prefs, st !! email = Some prefs
                       /\ new_activities prefs = true
                       /\ email_preferences.enabled prefs = true)
  /\ NoDup (scan_recipients items st)
  /\ (forall email, st !! email = None ->
        (email ∉ scan_recipients items st)
        /\ forall address, email_str email = Return address ->
             (should_send_email email_str email NotificationCategory.NEW_ACTIVITIES st).1
             = Return true)
  /\ (forall email, is_Some (st !! email) ->
        (should_send_email email_str email NotificationCategory.NEW_ACTIVITIES st).1
        = Return true ->
        email ∈ scan_recipients items st).
Proof.
  split; [apply scan_recipients_elem|]. split; [apply scan_recipients_nodup|]. split.
  - intros email Hmiss. split.
    + rewrite scan_recipients_elem. intros (prefs & Hst & _). congruence.
    + intros address Ha.
      rewrite should_send_email_unfold, (get_user_preferences_miss _ _ _ _ Hmiss Ha).
      done.
  - intros email [prefs Hst] Hsend. apply scan_recipients_elem. exists prefs.
    rewrite should_send_email_unfold, (get_user_preferences_hit _ _ _ _ Hst) in Hsend.
    simpl in Hsend. injection Hsend as Hsend.
    apply should_send_with_true_iff in Hsend as (He & _ & _ & Hf).
    done.
Qed.

(** X26. The announcement handler: an unknown activity gives 404 and
    changes nothing; a list of recipients that is given and not empty is
    queued as it is, whatever the preferences say; without one, the
    scanned list is queued, and when that list is empty the handler answers
    "No recipients to send to" and queues nothing.  The preference store of
    the web process is never written. *)
Theorem announce_new_activity_outcomes
    (activity_name : string) (given : option (list string)) (w : Web) :
  let run := announce_new_activity items activity_name given w in
  let chosen :=
    match given with
    | Some (r :: rest) => r :: rest
    | _ => scan_recipients items (web_preferences w)
    end in
  web_preferences run.2 = web_preferences w
  /\ activities (web_app run.2) = activities (web_app w)
  /\ (activities (web_app w) !! activity_name = None ->
      run = (HTTPException 404 "Activity not found", w))
  /\ (forall activity, activities (web_app w) !! activity_name = Some activity ->
      (chosen = [] ->
       run = (Response [("message", VStr "No recipients to send to")], w))
      /\ (chosen <> [] -> outage (broker (web_app w)) = None ->
          queue (broker (web_app run.2))
          = (queue (broker (web_app w))
             ++ [NewActivityAnnouncement chosen activity_name (schedule activity)
                   (description activity) (max_participants activity)])%list)
      /\ (chosen <> [] -> is_Some (outage (broker (web_app w))) ->
          broker (web_app run.2) = broker (web_app w)
          /\ exists body, run.1 = Response body
               /\ ("warning", VStr "Email service may not be available") ∈ body)).
Proof.
  intros run chosen. unfold run, announce_new_activity.
  destruct (activities (web_app w) !! activity_name) as [activity|] eqn:Hact;
    [|by repeat split].
  assert ((if negb (opt_list_truthy given)
           then scan_recipients items (get_all_preferences (web_preferences w)).1
           else default [] given) = chosen) as ->.
  { unfold chosen. by destruct given as [[|r rest]|]. }
  destruct chosen as [|c rest] eqn:Hc; simpl.
  - split; [done|]. split; [done|]. split; [done|].
    intros ? [= <-]. by repeat split.
  - unfold on_app, try_except, bind, delay, warning, ret.
    destruct (outage (broker (web_app w))) as [e|] eqn:Hout; simpl.
    + split; [done|]. split; [done|]. split; [done|].
      intros ? [= <-]. split; [done|]. split; [done|].
      intros _ _. split; [done|].
      eexists. split; [reflexivity|].
      do 3 apply list_elem_of_further. apply list_elem_of_here.
    + split; [done|]. split; [done|]. split; [done|].
      intros ? [= <-]. split; [done|]. split; [done|].
      by intros _ [? [=]].
Qed.

End AnnounceFacts.

Lemma scan_recipients_selects_witness :
  "student@mergington.edu" ∈ scan_recipients items_sorted web_store
  /\ "paused@mergington.edu" ∈ scan_recipients items_sorted web_store
  /\ "new@mergington.edu" ∉ scan_recipients items_sorted web_store.
Proof.
  pose proof (scan_recipients_selects sample_email_str items_sorted
                (fun st => reflexivity _) web_store)
    as (Hel & _ & Hnew & _).
  split; [|split].
  - apply Hel. exists student_prefs. repeat split.
  - apply Hel. exists paused_prefs. repeat split.
  - apply Hnew. reflexivity.
Defined.

(** The scan selects an identity that the worker then drops: the record
    is enabled and wants new activities, but its frequency is
    [DISABLED]. *)
Example scan_is_wider_than_filter :
  "paused@mergington.edu" ∈ scan_recipients items_sorted web_store
  /\ (should_send_email sample_email_str "paused@mergington.edu"
        NotificationCategory.NEW_ACTIVITIES web_store).1 = Return false.
Proof.
  split; [|reflexivity].
  apply (scan_recipients_elem items_sorted (fun st => reflexivity _)).
  exists paused_prefs. repeat split.
Qed.

(** ** The configuration of the service *)

Import email_config.

Lemma is_email_enabled_true_iff (environ : gmap string string) :
  is_email_enabled environ = true
  <-> exists username password,
        environ !! "MAIL_USERNAME" = Some username /\ username <> ""
        /\ environ !! "MAIL_PASSWORD" = Some password /\ password <> "".
Proof.
  unfold is_email_enabled, getenv.
  destruct (environ !! "MAIL_USERNAME") as [username|] eqn:Hu.
  - destruct (opt_str_truthy (Some username)) eqn:Tu.
    + apply opt_str_truthy_Some in Tu.
      destruct (environ !! "MAIL_PASSWORD") as [password|] eqn:Hp.
      * rewrite opt_str_truthy_Some. split.
        -- intros Hne. by exists username, password.
        -- by intros (? & ? & _ & _ & [= <-] & ?).
      * split; [done|]. by intros (? & ? & _ & _ & [=] & _).
    + rewrite Tu. split; [done|].
      intros (? & ? & [= <-] & Hne & _).
      apply opt_str_truthy_Some in Hne. congruence.
  - simpl. split; [done|]. by intros (? & ? & [=] & _).
Qed.

Section ConfiguredService.

Variable jinja_get_template : string -> PyResult unit.
Variable jinja_render : string -> gmap string PyVal -> PyResult string.
Variable schema_validate : email_service.MessageSchema -> PyResult unit.
Variable mail_send_message : email_service.MessageSchema -> PyResult unit.

(** X27. The service counts as configured exactly when both
    [MAIL_USERNAME] and [MAIL_PASSWORD] are in the environment with a value
    that is not empty; the status handler reports this flag and the
    matching message.  A service whose flag was computed in an environment
    where a credential is missing or empty returns [False] on every send
    and calls neither the template engine nor the transport. *)
Theorem is_email_enabled_credentials (environ : gmap string string) :
  let configured :=
    exists username password,
      environ !! "MAIL_USERNAME" = Some username /\ username <> ""
      /\ environ !! "MAIL_PASSWORD" = Some password /\ password <> "" in
  (is_email_enabled environ = true <-> configured)
  /\ (configured ->
      get_email_service_status environ
      = [("enabled", VBool true); ("message", VStr "Email service is configured")])
  /\ (~ configured ->
      get_email_service_status environ
      = [("enabled", VBool false);
         ("message",
          VStr "Email service is not configured. Set MAIL_USERNAME and MAIL_PASSWORD environment variables.")]
      /\ forall recipients subject template_name context cc t,
           email_service.send_email jinja_get_template jinja_render schema_validate
             mail_send_message
             {| email_service.enabled := is_email_enabled environ |}
             recipients subject template_name context cc t
           = (Return false,
              (t ++ [email_service.EvLog "info" "Email service disabled. Would send to"
                       recipients subject])%list)).
Proof.
  intros configured.
  pose proof (is_email_enabled_true_iff environ) as Hiff. fold configured in Hiff.
  split; [done|]. split.
  - intros Hc. apply Hiff in Hc. unfold get_email_service_status. by rewrite Hc.
  - intros Hn.
    assert (is_email_enabled environ = false) as Hoff.
    { destruct (is_email_enabled environ) eqn:E; [|done].
      exfalso. apply Hn. by apply Hiff. }
    unfold get_email_service_status. rewrite Hoff. split; [done|].
    intros. by apply send_email_disabled.
Qed.

End ConfiguredService.

Example is_email_enabled_samples :
  is_email_enabled env_full = true
  /\ is_email_enabled env_no_password = false
  /\ is_email_enabled env_empty_password = false
  /\ is_email_enabled ∅ = false.
Proof. repeat split. Qed.
